(** * go-libravatar: federated avatar lookup

    A shallow embedding of the federation resolver of go-libravatar: the
    SRV lookup, the RFC 2782 weighted selection and the name cache.  The
    repository holds three variants of [baseURL]; each one is embedded in a
    module of its own, next to the Go primitives they share:

    - [Weighted]: [libravatar.go] (priority / weight selection among
      several SRV records, [nameCache] declared but never consulted);
    - [Cached]:   [part_000] (first SRV record, name cache with
      a time-to-live);
    - [Plain]:    [part_001] (first SRV record, no cache).

    Hashing and the assembly of the final URL ([genHash], [process],
    [FromEmail], [FromURL]) are not embedded: they only consume the string
    that [baseURL] returns. *)

From Stdlib Require Import ZArith Lia List.
From stdpp Require Import base strings gmap list pretty.

Open Scope Z_scope.

(** ** Go primitives used by the three variants *)

Module Go.

(** A Go call either returns or panics. *)
Inductive outcome (A : Type) : Type :=
| Return (a : A)
| Panic (msg : string).
Arguments Return {A} a.
Arguments Panic {A} msg.

(** [uint16(n)]: conversion with wrap-around. *)
Definition uint16 (n : Z) : Z := n mod 65536.

Definition is_uint16 (n : Z) : Prop := 0 <= n < 65536.

(** [net.SRV] *)
Record SRV : Type := mkSRV {
  Target : string;
  Port : Z;
  Priority : Z;
  Weight : Z
}.

Definition wf_SRV (rr : SRV) : Prop :=
  is_uint16 (Port rr) /\ is_uint16 (Priority rr) /\ is_uint16 (Weight rr).

(** [net.DNSError], with the fields the resolver reads. *)
Record DNSError : Type := mkDNSError {
  Err : string;
  Name : string;
  IsTimeout : bool
}.

(** A non-nil value of the interface type [error], by dynamic type:
    [*net.DNSError], the value built by [fmt.Errorf], anything else. *)
Inductive error : Type :=
| DNSErr (e : DNSError)
| ErrorString (s : string)
| OtherErr (s : string).

(** The one-result type assertion of an [error] to [*net.DNSError]: it
    panics when the dynamic type differs. *)
Definition assert_DNSError (e : error) : outcome DNSError :=
  match e with
  | DNSErr d => Return d
  | _ => Panic "interface conversion: error is not *net.DNSError"
  end.

(** The arguments of one call of [net.LookupSRV]. *)
Definition query : Type := (string * string * string)%type.

(** What [net.LookupSRV] hands back: the records and the error (the
    canonical name is dropped by every caller). *)
Definition answer : Type := (list SRV * option error)%type.

(** [strings.HasSuffix] and [strings.TrimSuffix]. *)
Definition HasSuffix (s suffix : string) : bool :=
  let n := String.length s in
  let m := String.length suffix in
  (m <=? n)%nat && String.eqb (String.substring (n - m) m s) suffix.

Definition TrimSuffix (s suffix : string) : string :=
  if HasSuffix s suffix
  then String.substring 0 (String.length s - String.length suffix) s
  else s.

(** [tgt[:len(tgt)-1]]: slicing the empty string up to [-1] panics. *)
Definition strip_last (tgt : string) : outcome string :=
  match String.length tgt with
  | O => Panic "slice bounds out of range"
  | S n => Return (String.substring 0 n tgt)
  end.

(** [fmt.Sprintf("%s:%d", target, port)] for a [uint16] port. *)
Definition Sprintf_s_colon_d (s : string) (d : Z) : string :=
  s +:+ ":" +:+ pretty (Z.to_N d).

(** [rand.Intn(n)]: panics when [n <= 0]; [draw n] is the number the
    generator yields for the bound [n]. *)
Definition Intn (draw : Z -> Z) (n : Z) : outcome Z :=
  if n <=? 0 then Panic "invalid argument to Intn" else Return (draw n).

(** The contract of the generator: a draw for [n > 0] lies in [[0, n)]. *)
Definition valid_draw (draw : Z -> Z) : Prop :=
  forall n, 0 < n -> 0 <= draw n < n.

(** [time.Duration] is an [int64] of nanoseconds; [Time.Sub] saturates. *)
Definition minDuration : Z := - 2 ^ 63.
Definition maxDuration : Z := 2 ^ 63 - 1.
Definition Hour : Z := 3600 * 1000000000.

(** [t.Sub(u)], instants in nanoseconds. *)
Definition Sub (t u : Z) : Z :=
  if maxDuration <? t - u then maxDuration
  else if t - u <? minDuration then minDuration
  else t - u.

(** A small state monad with panics: the state is the receiver together
    with the log of the DNS queries performed so far. *)
Definition M (S A : Type) : Type := S -> outcome A * S.

Definition ret {S A} (a : A) : M S A := fun s => (Return a, s).
Definition panic {S A} (msg : string) : M S A := fun s => (Panic msg, s).
Definition bind {S A B} (m : M S A) (k : A -> M S B) : M S B :=
  fun s =>
    match m s with
    | (Return a, s') => k a s'
    | (Panic msg, s') => (Panic msg, s')
    end.
Definition get {S} : M S S := fun s => (Return s, s).
Definition modify {S} (f : S -> S) : M S unit := fun s => (Return tt, f s).
Definition lift {S A} (o : outcome A) : M S A := fun s => (o, s).

(** The receiver of a method and the DNS queries performed so far. *)
Record state (L : Type) : Type := mkState {
  this : L;
  lookups : list query
}.
Arguments mkState {L} this lookups.
Arguments this {L} s.
Arguments lookups {L} s.

(** A call of [net.LookupSRV] leaves its arguments in the log. *)
Definition logged {L} (q : query) (s : state L) : state L :=
  {| this := this s; lookups := lookups s ++ [q] |}.

Definition log_query {L} (q : query) : M (state L) unit := modify (logged q).

(** [cacheKey] and [cacheValue], declared alike in [libravatar.go] and in
    [part_000]; [checkedAt] is an instant in nanoseconds. *)
Record cacheKey : Type := mkKey { service : string; domain : string }.

Record cacheValue : Type := mkValue { target : string; checkedAt : Z }.

#[global] Instance cacheKey_eq_dec : EqDecision cacheKey.
Proof. solve_decision. Defined.

#[global] Instance cacheKey_countable : Countable cacheKey :=
  inj_countable' (fun k => (service k, domain k))
                 (fun p => mkKey p.1 p.2)
                 (fun k => match k with mkKey _ _ => eq_refl end).

(** *** More primitives: the ones the callers of [baseURL] use *)

(** [strings.Index(s, substr)]: the byte offset of the first occurrence,
    [-1] when there is none. *)
Fixpoint index_from (substr s : string) : option nat :=
  if String.prefix substr s then Some O
  else
    match s with
    | EmptyString => None
    | String _ rest => option_map S (index_from substr rest)
    end.

Definition Index (s substr : string) : Z :=
  match index_from substr s with
  | Some n => Z.of_nat n
  | None => -1
  end.

(** [s[n:]]: panics when [n] exceeds the length. *)
Fixpoint drop_bytes (n : nat) (s : string) : string :=
  match n, s with
  | O, _ => s
  | S n', String _ rest => drop_bytes n' rest
  | S _, EmptyString => EmptyString
  end.

Definition slice_from (n : Z) (s : string) : outcome string :=
  if (n <? 0) || (Z.of_nat (String.length s) <? n)
  then Panic "slice bounds out of range"
  else Return (drop_bytes (Z.to_nat n) s).

(** [strings.Split(s, sep)] for a separator of one byte: the pieces between
    the occurrences of the byte, a single empty piece for the empty string. *)
Fixpoint Split (s : string) (sep : Ascii.ascii) : list string :=
  match s with
  | EmptyString => [EmptyString]
  | String c rest =>
      if Ascii.eqb c sep then EmptyString :: Split rest sep
      else
        match Split rest sep with
        | [] => [String c EmptyString]
        | piece :: pieces => String c piece :: pieces
        end
  end.

(** [string(i)] for an integer [i]: the UTF-8 encoding of the code point
    [i], of U+FFFD when [i] is no valid code point. *)
Definition byte_of (n : Z) : Ascii.ascii := Ascii.ascii_of_N (Z.to_N n).

Definition string_of_int (i : Z) : string :=
  if (i <? 0) || (1114111 <? i) || ((55296 <=? i) && (i <=? 57343))
  then String (byte_of 239) (String (byte_of 191) (String (byte_of 189) ""))
  else if i <? 128 then String (byte_of i) ""
  else if i <? 2048
  then String (byte_of (Z.lor 192 (Z.shiftr i 6)))
         (String (byte_of (Z.lor 128 (Z.land i 63))) "")
  else if i <? 65536
  then String (byte_of (Z.lor 224 (Z.shiftr i 12)))
         (String (byte_of (Z.lor 128 (Z.land (Z.shiftr i 6) 63)))
            (String (byte_of (Z.lor 128 (Z.land i 63))) ""))
  else String (byte_of (Z.lor 240 (Z.shiftr i 18)))
         (String (byte_of (Z.lor 128 (Z.land (Z.shiftr i 12) 63)))
            (String (byte_of (Z.lor 128 (Z.land (Z.shiftr i 6) 63)))
               (String (byte_of (Z.lor 128 (Z.land i 63))) ""))).

(** The bytes of ["/"] and of ["@"]. *)
Definition slash : Ascii.ascii := byte_of 47.
Definition at_sign : Ascii.ascii := byte_of 64.

(** [url.URL], as far as the callers read it: the scheme, the host and
    what is left of the URL. *)
Record URL : Type := mkURL {
  Scheme : string;
  Host : string;
  Remainder : string
}.

(** The functions of the Go library that the callers reach and that are
    not embedded: they are taken as they come. *)
Record Library : Type := mkLibrary {
  ToLower : string -> string;
  TrimSpace : string -> string;
  md5_hex : string -> string;
  sha256_hex : string -> string;
  QueryEscape : string -> string;
  ParseAddress : string -> string + error;
  url_Parse : string -> URL + error;
  URL_String : URL -> string
}.

End Go.

Import Go.

Notation "'let*' x ':=' m 'in' k" := (Go.bind m (fun x => k))
  (at level 10, x name, m at level 100, k at level 200).
Notation "'run' m 'in' k" := (Go.bind m (fun _ => k))
  (at level 10, m at level 100, k at level 200).

(** Unfolding the monad in a goal. *)
Ltac run_monad :=
  unfold Go.bind, Go.get, Go.lift, Go.ret, Go.log_query, Go.modify; cbn beta iota.

(** ** [libravatar.go] *)

Module Weighted.

Record Libravatar : Type := mkLibravatar {
  defUrl : string;
  picSize : Z;
  fallbackHost : string;
  secureFallbackHost : string;
  useHTTPS : bool;
  nameCache : gmap cacheKey cacheValue;
  nameCacheDuration : Z;
  minAvatarSize : Z;
  maxAvatarSize : Z;
  AvatarSize : Z;
  serviceBase : string;
  secureServiceBase : string
}.

Definition New : Libravatar :=
  {| defUrl := "";
     picSize := 0;
     fallbackHost := "cdn.libravatar.org";
     secureFallbackHost := "seccdn.libravatar.org";
     useHTTPS := false;
     nameCache := ∅;
     nameCacheDuration := 24 * Hour;
     minAvatarSize := 1;
     maxAvatarSize := 512;
     AvatarSize := 0;
     serviceBase := "avatars";
     secureServiceBase := "avatars-sec" |}.

Definition SetFallbackHost (v : Libravatar) (host : string) : Libravatar :=
  {| defUrl := defUrl v;
     picSize := picSize v;
     fallbackHost := host;
     secureFallbackHost := secureFallbackHost v;
     useHTTPS := useHTTPS v;
     nameCache := nameCache v;
     nameCacheDuration := nameCacheDuration v;
     minAvatarSize := minAvatarSize v;
     maxAvatarSize := maxAvatarSize v;
     AvatarSize := AvatarSize v;
     serviceBase := serviceBase v;
     secureServiceBase := secureServiceBase v |}.

Definition SetUseHTTPS (v : Libravatar) (use : bool) : Libravatar :=
  {| defUrl := defUrl v;
     picSize := picSize v;
     fallbackHost := fallbackHost v;
     secureFallbackHost := secureFallbackHost v;
     useHTTPS := use;
     nameCache := nameCache v;
     nameCacheDuration := nameCacheDuration v;
     minAvatarSize := minAvatarSize v;
     maxAvatarSize := maxAvatarSize v;
     AvatarSize := AvatarSize v;
     serviceBase := serviceBase v;
     secureServiceBase := secureServiceBase v |}.

(** What [baseURL] reads from outside the receiver: the DNS resolver, the
    random generator and [url.Parse] (reduced to the host it extracts, or
    [None] when it fails). *)
Record World : Type := mkWorld {
  LookupSRV : string -> string -> string -> answer;
  draw : Z -> Z;
  url_Parse_Host : string -> option string
}.

(** The two pointer arguments [email *mail.Address, openid *url.URL]:
    the address of the former, the host of the latter. *)
Record identity : Type := mkIdentity {
  email : option string;
  openid : option string
}.

Definition getDomain (w : World) (v : Libravatar) (id : identity)
  : outcome string :=
  match email id with
  | Some address =>
      match url_Parse_Host w ("//" +:+ address) with
      | None =>
          if useHTTPS v && negb (String.eqb (secureFallbackHost v) "")
          then Return (secureFallbackHost v)
          else Return (fallbackHost v)
      | Some host => Return host
      end
  | None =>
      match openid id with
      | Some host => Return host
      | None => Panic "Neither Email or OpenID set"
      end
  end.

(** The local type [record] of [baseURL]: a candidate and its tag. *)
Record record : Type := mkRecord { srv : SRV; weight : Z }.

(** The three variables the first loop of [baseURL] updates. *)
Record scan : Type := mkScan {
  total_weight : Z;
  records : list record;
  top_priority : Z
}.

(** The state in which the loop starts, and restarts on a lower priority. *)
Definition start (p : Z) : scan :=
  {| total_weight := 0; records := []; top_priority := p |}.

(** One iteration of [for _, rr := range addrs]. *)
Definition scan_step (st : scan) (rr : SRV) : scan :=
  if top_priority st <? Priority rr then st
  else
    let st1 :=
      if Priority rr <? top_priority st
      then start (Priority rr)
      else st in
    let tw := uint16 (total_weight st1 + Weight rr) in
    let recs :=
      if 0 <? Weight rr
      then records st1 ++ [ {| srv := rr; weight := tw |} ]
      else if Weight rr =? 0
      then {| srv := rr; weight := tw |} :: records st1
      else records st1 in
    {| total_weight := tw; records := recs; top_priority := top_priority st1 |}.

Definition scan_all (addrs : list SRV) (top : Z) : scan :=
  fold_left scan_step addrs (start top).

Definition same_priority (p : Z) (rr : SRV) : bool := Priority rr =? p.

(** A candidate of the specification, as a [record]. *)
Definition tag (c : SRV * Z) : record := {| srv := c.1; weight := c.2 |}.

(** The second loop: the first candidate whose tag is [>= randnum];
    [None] is the nil [top_record]. *)
Fixpoint first_ge (recs : list record) (randnum : Z) : option SRV :=
  match recs with
  | [] => None
  | rr :: rest =>
      if randnum <=? weight rr then Some (srv rr) else first_ge rest randnum
  end.

(** The block of [baseURL] run when [len(addrs) > 1], up to the choice of
    [top_record]. *)
Definition selectRecord (rnd : Z -> Z) (addrs : list SRV) : outcome SRV :=
  match addrs with
  | [] => Panic "index out of range"
  | first :: _ =>
      let st := scan_all addrs (Priority first) in
      match records st with
      | [only] => Return (srv only)
      | recs =>
          match Intn rnd (total_weight st) with
          | Panic msg => Panic msg
          | Return n =>
              match first_ge recs (uint16 n) with
              | Some top_record => Return top_record
              | None => Panic "nil pointer dereference"
              end
          end
      end
  end.

(** The three assignments of the first [if] of [baseURL]. *)
Definition protocol (v : Libravatar) : string :=
  if useHTTPS v then "https://" else "http://".
Definition serviceName (v : Libravatar) : string :=
  if useHTTPS v then secureServiceBase v else serviceBase v.
Definition fallback (v : Libravatar) : string :=
  if useHTTPS v then secureFallbackHost v else fallbackHost v.

Definition baseURL (w : World) (id : identity)
  : M (state Libravatar) (string * option error) :=
  let* s := get in
  let v := this s in
  let protocol := protocol v in
  let service := serviceName v in
  let domain := fallback v in
  let* host := lift (getDomain w v id) in
  run log_query (service, "tcp", host) in
  let '(addrs, err) := LookupSRV w service "tcp" host in
  let* timeout :=
    match err with
    | None => ret false
    | Some e => let* d := lift (assert_DNSError e) in ret (IsTimeout d)
    end in
  if (timeout : bool) then ret ("", err)
  else
    match addrs with
    | [] => ret (protocol +:+ domain, None)
    | [only] => ret (protocol +:+ TrimSuffix (Target only) ".", None)
    | _ =>
        let* top_record := lift (selectRecord (draw w) addrs) in
        ret (protocol +:+
               Sprintf_s_colon_d (Target top_record) (Port top_record), None)
    end.

(** *** The callers of [baseURL] in [libravatar.go] *)

(** The two pointer arguments of [genHash] and [process] in full: the
    address of the email, the parsed URL of the OpenID. *)
Record request : Type := mkRequest {
  email_address : option string;
  openid_url : option URL
}.

(** What [getDomain] reads of them. *)
Definition to_identity (r : request) : identity :=
  {| email := email_address r; openid := Host <$> openid_url r |}.

(** [genHash]: the hexadecimal MD5 of the trimmed, lower-cased address, or
    the hexadecimal SHA-256 of the URL with scheme and host lower-cased.
    The assignments to [email.Address], [openid.Scheme] and [openid.Host]
    change objects that [FromEmail] and [FromURL] have just built and drop
    on return. *)
Definition genHash (lib : Library) (r : request) : outcome string :=
  match email_address r with
  | Some address => Return (md5_hex lib (ToLower lib (TrimSpace lib address)))
  | None =>
      match openid_url r with
      | Some u =>
          Return (sha256_hex lib
                    (URL_String lib {| Scheme := ToLower lib (Scheme u);
                                       Host := ToLower lib (Host u);
                                       Remainder := Remainder u |}))
      | None => Panic "Neither Email or OpenID set"
      end
  end.

(** [url.Values.Encode] on the pairs of [values], given in the order of
    their keys. *)
Fixpoint Encode (lib : Library) (values : list (string * string)) : string :=
  match values with
  | [] => ""
  | [(k, x)] => QueryEscape lib k +:+ "=" +:+ QueryEscape lib x
  | (k, x) :: rest =>
      QueryEscape lib k +:+ "=" +:+ QueryEscape lib x +:+ "&" +:+ Encode lib rest
  end.

(** The map [values] of [process]: [d] when [defUrl] is set, [s] when
    [AvatarSize] is positive. *)
Definition query_values (v : Libravatar) : list (string * string) :=
  (if negb (String.eqb (defUrl v) "") then [("d", defUrl v)] else [])
  ++ (if 0 <? AvatarSize v then [("s", pretty (Z.to_N (AvatarSize v)))] else []).

Definition process (lib : Library) (w : World) (r : request)
  : M (state Libravatar) (string * option error) :=
  let* res := baseURL w (to_identity r) in
  match res.2 with
  | Some err => ret ("", Some err)
  | None =>
      let* hash := lift (genHash lib r) in
      let res := res.1 +:+ "/avatar/" +:+ hash in
      let* s := get in
      let values := query_values (this s) in
      if (0 <? length values)%nat
      then ret (res +:+ "?" +:+ Encode lib values, None)
      else ret (res, None)
  end.

Definition FromEmail (lib : Library) (w : World) (email : string)
  : M (state Libravatar) (string * option error) :=
  match ParseAddress lib email with
  | inr err => ret ("", Some err)
  | inl addr =>
      let* res := process lib w {| email_address := Some addr; openid_url := None |} in
      match res.2 with
      | Some err => ret ("", Some err)
      | None => ret (res.1, None)
      end
  end.

Definition FromURL (lib : Library) (w : World) (openid : string)
  : M (state Libravatar) (string * option error) :=
  match url_Parse lib openid with
  | inr err => ret ("", Some err)
  | inl ourl =>
      let* res := process lib w {| email_address := None; openid_url := Some ourl |} in
      match res.2 with
      | Some err => ret ("", Some err)
      | None => ret (res.1, None)
      end
  end.

End Weighted.

(** ** [part_000]: first record, name cache *)

Module Cached.

Record Libravatar : Type := mkLibravatar {
  defUrl : string;
  picSize : Z;
  useDomain : bool;
  useHTTPS : bool;
  fallbackHost : string;
  nameCache : gmap cacheKey cacheValue;
  nameCacheDuration : Z
}.

Definition New : Libravatar :=
  {| defUrl := "";
     picSize := 0;
     useDomain := false;
     useHTTPS := false;
     fallbackHost := "cdn.libravatar.org";
     nameCache := ∅;
     nameCacheDuration := 24 * Hour |}.

Definition SetFallbackHost (v : Libravatar) (host : string) : Libravatar :=
  {| defUrl := defUrl v;
     picSize := picSize v;
     useDomain := useDomain v;
     useHTTPS := useHTTPS v;
     fallbackHost := host;
     nameCache := nameCache v;
     nameCacheDuration := nameCacheDuration v |}.

Definition SetUseHTTPS (v : Libravatar) (use : bool) : Libravatar :=
  {| defUrl := defUrl v;
     picSize := picSize v;
     useDomain := useDomain v;
     useHTTPS := use;
     fallbackHost := fallbackHost v;
     nameCache := nameCache v;
     nameCacheDuration := nameCacheDuration v |}.

(** [v.nameCache[key] = val] *)
Definition stored (key : cacheKey) (val : cacheValue)
    (s : state Libravatar) : state Libravatar :=
  {| this :=
       {| defUrl := defUrl (this s);
          picSize := picSize (this s);
          useDomain := useDomain (this s);
          useHTTPS := useHTTPS (this s);
          fallbackHost := fallbackHost (this s);
          nameCache := <[key := val]> (nameCache (this s));
          nameCacheDuration := nameCacheDuration (this s) |};
     lookups := lookups s |}.

Definition store (key : cacheKey) (val : cacheValue)
  : M (state Libravatar) unit := modify (stored key val).

(** The DNS resolver and the clock read by [time.Now()]. *)
Record World : Type := mkWorld {
  LookupSRV : string -> string -> string -> answer;
  Now : Z
}.

(** The two assignments of the first [if] of [baseURL]. *)
Definition scheme (useHTTPS : bool) : string :=
  if useHTTPS then "https://" else "http://".
Definition serviceName (useHTTPS : bool) : string :=
  if useHTTPS then "avatars-sec" else "avatars".

(** [found && now.Sub(val.checkedAt) <= v.nameCacheDuration]: the target
    of the entry when the test holds. *)
Definition usable (v : Libravatar) (key : cacheKey) (now : Z) : option string :=
  match nameCache v !! key with
  | Some val =>
      if Sub now (checkedAt val) <=? nameCacheDuration v
      then Some (target val) else None
  | None => None
  end.

(** [baseURL(domain, useHTTPS)] with its named results [(url, err)]; the
    [DEBUG] lines written to standard output are left out. *)
Definition baseURL (w : World) (domain : string) (useHTTPS : bool)
  : M (state Libravatar) (string * option error) :=
  let url := scheme useHTTPS in
  let service := serviceName useHTTPS in
  let key := {| service := service; domain := domain |} in
  let now := Now w in
  let* s := get in
  let v := this s in
  match usable v key now with
  | Some tgt => ret (url +:+ tgt, None)
  | None =>
      run log_query (service, "tcp", domain) in
      let '(addrs, e) := LookupSRV w service "tcp" domain in
      match e with
      | Some e =>
          let* e := lift (assert_DNSError e) in
          if IsTimeout e then ret (url, Some (DNSErr e))
          else
            run store key {| checkedAt := now; target := fallbackHost v |} in
            ret (url +:+ fallbackHost v, None)
      | None =>
          match addrs with
          | [] => ret (url, Some (ErrorString "empty SRV response"))
          | first :: _ =>
              let* tgt := lift (strip_last (Target first)) in
              run store key {| checkedAt := now; target := tgt |} in
              ret (url +:+ tgt, None)
          end
      end
  end.

(** *** The callers of [baseURL] in [part_000] *)

Definition getSHA256 (lib : Library) (s : string) : string :=
  sha256_hex lib (ToLower lib (TrimSpace lib s)).

Definition getMD5 (lib : Library) (s : string) : string :=
  md5_hex lib (ToLower lib (TrimSpace lib s)).

(** The three [if] that append the parameters, the same in [FromEmail] and
    in [FromURL]. *)
Definition add_params (v : Libravatar) (domain : string) (url : string) : string :=
  let sep := "?" in
  let '(url, sep) :=
    if useDomain v then (url +:+ sep +:+ "domain=" +:+ domain, "&")
    else (url, sep) in
  let '(url, sep) :=
    if negb (picSize v =? 0)
    then (url +:+ sep +:+ "s=" +:+ string_of_int (picSize v), "&")
    else (url, sep) in
  let '(url, sep) :=
    if negb (String.eqb (defUrl v) "")
    then (url +:+ sep +:+ "d=" +:+ defUrl v, "&")
    else (url, sep) in
  url.

(** What [FromEmail] and [FromURL] do once they have the domain and the
    hash: resolve, and on success assemble the URL. *)
Definition finish (w : World) (domain : string) (useHTTPS : bool) (hash : string)
  : M (state Libravatar) (string * option error) :=
  let* res := baseURL w domain useHTTPS in
  match res.2 with
  | Some err => ret ("", Some err)
  | None =>
      let* s := get in
      ret (add_params (this s) domain (res.1 +:+ "/avatar/" +:+ hash), None)
  end.

Definition FromEmail (lib : Library) (w : World) (email : string)
  : M (state Libravatar) (string * option error) :=
  let i := Index email "@" in
  if i <? 1 then ret ("", Some (ErrorString "invalid email"))
  else
    let* domain := lift (slice_from (i + 1) email) in
    if (String.length domain =? 0)%nat
    then ret ("", Some (ErrorString "invalid email"))
    else
      let hash := getMD5 lib email in
      let* s := get in
      finish w domain (useHTTPS (this s)) hash.

Definition FromURL (lib : Library) (w : World) (input : string)
  : M (state Libravatar) (string * option error) :=
  let parts := Split input slash in
  if (length parts <? 3)%nat then ret ("", Some (ErrorString "invalid url"))
  else
    let domain := nth 2 parts "" in
    if (String.length domain =? 0)%nat
    then ret ("", Some (ErrorString "invalid email"))
    else
      let* s := get in
      let useHTTPS :=
        if String.eqb (nth 0 parts "") "https:" then true
        else useHTTPS (this s) in
      let hash := getSHA256 lib input in
      finish w domain useHTTPS hash.

End Cached.

(** ** [part_001]: first record, no cache *)

Module Plain.

Record Libravatar : Type := mkLibravatar {
  defUrl : string;
  picSize : Z;
  useDomain : bool;
  useHTTPS : bool;
  fallbackHost : string
}.

Definition New : Libravatar :=
  {| defUrl := "";
     picSize := 0;
     useDomain := false;
     useHTTPS := false;
     fallbackHost := "cdn.libravatar.org" |}.

Definition SetFallbackHost (v : Libravatar) (host : string) : Libravatar :=
  {| defUrl := defUrl v;
     picSize := picSize v;
     useDomain := useDomain v;
     useHTTPS := useHTTPS v;
     fallbackHost := host |}.

Record World : Type := mkWorld {
  LookupSRV : string -> string -> string -> answer
}.

Definition baseURL (w : World) (domain : string)
  : M (state Libravatar) (string * option error) :=
  let* s := get in
  let v := this s in
  let '(url, service) :=
    if useHTTPS v then ("https://", "avatars-sec") else ("http://", "avatars") in
  run log_query (service, "tcp", domain) in
  let '(addrs, e) := LookupSRV w service "tcp" domain in
  match e with
  | Some e =>
      let* e := lift (assert_DNSError e) in
      if IsTimeout e then ret (url, Some (DNSErr e))
      else ret (url +:+ fallbackHost v, None)
  | None =>
      match addrs with
      | [] => ret (url, Some (ErrorString "empty SRV response"))
      | first :: _ =>
          let* tgt := lift (strip_last (Target first)) in
          ret (url +:+ tgt, None)
      end
  end.

(** *** The caller of [baseURL] in [part_001] *)

Definition getMD5 (lib : Library) (s : string) : string :=
  md5_hex lib (ToLower lib (TrimSpace lib s)).

Definition add_params (v : Libravatar) (domain : string) (url : string) : string :=
  let sep := "?" in
  let '(url, sep) :=
    if useDomain v then (url +:+ sep +:+ "domain=" +:+ domain, "&")
    else (url, sep) in
  let '(url, sep) :=
    if negb (picSize v =? 0)
    then (url +:+ sep +:+ "s=" +:+ string_of_int (picSize v), "&")
    else (url, sep) in
  let '(url, sep) :=
    if negb (String.eqb (defUrl v) "")
    then (url +:+ sep +:+ "d=" +:+ defUrl v, "&")
    else (url, sep) in
  url.

Definition FromEmail (lib : Library) (w : World) (email : string)
  : M (state Libravatar) (string * option error) :=
  let i := Index email "@" in
  if i <? 1 then ret ("", Some (ErrorString "invalid email"))
  else
    let* domain := lift (slice_from (i + 1) email) in
    if (String.length domain =? 0)%nat
    then ret ("", Some (ErrorString "invalid email"))
    else
      let hash := getMD5 lib email in
      let* res := baseURL w domain in
      match res.2 with
      | Some err => ret ("", Some err)
      | None =>
          let* s := get in
          ret (add_params (this s) domain (res.1 +:+ "/avatar/" +:+ hash), None)
      end.

End Plain.

(** ** The weighted selector as section 4.3 of the specification words it *)

Module SpecSelector.

(** Step 1: the lowest priority value present, and the records of that
    tier in their original order. *)
Definition lowest_priority (first : SRV) (rest : list SRV) : Z :=
  fold_left Z.min (map Priority rest) (Priority first).

Definition tier (addrs : list SRV) : list SRV :=
  match addrs with
  | [] => []
  | first :: rest =>
      List.filter (fun rr => Priority rr =? lowest_priority first rest) addrs
  end.

(** Step 2: a weight-0 record goes to the front, tagged with the current
    [W]; a record of positive weight adds its weight to [W] and goes to
    the end, tagged with the new [W]. *)
Definition add_candidate (acc : Z * list (SRV * Z)) (rr : SRV)
  : Z * list (SRV * Z) :=
  let '(W, cands) := acc in
  if Weight rr =? 0 then (W, (rr, W) :: cands)
  else (W + Weight rr, cands ++ [(rr, W + Weight rr)]).

Definition candidates (addrs : list SRV) : Z * list (SRV * Z) :=
  fold_left add_candidate (tier addrs) (0, []).

(** Steps 3 and 4: a lone candidate is taken as it is; otherwise the
    first candidate whose tag is [>= r], for a draw [r] in [[0, W)].
    There is no draw, hence no selection, when [W = 0]. *)
Definition select (r : Z) (addrs : list SRV) : option SRV :=
  let '(W, cands) := candidates addrs in
  match cands with
  | [(rr, _)] => Some rr
  | _ =>
      if (0 <=? r) && (r <? W)
      then fst <$> List.find (fun c => r <=? snd c) cands
      else None
  end.

End SpecSelector.

(** ** Concrete inputs *)

Module Examples.

(** Two records of one tier whose weights add up to more than 65535. *)
Definition heavyA : SRV := mkSRV "a.example.org." 80 0 40000.
Definition heavyB : SRV := mkSRV "b.example.org." 80 0 40000.

(** Two weight-0 records of one tier. *)
Definition zeroA : SRV := mkSRV "a.example.org." 80 0 0.
Definition zeroB : SRV := mkSRV "b.example.org." 80 0 0.

(** A weight-0 and a weight-10 record of one tier. *)
Definition zero : SRV := mkSRV "zero.example.org." 80 0 0.
Definition ten : SRV := mkSRV "ten.example.org." 80 0 10.

(** A record of priority 1 and one of priority 2. *)
Definition prio1 : SRV := mkSRV "one.example.org." 80 1 5.
Definition prio2 : SRV := mkSRV "two.example.org." 80 2 7.

(** The single record of the domain [kbt.io], as the specification writes
    its target and as DNS hands it over (fully qualified). *)
Definition kbt : SRV := mkSRV "avatars.kbt.io" 80 0 0.
Definition kbt_dot : SRV := mkSRV "avatars.kbt.io." 80 0 0.

(** Generators: always the lowest draw, always the highest one. *)
Definition lowest_draw : Z -> Z := fun _ => 0.
Definition highest_draw : Z -> Z := fun n => n - 1.

Definition strk : Weighted.identity :=
  {| Weighted.email := Some "strk@kbt.io"; Weighted.openid := None |}.

(** A resolver that answers every query with [ans]. *)
Definition answering (ans : answer) : Weighted.World :=
  {| Weighted.LookupSRV := fun _ _ _ => ans;
     Weighted.draw := lowest_draw;
     Weighted.url_Parse_Host := fun _ => Some "kbt.io" |}.

Definition answering_at (ans : answer) (now : Z) : Cached.World :=
  {| Cached.LookupSRV := fun _ _ _ => ans; Cached.Now := now |}.

Definition plainly_answering (ans : answer) : Plain.World :=
  {| Plain.LookupSRV := fun _ _ _ => ans |}.

Definition timeout : error :=
  DNSErr {| Err := "i/o timeout"; Name := "kbt.io"; IsTimeout := true |}.

Definition no_such_host : error :=
  DNSErr {| Err := "no such host"; Name := "kbt.io"; IsTimeout := false |}.

Definition fresh : state Weighted.Libravatar :=
  {| this := Weighted.New; lookups := [] |}.

Definition fresh_cached : state Cached.Libravatar :=
  {| this := Cached.New; lookups := [] |}.

Definition fresh_plain : state Plain.Libravatar :=
  {| this := Plain.New; lookups := [] |}.

(** A stand-in for the Go library: hashes that show their input, an
    address parser that wants an ["@"] after the first byte, a URL parser
    that cuts the scheme and the host off at the first ["/"] signs. *)
Definition parse_url (s : string) : URL + error :=
  match Split s slash with
  | scheme :: _ :: host :: _ =>
      inl {| Scheme := scheme; Host := host;
             Remainder := match slice_from
                                  (Z.of_nat (String.length scheme + 2
                                             + String.length host)) s with
                          | Return rest => rest
                          | Panic _ => ""
                          end |}
  | _ => inr (ErrorString "parse: missing host")
  end.

Definition lib : Library :=
  {| ToLower := fun s => s;
     TrimSpace := fun s => s;
     md5_hex := fun s => "md5:" +:+ s;
     sha256_hex := fun s => "sha256:" +:+ s;
     QueryEscape := fun s => s;
     ParseAddress := fun s =>
       if Index s "@" <? 1 then inr (ErrorString "mail: missing '@' or angle-addr")
       else inl s;
     url_Parse := parse_url;
     URL_String := fun u => Scheme u +:+ "/" +:+ "/" +:+ Host u +:+ Remainder u |}.

(** A resolver that answers every query with [ans], with a [url.Parse]
    that fails on the domain of the address. *)
Definition unparsing (ans : answer) : Weighted.World :=
  {| Weighted.LookupSRV := fun _ _ _ => ans;
     Weighted.draw := lowest_draw;
     Weighted.url_Parse_Host := fun _ => None |}.

(** A resolver that hands the host of the URL through. *)
Definition answering_openid (ans : answer) : Weighted.World :=
  {| Weighted.LookupSRV := fun _ _ _ => ans;
     Weighted.draw := lowest_draw;
     Weighted.url_Parse_Host := fun _ => Some "strk.kbt.io" |}.

(** A resolver that answers every query with [ans] and whose generator
    always yields the highest draw. *)
Definition answering_high (ans : answer) : Weighted.World :=
  {| Weighted.LookupSRV := fun _ _ _ => ans;
     Weighted.draw := highest_draw;
     Weighted.url_Parse_Host := fun _ => Some "kbt.io" |}.

(** A lookup failure that comes with records: the answer held records that
    were filtered out as malformed. *)
Definition malformed : error :=
  DNSErr {| Err := "DNS response contained records which contain invalid names";
            Name := "kbt.io"; IsTimeout := false |}.

(** A record without target. *)
Definition blank : SRV := mkSRV "" 80 0 0.

(** A cache that holds an entry for [kbt.io] stamped at the instant 100. *)
Definition kbt_entry : state Cached.Libravatar :=
  Cached.stored {| service := "avatars"; domain := "kbt.io" |}
    {| target := "avatars.kbt.io"; checkedAt := 100 |} fresh_cached.

(** A record of weight 3 and one of weight 1, in the tier of [ten]. *)
Definition three : SRV := mkSRV "three.example.org." 80 0 3.
Definition light : SRV := mkSRV "light.example.org." 80 0 1.

End Examples.

(** * Properties *)

(** ** Go primitives *)

Lemma uint16_small (n : Z) : is_uint16 n -> uint16 n = n.
Proof. intros H. apply Z.mod_small. exact H. Qed.

Lemma uint16_range (n : Z) : is_uint16 (uint16 n).
Proof. unfold is_uint16, uint16. apply Z.mod_pos_bound. lia. Qed.

(** ** The first loop of [Weighted.baseURL] *)

Section Scan.

Import Weighted.

Lemma scan_step_skip st rr :
  top_priority st < Priority rr -> scan_step st rr = st.
Proof.
  intros H. unfold scan_step.
  destruct (Z.ltb_spec (top_priority st) (Priority rr)); [reflexivity | lia].
Qed.

Lemma scan_step_restart st rr :
  Priority rr < top_priority st ->
  scan_step st rr = scan_step (start (Priority rr)) rr.
Proof.
  intros H. unfold scan_step. simpl.
  destruct (Z.ltb_spec (top_priority st) (Priority rr)); [lia |].
  destruct (Z.ltb_spec (Priority rr) (top_priority st)); [| lia].
  rewrite Z.ltb_irrefl. reflexivity.
Qed.

Lemma scan_step_top st rr :
  top_priority (scan_step st rr) = Z.min (top_priority st) (Priority rr).
Proof.
  unfold scan_step.
  destruct (Z.ltb_spec (top_priority st) (Priority rr)); [lia |].
  destruct (Z.ltb_spec (Priority rr) (top_priority st)); simpl; lia.
Qed.

Lemma fold_min_le (l : list Z) (q : Z) : fold_left Z.min l q <= q.
Proof.
  revert q. induction l as [| a l IH]; intros q; simpl; [lia |].
  specialize (IH (Z.min q a)). lia.
Qed.

Lemma fold_min_le_In (l : list Z) (q x : Z) :
  In x l -> fold_left Z.min l q <= x.
Proof.
  revert q. induction l as [| a l IH]; intros q; simpl; [tauto |].
  intros [-> | Hin].
  - pose proof (fold_min_le l (Z.min q x)). lia.
  - apply IH. exact Hin.
Qed.

(** The priority the loop ends with is the lowest one it has met. *)
Lemma scan_top_priority (addrs : list SRV) (st : scan) :
  top_priority (fold_left scan_step addrs st)
  = fold_left Z.min (map Priority addrs) (top_priority st).
Proof.
  revert st. induction addrs as [| a l IH]; intros st; simpl; [reflexivity |].
  rewrite IH, scan_step_top. reflexivity.
Qed.

(** Records above the lowest priority are skipped and a lower priority
    restarts the loop: only the records of the lowest priority count. *)
Lemma scan_tier (addrs : list SRV) (st : scan) :
  let m := fold_left Z.min (map Priority addrs) (top_priority st) in
  fold_left scan_step addrs st
  = fold_left scan_step (List.filter (same_priority m) addrs)
      (if m <? top_priority st then start m else st).
Proof.
  revert st. induction addrs as [| a l IH]; intros st; simpl.
  - rewrite Z.ltb_irrefl. reflexivity.
  - set (q := top_priority st).
    set (m := fold_left Z.min (map Priority l) (Z.min q (Priority a))).
    assert (Hm : m <= Z.min q (Priority a)) by apply fold_min_le.
    specialize (IH (scan_step st a)). simpl in IH.
    rewrite scan_step_top in IH. fold q m in IH.
    unfold same_priority at 1.
    destruct (Z.lt_trichotomy q (Priority a)) as [Hlt | [Heq | Hgt]].
    + rewrite scan_step_skip in IH |- * by (fold q; lia).
      fold q in IH.
      assert (Hmin : Z.min q (Priority a) = q) by lia.
      rewrite Hmin in IH.
      destruct (Z.eqb_spec (Priority a) m); [lia |]. exact IH.
    + assert (Hq : top_priority (scan_step st a) = q)
        by (rewrite scan_step_top; fold q; lia).
      rewrite IH.
      destruct (Z.ltb_spec m (Z.min q (Priority a))) as [Hlow | Hlow].
      * destruct (Z.eqb_spec (Priority a) m); [lia |].
        destruct (Z.ltb_spec m q); [reflexivity | lia].
      * destruct (Z.eqb_spec (Priority a) m); [| lia].
        destruct (Z.ltb_spec m q); [lia |]. reflexivity.
    + rewrite IH. rewrite (scan_step_restart st a) by (fold q; lia).
      destruct (Z.ltb_spec m (Z.min q (Priority a))) as [Hlow | Hlow].
      * destruct (Z.eqb_spec (Priority a) m); [lia |].
        destruct (Z.ltb_spec m q); [reflexivity | lia].
      * destruct (Z.eqb_spec (Priority a) m) as [Hpa |]; [| lia].
        destruct (Z.ltb_spec m q); [| lia].
        simpl. rewrite Hpa. reflexivity.
Qed.

Lemma scan_all_tier (first : SRV) (rest : list SRV) :
  scan_all (first :: rest) (Priority first)
  = fold_left scan_step (SpecSelector.tier (first :: rest))
      (start (SpecSelector.lowest_priority first rest)).
Proof.
  unfold scan_all.
  rewrite scan_tier.
  change (top_priority (start (Priority first))) with (Priority first).
  change (map Priority (first :: rest)) with (Priority first :: map Priority rest).
  cbn [fold_left]. rewrite Z.min_id.
  fold (SpecSelector.lowest_priority first rest).
  unfold SpecSelector.tier.
  destruct (Z.ltb_spec (SpecSelector.lowest_priority first rest) (Priority first))
    as [Hlt | Hge]; [reflexivity |].
  assert (Priority first = SpecSelector.lowest_priority first rest) as <-.
  { pose proof (fold_min_le (map Priority rest) (Priority first)).
    unfold SpecSelector.lowest_priority in *. lia. }
  reflexivity.
Qed.

End Scan.

(** ** Walking the top tier *)

Section Tier.

Import Weighted.

Lemma scan_step_in_tier st rr :
  Priority rr = top_priority st ->
  scan_step st rr =
    let tw := uint16 (total_weight st + Weight rr) in
    {| total_weight := tw;
       records :=
         if 0 <? Weight rr then records st ++ [ {| srv := rr; weight := tw |} ]
         else if Weight rr =? 0 then {| srv := rr; weight := tw |} :: records st
         else records st;
       top_priority := top_priority st |}.
Proof.
  intros H. unfold scan_step. rewrite H, Z.ltb_irrefl. reflexivity.
Qed.

(** A step adds at most the record it visits. *)
Lemma scan_step_records st rr r :
  In r (records (scan_step st rr)) -> In r (records st) \/ srv r = rr.
Proof.
  unfold scan_step.
  destruct (top_priority st <? Priority rr); [tauto |].
  destruct (Priority rr <? top_priority st); simpl;
    destruct (0 <? Weight rr); simpl;
    try destruct (Weight rr =? 0); simpl; intros Hin;
    try (apply in_app_or in Hin; simpl in Hin);
    intuition (subst; simpl; auto).
Qed.

Lemma scan_records (l : list SRV) st r :
  In r (records (fold_left scan_step l st)) ->
  In r (records st) \/ In (srv r) l.
Proof.
  revert st. induction l as [| a l IH]; intros st; simpl; [tauto |].
  intros Hin. apply IH in Hin as [Hin | Hin]; [| tauto].
  apply scan_step_records in Hin as [Hin | Hin]; [tauto | right; left; congruence].
Qed.

Lemma first_ge_In recs randnum s :
  first_ge recs randnum = Some s -> exists r, In r recs /\ srv r = s.
Proof.
  induction recs as [| r recs IH]; simpl; [discriminate |].
  destruct (randnum <=? weight r).
  - intros [= <-]. exists r. auto.
  - intros H. destruct (IH H) as (r' & Hin & Hs). exists r'. auto.
Qed.

Lemma first_ge_find (cands : list (SRV * Z)) (r : Z) :
  first_ge (map tag cands) r = fst <$> List.find (fun c => r <=? snd c) cands.
Proof.
  induction cands as [| [rr t] cands IH]; simpl; [reflexivity |].
  destruct (r <=? t); [reflexivity | exact IH].
Qed.

Lemma tier_In (addrs : list SRV) (rr : SRV) :
  In rr (SpecSelector.tier addrs) ->
  In rr addrs /\ forall x, In x addrs -> Priority rr <= Priority x.
Proof.
  destruct addrs as [| first rest]; simpl; [tauto |].
  intros Hin.
  change (In rr (List.filter
    (fun rr => Priority rr =? SpecSelector.lowest_priority first rest)
    (first :: rest))) in Hin.
  apply filter_In in Hin as [Hin Hp]. split; [exact Hin |].
  apply Z.eqb_eq in Hp. rewrite Hp. unfold SpecSelector.lowest_priority.
  intros x [<- | Hx].
  - apply fold_min_le.
  - apply fold_min_le_In. apply in_map. exact Hx.
Qed.

Lemma tier_priority (first : SRV) (rest : list SRV) :
  Forall (fun rr => Priority rr = SpecSelector.lowest_priority first rest)
    (SpecSelector.tier (first :: rest)).
Proof.
  apply List.Forall_forall. intros rr Hin.
  change (In rr (List.filter
    (fun rr => Priority rr =? SpecSelector.lowest_priority first rest)
    (first :: rest))) in Hin.
  apply filter_In in Hin as [_ Hp]. apply Z.eqb_eq. exact Hp.
Qed.

(** The cumulative weight of the specification never decreases. *)
Lemma candidates_weight_mono (l : list SRV) (W : Z) (cands : list (SRV * Z)) :
  Forall (fun rr => 0 <= Weight rr) l ->
  W <= fst (fold_left SpecSelector.add_candidate l (W, cands)).
Proof.
  revert W cands. induction l as [| a l IH]; intros W cands Hl; simpl; [lia |].
  inversion Hl as [| ? ? Ha Hl']; subst.
  destruct (Weight a =? 0).
  - apply IH. exact Hl'.
  - specialize (IH (W + Weight a) (cands ++ [(a, W + Weight a)]) Hl'). lia.
Qed.

(** As long as the cumulative weight fits 16 bits, the loop computes the
    candidate list and the weight of the specification. *)
Lemma scan_walk_candidates (l : list SRV) (st : scan) (cands : list (SRV * Z)) :
  Forall (fun rr => Priority rr = top_priority st) l ->
  Forall (fun rr => 0 <= Weight rr) l ->
  records st = map tag cands ->
  0 <= total_weight st ->
  fst (fold_left SpecSelector.add_candidate l (total_weight st, cands)) < 65536 ->
  total_weight (fold_left scan_step l st)
    = fst (fold_left SpecSelector.add_candidate l (total_weight st, cands))
  /\ records (fold_left scan_step l st)
    = map tag (snd (fold_left SpecSelector.add_candidate l (total_weight st, cands))).
Proof.
  revert st cands.
  induction l as [| a l IH]; intros st cands Hp Hw Hrec Hpos Hfit; simpl.
  - split; [reflexivity | exact Hrec].
  - inversion Hp as [| ? ? Hpa Hp']; subst.
    inversion Hw as [| ? ? Hwa Hw']; subst.
    simpl in Hfit.
    rewrite (scan_step_in_tier st a Hpa).
    destruct (Z.eqb_spec (Weight a) 0) as [Hz | Hnz].
    + rewrite Hz, Z.add_0_r.
      pose proof (candidates_weight_mono l (total_weight st)
                    ((a, total_weight st) :: cands) Hw') as Hmono.
      assert (Hsmall : uint16 (total_weight st) = total_weight st)
        by (apply uint16_small; unfold is_uint16; lia).
      cbn zeta. rewrite Hsmall. simpl.
      set (st1 := {| total_weight := total_weight st;
                     records := {| srv := a; weight := total_weight st |} :: records st;
                     top_priority := top_priority st |}).
      apply (IH st1 ((a, total_weight st) :: cands)); simpl; auto.
      rewrite Hrec. reflexivity.
    + pose proof (candidates_weight_mono l (total_weight st + Weight a)
                    (cands ++ [(a, total_weight st + Weight a)]) Hw') as Hmono.
      assert (Hsmall : uint16 (total_weight st + Weight a)
                       = total_weight st + Weight a)
        by (apply uint16_small; unfold is_uint16; lia).
      cbn zeta. rewrite Hsmall.
      destruct (Z.ltb_spec 0 (Weight a)); [| lia].
      set (st1 := {| total_weight := total_weight st + Weight a;
                     records := records st ++
                       [ {| srv := a; weight := total_weight st + Weight a |} ];
                     top_priority := top_priority st |}).
      apply (IH st1 (cands ++ [(a, total_weight st + Weight a)])); simpl; auto.
      * rewrite Hrec, map_app. reflexivity.
      * lia.
Qed.

(** Once the weight is positive some candidate carries it as its tag. *)
Lemma candidates_carry_weight (l : list SRV) (W : Z) (cands : list (SRV * Z)) :
  (W = 0 \/ exists c, In c cands /\ snd c = W) ->
  let res := fold_left SpecSelector.add_candidate l (W, cands) in
  fst res = 0 \/ exists c, In c (snd res) /\ snd c = fst res.
Proof.
  revert W cands. induction l as [| a l IH]; intros W cands H; simpl; [exact H |].
  destruct (Weight a =? 0).
  - apply IH. destruct H as [H | (c & Hin & Hc)]; [left; exact H |].
    right. exists c. split; [right; exact Hin | exact Hc].
  - apply IH. right. exists (a, W + Weight a). split; [| reflexivity].
    apply in_or_app. right. left. reflexivity.
Qed.

Lemma find_ge_exists (cands : list (SRV * Z)) (r : Z) :
  (exists c, In c cands /\ r <= snd c) ->
  exists c, List.find (fun c => r <=? snd c) cands = Some c.
Proof.
  induction cands as [| c0 cands IH]; intros (c & Hin & Hc); simpl.
  - destruct Hin.
  - destruct (Z.leb_spec r (snd c0)); [eauto |].
    destruct Hin as [-> | Hin]; [lia |]. apply IH. eauto.
Qed.

(** A tier of weight-0 records leaves the total at 0 and keeps them all. *)
Lemma scan_walk_zero (l : list SRV) (st : scan) :
  Forall (fun rr => Priority rr = top_priority st) l ->
  Forall (fun rr => Weight rr = 0) l ->
  total_weight st = 0 ->
  total_weight (fold_left scan_step l st) = 0
  /\ length (records (fold_left scan_step l st))
     = (length l + length (records st))%nat.
Proof.
  revert st. induction l as [| a l IH]; intros st Hp Hw Hz; simpl; [auto |].
  inversion Hp as [| ? ? Hpa Hp']; subst.
  inversion Hw as [| ? ? Hwa Hw']; subst.
  rewrite (scan_step_in_tier st a Hpa). rewrite Hwa, Hz.
  change (uint16 (0 + 0)) with 0. cbn zeta.
  change (0 <? 0) with false. change (0 =? 0) with true. cbn iota.
  set (st1 := {| total_weight := 0;
                 records := {| srv := a; weight := 0 |} :: records st;
                 top_priority := top_priority st |}).
  destruct (IH st1) as [Ht Hl]; auto.
  split; [exact Ht |]. rewrite Hl. simpl. lia.
Qed.

End Tier.

(** ** The weighted selector *)

Section Selector.

Import Weighted.

(** Whatever [selectRecord] returns is the record of one of the
    candidates the first loop has kept. *)
Lemma selectRecord_from_tier (rnd : Z -> Z) (addrs : list SRV) (rr : SRV) :
  selectRecord rnd addrs = Return rr -> In rr (SpecSelector.tier addrs).
Proof.
  destruct addrs as [| first rest]; [discriminate |].
  unfold selectRecord. rewrite scan_all_tier.
  set (st := fold_left scan_step _ _).
  assert (Hrec : forall r, In r (records st) ->
                           In (srv r) (SpecSelector.tier (first :: rest))).
  { intros r Hin. apply scan_records in Hin as [Hin | Hin]; [destruct Hin | exact Hin]. }
  assert (Hge : forall n, first_ge (records st) n = Some rr ->
                          In rr (SpecSelector.tier (first :: rest))).
  { intros n H. apply first_ge_In in H as (r & Hin & <-). auto. }
  destruct (records st) as [| r1 [| r2 recs]] eqn:E.
  - destruct (Intn rnd (total_weight st)); discriminate.
  - intros [= <-]. apply Hrec. left. reflexivity.
  - destruct (Intn rnd (total_weight st)) as [n | msg]; [| discriminate].
    destruct (first_ge (r1 :: r2 :: recs) (uint16 n)) as [s |] eqn:F;
      [| discriminate].
    intros [= <-]. eapply Hge. exact F.
Qed.

(** While the weights of the top tier add up to less than 65536, the
    second half of [baseURL] is the selector of section 4.3: it returns
    what the specification selects for the number drawn, and it panics
    only where the specification has nothing to draw from. *)
Lemma selectRecord_refines_spec (rnd : Z -> Z) (first : SRV) (rest : list SRV) :
  Forall wf_SRV (first :: rest) ->
  fst (SpecSelector.candidates (first :: rest)) < 65536 ->
  valid_draw rnd ->
  match selectRecord rnd (first :: rest) with
  | Return rr =>
      SpecSelector.select
        (rnd (fst (SpecSelector.candidates (first :: rest)))) (first :: rest)
      = Some rr
  | Panic _ =>
      fst (SpecSelector.candidates (first :: rest)) = 0
      /\ length (snd (SpecSelector.candidates (first :: rest))) <> 1%nat
  end.
Proof.
  intros Hwf Hfit Hrnd.
  assert (Hw : Forall (fun rr => 0 <= Weight rr) (SpecSelector.tier (first :: rest))).
  { apply List.Forall_forall. intros rr Hin. apply tier_In in Hin as [Hin _].
    rewrite List.Forall_forall in Hwf. destruct (Hwf rr Hin) as (_ & _ & H).
    unfold is_uint16 in H. lia. }
  pose proof (tier_priority first rest) as Hprio.
  unfold selectRecord. rewrite scan_all_tier.
  unfold SpecSelector.select, SpecSelector.candidates in *.
  set (T := SpecSelector.tier (first :: rest)) in *. clearbody T.
  destruct (scan_walk_candidates T
              (start (SpecSelector.lowest_priority first rest)) [])
    as [Htot Hrec]; auto; try (cbn; lia).
  pose proof (candidates_weight_mono T 0 [] Hw) as Hpos.
  pose proof (candidates_carry_weight T 0 [] (or_introl eq_refl)) as Hcarry.
  cbn [total_weight start] in Htot, Hrec. cbv zeta in Hcarry.
  rewrite Htot, Hrec. clear Htot Hrec.
  destruct (fold_left SpecSelector.add_candidate T (0, [])) as [W cands].
  cbn [fst snd] in *.
  destruct cands as [| [rr t] [| c2 cs]].
  - destruct Hcarry as [-> | (c & [] & _)]. simpl. split; [reflexivity | lia].
  - reflexivity.
  - cbn [map]. unfold Intn.
    destruct (Z.leb_spec W 0) as [Hle | Hgt].
    + split; [lia | simpl; lia].
    + destruct (Hrnd W Hgt) as [Hr0 Hr1].
      rewrite uint16_small by (unfold is_uint16; lia).
      change (tag (rr, t) :: tag c2 :: map tag cs)
        with (map tag ((rr, t) :: c2 :: cs)).
      rewrite first_ge_find.
      destruct (Z.leb_spec 0 (rnd W)); [| lia].
      destruct (Z.ltb_spec (rnd W) W); [| lia]. cbn [andb].
      destruct Hcarry as [-> | (c & Hin & Hc)]; [lia |].
      destruct (find_ge_exists ((rr, t) :: c2 :: cs) (rnd W)) as [c' Hfind].
      { exists c. split; [exact Hin | lia]. }
      rewrite Hfind. reflexivity.
Qed.

(** When the weight-0 record comes first, both records are reachable. *)
Lemma zero_before_ten_reachable (zero ten : SRV) :
  Weight zero = 0 -> Weight ten = 10 -> Priority zero = Priority ten ->
  selectRecord (fun _ => 0) [zero; ten] = Return zero
  /\ forall r, 0 < r < 10 -> selectRecord (fun _ => r) [zero; ten] = Return ten.
Proof.
  intros Hz Ht Hp. unfold selectRecord, scan_all. cbn [fold_left].
  rewrite (scan_step_in_tier (start (Priority zero)) zero eq_refl).
  cbn [total_weight records top_priority start]. rewrite Hz. cbn.
  rewrite scan_step_in_tier by (symmetry; exact Hp).
  cbn [total_weight records top_priority]. rewrite Ht. cbn.
  split; [reflexivity |]. intros r Hr.
  change (uint16 (uint16 (0 + 0) + 10)) with 10.
  change (uint16 (0 + 0)) with 0.
  unfold Intn. change (10 <=? 0) with false. cbn iota.
  rewrite uint16_small by (unfold is_uint16; lia).
  destruct (Z.leb_spec r 0); [lia |].
  destruct (Z.leb_spec r 10); [reflexivity | lia].
Qed.

End Selector.

(** ** Claims on the weighted selector of [libravatar.go] *)


(** C1, at an input on which the code leaves the algorithm of section 4.3:
    two records of one tier with weight 40000 each.  The running total of
    [baseURL] is a [uint16] and wraps to 14464, so that every draw falls
    under the tag 40000 of the first record and the second record is never
    selected, whereas the cumulative weight of the specification is 80000
    and every draw above 40000 selects the second record. *)
Theorem C1_weight_overflow_departs_from_spec :
  (forall rnd, valid_draw rnd ->
     Weighted.selectRecord rnd [Examples.heavyA; Examples.heavyB]
     = Return Examples.heavyA)
  /\ (forall r, 40000 < r < 80000 ->
        SpecSelector.select r [Examples.heavyA; Examples.heavyB]
        = Some Examples.heavyB).
Proof.
  split.
  - intros rnd Hrnd. unfold Weighted.selectRecord.
    set (st := Weighted.scan_all _ _). vm_compute in st. subst st.
    cbn [Weighted.records Weighted.total_weight]. unfold Intn.
    change (14464 <=? 0) with false. cbn iota.
    destruct (Hrnd 14464 ltac:(lia)) as [H0 H1].
    rewrite uint16_small by (unfold is_uint16; lia).
    cbn [Weighted.first_ge Weighted.weight Weighted.srv].
    destruct (Z.leb_spec (rnd 14464) 40000); [reflexivity | lia].
  - intros r Hr. unfold SpecSelector.select.
    set (c := SpecSelector.candidates _). vm_compute in c. subst c. cbv iota beta.
    destruct (Z.leb_spec 0 r); [| lia].
    destruct (Z.ltb_spec r 80000); [| lia]. cbn [andb List.find snd].
    destruct (Z.leb_spec r 40000); [lia |].
    destruct (Z.leb_spec r 80000); [reflexivity | lia].
Qed.

Lemma C1_weight_overflow_witness :
  valid_draw Examples.highest_draw
  /\ Weighted.selectRecord Examples.highest_draw [Examples.heavyA; Examples.heavyB]
     = Return Examples.heavyA
  /\ SpecSelector.select 79999 [Examples.heavyA; Examples.heavyB]
     = Some Examples.heavyB.
Proof.
  assert (Hdraw : valid_draw Examples.highest_draw)
    by (intros n Hn; unfold Examples.highest_draw; lia).
  split; [exact Hdraw |]. split.
  - apply (proj1 C1_weight_overflow_departs_from_spec). exact Hdraw.
  - apply (proj2 C1_weight_overflow_departs_from_spec). lia.
Defined.

(** C2, at the inputs on which the code fails it: when the top tier holds
    two or more records and all of them have weight 0, the total weight is
    0 and [rand.Intn(0)] panics; no record is selected. *)
Theorem C2_all_zero_tier_panics (rnd : Z -> Z) (addrs : list SRV) :
  (2 <= length (SpecSelector.tier addrs))%nat ->
  Forall (fun rr => Weight rr = 0) (SpecSelector.tier addrs) ->
  Weighted.selectRecord rnd addrs = Panic "invalid argument to Intn".
Proof.
  intros Hlen Hzero. destruct addrs as [| first rest]; [simpl in Hlen; lia |].
  unfold Weighted.selectRecord. rewrite scan_all_tier.
  destruct (scan_walk_zero (SpecSelector.tier (first :: rest))
              (Weighted.start (SpecSelector.lowest_priority first rest))
              (tier_priority first rest) Hzero eq_refl)
    as [Htot Hrecs].
  rewrite Htot.
  destruct (Weighted.records _) as [| r1 [| r2 recs]];
    cbn [length Weighted.records Weighted.start] in Hrecs;
    [lia | lia | reflexivity].
Qed.

Lemma C2_all_zero_tier_witness :
  (2 <= length (SpecSelector.tier [Examples.zeroA; Examples.zeroB]))%nat
  /\ Forall (fun rr => Weight rr = 0)
       (SpecSelector.tier [Examples.zeroA; Examples.zeroB])
  /\ Weighted.selectRecord Examples.lowest_draw [Examples.zeroA; Examples.zeroB]
     = Panic "invalid argument to Intn".
Proof.
  assert (Hlen : (2 <= length (SpecSelector.tier [Examples.zeroA; Examples.zeroB]))%nat)
    by (simpl; lia).
  assert (Hzero : Forall (fun rr => Weight rr = 0)
                    (SpecSelector.tier [Examples.zeroA; Examples.zeroB]))
    by (repeat constructor).
  split; [exact Hlen |]. split; [exact Hzero |].
  apply (C2_all_zero_tier_panics Examples.lowest_draw _ Hlen Hzero).
Defined.

(** C3, at the input order on which the code fails it: a weight-10 record
    followed by a weight-0 record of the same priority.  The weight-0
    record is put in front with the tag 10, every draw of [[0, 10)] is below
    that tag, and the weight-10 record is never selected. *)
Theorem C3_ten_before_zero_starves_ten (ten zero : SRV) (rnd : Z -> Z) :
  Weight ten = 10 -> Weight zero = 0 -> Priority ten = Priority zero ->
  valid_draw rnd ->
  Weighted.selectRecord rnd [ten; zero] = Return zero.
Proof.
  intros Ht Hz Hp Hrnd. unfold Weighted.selectRecord, Weighted.scan_all.
  cbn [fold_left].
  rewrite (scan_step_in_tier (Weighted.start (Priority ten)) ten eq_refl).
  cbn [Weighted.total_weight Weighted.records Weighted.top_priority Weighted.start].
  rewrite Ht. cbn.
  rewrite scan_step_in_tier by (symmetry; exact Hp).
  cbn [Weighted.total_weight Weighted.records Weighted.top_priority].
  rewrite Hz. cbn.
  change (uint16 (uint16 (0 + 10) + 0)) with 10.
  unfold Intn. change (10 <=? 0) with false. cbn iota.
  destruct (Hrnd 10 ltac:(lia)) as [H0 H1].
  rewrite uint16_small by (unfold is_uint16; lia).
  destruct (Z.leb_spec (rnd 10) 10); [reflexivity | lia].
Qed.

Lemma C3_ten_before_zero_witness :
  Weight Examples.ten = 10 /\ Weight Examples.zero = 0
  /\ Priority Examples.ten = Priority Examples.zero
  /\ valid_draw Examples.highest_draw
  /\ Weighted.selectRecord Examples.highest_draw [Examples.ten; Examples.zero]
     = Return Examples.zero.
Proof.
  assert (Hdraw : valid_draw Examples.highest_draw)
    by (intros n Hn; unfold Examples.highest_draw; lia).
  repeat (split; [reflexivity |]). split; [exact Hdraw |].
  apply (C3_ten_before_zero_starves_ten Examples.ten Examples.zero
           Examples.highest_draw eq_refl eq_refl eq_refl Hdraw).
Defined.

(** C4: whatever record the selector returns is one of the given records
    and no given record has a strictly lower priority: a record above the
    lowest priority present is never returned. *)
Theorem C4_selected_has_lowest_priority
    (rnd : Z -> Z) (addrs : list SRV) (rr : SRV) :
  Weighted.selectRecord rnd addrs = Return rr ->
  In rr addrs /\ forall x, In x addrs -> Priority rr <= Priority x.
Proof.
  intros H. apply tier_In. eapply selectRecord_from_tier. exact H.
Qed.

Lemma C4_selected_has_lowest_priority_witness :
  Weighted.selectRecord Examples.lowest_draw [Examples.prio1; Examples.prio2]
  = Return Examples.prio1
  /\ In Examples.prio1 [Examples.prio1; Examples.prio2]
  /\ forall x, In x [Examples.prio1; Examples.prio2] ->
               Priority Examples.prio1 <= Priority x.
Proof.
  assert (H : Weighted.selectRecord Examples.lowest_draw
                [Examples.prio1; Examples.prio2] = Return Examples.prio1)
    by reflexivity.
  split; [exact H |].
  exact (C4_selected_has_lowest_priority _ _ _ H).
Defined.

(** ** [baseURL] of [libravatar.go] *)

Section WeightedBaseURL.

Import Weighted.

Variables (w : World) (id : identity) (s : state Libravatar) (host : string).

Hypothesis Hhost : getDomain w (this s) id = Return host.

Local Abbreviation q := (serviceName (this s), "tcp", host).

(** Whatever [nameCache] holds, a call looks the service up once, and it
    leaves the receiver, [nameCache] included, as it was. *)
Lemma weighted_always_queries : (baseURL w id s).2 = logged q s.
Proof using Hhost.
  unfold baseURL. run_monad. rewrite Hhost. cbn beta iota.
  destruct (LookupSRV w _ _ _) as [addrs err].
  destruct err as [[d | msg | msg] |]; cbn; try reflexivity;
    try destruct (IsTimeout d); try reflexivity;
    destruct addrs as [| a [| b l]]; try reflexivity;
    destruct (selectRecord _ _); reflexivity.
Qed.

Lemma weighted_timeout (addrs : list SRV) (d : DNSError) :
  LookupSRV w (serviceName (this s)) "tcp" host = (addrs, Some (DNSErr d)) ->
  IsTimeout d = true ->
  baseURL w id s = (Return ("", Some (DNSErr d)), logged q s).
Proof using Hhost.
  intros Hans Ht. unfold baseURL. run_monad. rewrite Hhost. cbn beta iota.
  rewrite Hans. cbn. rewrite Ht. reflexivity.
Qed.

Lemma weighted_not_found (d : DNSError) :
  LookupSRV w (serviceName (this s)) "tcp" host = ([], Some (DNSErr d)) ->
  IsTimeout d = false ->
  baseURL w id s
  = (Return (protocol (this s) +:+ fallback (this s), None), logged q s).
Proof using Hhost.
  intros Hans Ht. unfold baseURL. run_monad. rewrite Hhost. cbn beta iota.
  rewrite Hans. cbn. rewrite Ht. reflexivity.
Qed.

Lemma weighted_no_record :
  LookupSRV w (serviceName (this s)) "tcp" host = ([], None) ->
  baseURL w id s
  = (Return (protocol (this s) +:+ fallback (this s), None), logged q s).
Proof using Hhost.
  intros Hans. unfold baseURL. run_monad. rewrite Hhost. cbn beta iota.
  rewrite Hans. reflexivity.
Qed.

Lemma weighted_one_record (only : SRV) :
  LookupSRV w (serviceName (this s)) "tcp" host = ([only], None) ->
  baseURL w id s
  = (Return (protocol (this s) +:+ TrimSuffix (Target only) ".", None),
     logged q s).
Proof using Hhost.
  intros Hans. unfold baseURL. run_monad. rewrite Hhost. cbn beta iota.
  rewrite Hans. reflexivity.
Qed.

Lemma weighted_more_records (a b : SRV) (l : list SRV) :
  LookupSRV w (serviceName (this s)) "tcp" host = (a :: b :: l, None) ->
  baseURL w id s
  = (match selectRecord (draw w) (a :: b :: l) with
     | Return rr =>
         Return (protocol (this s) +:+ Target rr +:+ ":"
                   +:+ pretty (Z.to_N (Port rr)), None)
     | Panic msg => Panic msg
     end, logged q s).
Proof using Hhost.
  intros Hans. unfold baseURL. run_monad. rewrite Hhost. cbn beta iota.
  rewrite Hans. cbn beta iota.
  destruct (selectRecord _ _); reflexivity.
Qed.

Lemma weighted_foreign_error (addrs : list SRV) (e : error) :
  LookupSRV w (serviceName (this s)) "tcp" host = (addrs, Some e) ->
  (forall d, e <> DNSErr d) ->
  baseURL w id s
  = (Panic "interface conversion: error is not *net.DNSError", logged q s).
Proof using Hhost.
  intros Hans He. unfold baseURL. run_monad. rewrite Hhost. cbn beta iota.
  rewrite Hans. destruct e as [d | msg | msg]; [destruct (He d eq_refl) | |];
    reflexivity.
Qed.

End WeightedBaseURL.

(** ** [baseURL] of [part_000] *)

Lemma Sub_le (t u ttl : Z) :
  minDuration <= ttl < maxDuration -> Sub t u <= ttl <-> t - u <= ttl.
Proof.
  unfold Sub. intros H.
  destruct (Z.ltb_spec maxDuration (t - u)); [lia |].
  destruct (Z.ltb_spec (t - u) minDuration); lia.
Qed.

Section CachedBaseURL.

Import Cached.

Variables (domain : string) (useHTTPS : bool).

Local Abbreviation key := (mkKey (serviceName useHTTPS) domain).
Local Abbreviation q := (serviceName useHTTPS, "tcp", domain).

(** The entry is used exactly when it exists and is no older than the
    time-to-live. *)
Lemma usable_spec (v : Libravatar) (now : Z) (tgt : string) :
  usable v key now = Some tgt <->
  exists val, nameCache v !! key = Some val /\ target val = tgt
              /\ Sub now (checkedAt val) <= nameCacheDuration v.
Proof.
  unfold usable. destruct (nameCache v !! key) as [val |].
  - destruct (Z.leb_spec (Sub now (checkedAt val)) (nameCacheDuration v)).
    + split.
      * intros [= <-]. exists val. auto.
      * intros (val' & [= <-] & <- & _). reflexivity.
    + split; [discriminate |]. intros (val' & [= <-] & _ & Hle). lia.
  - split; [discriminate |]. intros (val' & Hval & _). discriminate.
Qed.

Lemma usable_stored (s : state Libravatar) (val : cacheValue) (now : Z) :
  Sub now (checkedAt val) <= nameCacheDuration (this s) ->
  usable (this (stored key val (logged q s))) key now = Some (target val).
Proof.
  intros H. unfold usable. cbn. rewrite lookup_insert_eq.
  destruct (Z.leb_spec (Sub now (checkedAt val)) (nameCacheDuration (this s)));
    [reflexivity | lia].
Qed.

Variables (w : World) (s : state Libravatar).

Lemma cached_hit (tgt : string) :
  usable (this s) key (Now w) = Some tgt ->
  baseURL w domain useHTTPS s = (Return (scheme useHTTPS +:+ tgt, None), s).
Proof.
  intros H. unfold baseURL. run_monad. rewrite H. reflexivity.
Qed.

Hypothesis Hmiss : usable (this s) key (Now w) = None.

Lemma cached_miss_queries :
  lookups (baseURL w domain useHTTPS s).2 = lookups s ++ [q].
Proof using Hmiss.
  unfold baseURL. run_monad. rewrite Hmiss.
  destruct (LookupSRV w _ _ _) as [addrs e].
  destruct e as [[d | msg | msg] |]; cbn; try reflexivity.
  - destruct (IsTimeout d); reflexivity.
  - destruct addrs as [| first rest]; [reflexivity |].
    destruct (strip_last (Target first)); reflexivity.
Qed.

Lemma cached_timeout (addrs : list SRV) (d : DNSError) :
  LookupSRV w (serviceName useHTTPS) "tcp" domain = (addrs, Some (DNSErr d)) ->
  IsTimeout d = true ->
  baseURL w domain useHTTPS s
  = (Return (scheme useHTTPS, Some (DNSErr d)), logged q s).
Proof using Hmiss.
  intros Hans Ht. unfold baseURL. run_monad. rewrite Hmiss.
  rewrite Hans. cbn. rewrite Ht. reflexivity.
Qed.

Lemma cached_not_found (addrs : list SRV) (d : DNSError) :
  LookupSRV w (serviceName useHTTPS) "tcp" domain = (addrs, Some (DNSErr d)) ->
  IsTimeout d = false ->
  baseURL w domain useHTTPS s
  = (Return (scheme useHTTPS +:+ fallbackHost (this s), None),
     stored key {| target := fallbackHost (this s); checkedAt := Now w |}
       (logged q s)).
Proof using Hmiss.
  intros Hans Ht. unfold baseURL. run_monad. rewrite Hmiss.
  rewrite Hans. cbn. rewrite Ht. reflexivity.
Qed.

Lemma cached_no_record :
  LookupSRV w (serviceName useHTTPS) "tcp" domain = ([], None) ->
  baseURL w domain useHTTPS s
  = (Return (scheme useHTTPS, Some (ErrorString "empty SRV response")),
     logged q s).
Proof using Hmiss.
  intros Hans. unfold baseURL. run_monad. rewrite Hmiss.
  rewrite Hans. reflexivity.
Qed.

Lemma cached_first_record (first : SRV) (rest : list SRV) (tgt : string) :
  LookupSRV w (serviceName useHTTPS) "tcp" domain = (first :: rest, None) ->
  strip_last (Target first) = Return tgt ->
  baseURL w domain useHTTPS s
  = (Return (scheme useHTTPS +:+ tgt, None),
     stored key {| target := tgt; checkedAt := Now w |} (logged q s)).
Proof using Hmiss.
  intros Hans Hstrip. unfold baseURL. run_monad. rewrite Hmiss.
  rewrite Hans. cbn. rewrite Hstrip. reflexivity.
Qed.

Lemma cached_foreign_error (addrs : list SRV) (e : error) :
  LookupSRV w (serviceName useHTTPS) "tcp" domain = (addrs, Some e) ->
  (forall d, e <> DNSErr d) ->
  baseURL w domain useHTTPS s
  = (Panic "interface conversion: error is not *net.DNSError", logged q s).
Proof using Hmiss.
  intros Hans He. unfold baseURL. run_monad. rewrite Hmiss.
  rewrite Hans. destruct e as [d | msg | msg]; [destruct (He d eq_refl) | |];
    reflexivity.
Qed.

(** A resolution that misses and returns a URL has written the entry it
    returns, stamped with the current time. *)
Lemma cached_miss_overwrites (url : string) :
  (baseURL w domain useHTTPS s).1 = Return (url, None) ->
  exists tgt,
    url = scheme useHTTPS +:+ tgt
    /\ (baseURL w domain useHTTPS s).2
       = stored key {| target := tgt; checkedAt := Now w |} (logged q s).
Proof using Hmiss.
  destruct (LookupSRV w (serviceName useHTTPS) "tcp" domain) as [addrs e] eqn:Hans.
  destruct e as [[d | msg | msg] |].
  - destruct (IsTimeout d) eqn:Ht.
    + rewrite (cached_timeout addrs d Hans Ht). discriminate.
    + rewrite (cached_not_found addrs d Hans Ht). intros [= <-]. eauto.
  - rewrite (cached_foreign_error addrs _ Hans) by discriminate. discriminate.
  - rewrite (cached_foreign_error addrs _ Hans) by discriminate. discriminate.
  - destruct addrs as [| first rest].
    + rewrite (cached_no_record Hans). discriminate.
    + destruct (strip_last (Target first)) as [tgt | msg] eqn:Hstrip.
      * rewrite (cached_first_record first rest tgt Hans Hstrip).
        intros [= <-]. eauto.
      * unfold baseURL. run_monad. rewrite Hmiss, Hans. cbn.
        rewrite Hstrip. discriminate.
Qed.

End CachedBaseURL.

(** After a resolution that returned a URL the cache holds an entry for the
    key, and as long as that entry is no older than the time-to-live a
    further resolution returns the same URL, performs no DNS query and
    leaves the cache as it is. *)
Lemma cached_idempotent (domain : string) (useHTTPS : bool)
    (w1 : Cached.World) (s : state Cached.Libravatar) (url : string) :
  (Cached.baseURL w1 domain useHTTPS s).1 = Return (url, None) ->
  let s1 := (Cached.baseURL w1 domain useHTTPS s).2 in
  exists val,
    Cached.nameCache (this s1)
      !! {| service := Cached.serviceName useHTTPS; Go.domain := domain |}
    = Some val
    /\ forall w2,
         Sub (Cached.Now w2) (checkedAt val) <= Cached.nameCacheDuration (this s1) ->
         Cached.baseURL w2 domain useHTTPS s1 = (Return (url, None), s1).
Proof.
  intros Hret.
  destruct (Cached.usable (this s)
              {| service := Cached.serviceName useHTTPS; Go.domain := domain |}
              (Cached.Now w1)) as [tgt |] eqn:Hu.
  - rewrite (cached_hit domain useHTTPS w1 s tgt Hu) in Hret |- *.
    cbn in Hret |- *. injection Hret as <-.
    pose proof Hu as Hu'. apply usable_spec in Hu' as (val & Hval & <- & _).
    exists val. split; [exact Hval |]. intros w2 Hfresh.
    apply cached_hit. apply usable_spec. exists val. auto.
  - destruct (cached_miss_overwrites domain useHTTPS w1 s Hu url Hret)
      as (tgt & -> & Hs1).
    rewrite Hs1. cbn zeta.
    exists {| target := tgt; checkedAt := Cached.Now w1 |}. split.
    + cbn. apply lookup_insert_eq.
    + intros w2 Hfresh. apply cached_hit.
      apply (usable_stored domain useHTTPS s
               {| target := tgt; checkedAt := Cached.Now w1 |}). exact Hfresh.
Qed.

Lemma usable_none (domain : string) (useHTTPS : bool)
    (v : Cached.Libravatar) (now : Z) :
  Cached.usable v
    {| service := Cached.serviceName useHTTPS; Go.domain := domain |} now = None
  <-> forall val,
        Cached.nameCache v
          !! {| service := Cached.serviceName useHTTPS; Go.domain := domain |}
        = Some val ->
        Cached.nameCacheDuration v < Sub now (checkedAt val).
Proof.
  unfold Cached.usable. destruct (Cached.nameCache v !! _) as [val |].
  - destruct (Z.leb_spec (Sub now (checkedAt val)) (Cached.nameCacheDuration v))
      as [Hle | Hlt].
    + split; [discriminate |]. intros Hall. specialize (Hall val eq_refl). lia.
    + split; [| reflexivity]. intros _ val' [= <-]. lia.
  - split; [| reflexivity]. intros _ val' Hval. discriminate.
Qed.

(** ** [baseURL] of [part_001] *)

Lemma plain_always_queries (w : Plain.World) (domain : string)
    (s : state Plain.Libravatar) :
  (Plain.baseURL w domain s).2
  = logged ((if Plain.useHTTPS (this s) then "avatars-sec" else "avatars"),
            "tcp", domain) s.
Proof.
  unfold Plain.baseURL. run_monad.
  destruct (Plain.useHTTPS (this s)); cbn beta iota;
    destruct (Plain.LookupSRV w _ _ _) as [addrs e];
    (destruct e as [[d | msg | msg] |]; cbn; try reflexivity;
     [ destruct (IsTimeout d); reflexivity
     | destruct addrs as [| first rest]; [reflexivity |];
       destruct (strip_last (Target first)); reflexivity ]).
Qed.

Lemma plain_foreign_error (w : Plain.World) (domain : string)
    (s : state Plain.Libravatar) (addrs : list SRV) (e : error) :
  Plain.LookupSRV w (if Plain.useHTTPS (this s) then "avatars-sec" else "avatars")
    "tcp" domain = (addrs, Some e) ->
  (forall d, e <> DNSErr d) ->
  (Plain.baseURL w domain s).1
  = Panic "interface conversion: error is not *net.DNSError".
Proof.
  intros Hans He. unfold Plain.baseURL. run_monad.
  destruct (Plain.useHTTPS (this s)); cbn beta iota; rewrite Hans;
    (destruct e as [d | msg | msg]; [destruct (He d eq_refl) | |]; reflexivity).
Qed.

(** ** [strings.TrimSuffix] on a trailing dot *)

Lemma length_append_dot (h : string) :
  String.length (h +:+ ".") = S (String.length h).
Proof. induction h as [| c h IH]; simpl; [reflexivity | now rewrite IH]. Qed.

Lemma substring_last_dot (h : string) :
  String.substring (String.length h) 1 (h +:+ ".") = ".".
Proof. induction h as [| c h IH]; simpl; [reflexivity | exact IH]. Qed.

Lemma substring_drop_dot (h : string) :
  String.substring 0 (String.length h) (h +:+ ".") = h.
Proof. induction h as [| c h IH]; simpl; [reflexivity | now rewrite IH]. Qed.

Lemma TrimSuffix_trailing_dot (h : string) : TrimSuffix (h +:+ ".") "." = h.
Proof.
  unfold TrimSuffix, HasSuffix. rewrite length_append_dot.
  change (String.length ".") with 1%nat.
  replace (S (String.length h) - 1)%nat with (String.length h) by lia.
  rewrite substring_last_dot. cbn. apply substring_drop_dot.
Qed.

Lemma TrimSuffix_no_suffix (t : string) :
  HasSuffix t "." = false -> TrimSuffix t "." = t.
Proof. unfold TrimSuffix. intros ->. reflexivity. Qed.

(** ** Claims on the cache and on the outcome of the lookup *)

(** C5, as [part_000] has it.  The entry of the key is used exactly when
    it exists and [now - checkedAt <= nameCacheDuration] (24 hours as [New]
    sets it; the saturating subtraction of [time.Time] agrees with the
    plain difference at that time-to-live): the call returns the scheme and
    the cached target, performs no DNS query and leaves the receiver as it
    is.  Otherwise the call performs one DNS query; whenever it returns a
    URL, it has overwritten the entry with the target of that URL and the
    current time; when the lookup times out or answers with no record, it
    returns an error and leaves the cache as it was.  After any resolution
    that returned a URL, a further resolution of the key within the window
    returns the same URL without a DNS query. *)
Theorem C5_cache_window_of_part_000 :
  (forall domain useHTTPS w s val,
     Cached.nameCache (this s) !! mkKey (Cached.serviceName useHTTPS) domain
     = Some val ->
     Sub (Cached.Now w) (checkedAt val) <= Cached.nameCacheDuration (this s) ->
     Cached.baseURL w domain useHTTPS s
     = (Return (Cached.scheme useHTTPS +:+ target val, None), s))
  /\ (forall domain useHTTPS w s,
        (forall val,
           Cached.nameCache (this s) !! mkKey (Cached.serviceName useHTTPS) domain
           = Some val ->
           Cached.nameCacheDuration (this s) < Sub (Cached.Now w) (checkedAt val)) ->
        lookups (Cached.baseURL w domain useHTTPS s).2
        = lookups s ++ [(Cached.serviceName useHTTPS, "tcp", domain)]
        /\ (forall url,
              (Cached.baseURL w domain useHTTPS s).1 = Return (url, None) ->
              exists tgt,
                url = Cached.scheme useHTTPS +:+ tgt
                /\ Cached.nameCache (this (Cached.baseURL w domain useHTTPS s).2)
                     !! mkKey (Cached.serviceName useHTTPS) domain
                   = Some {| target := tgt; checkedAt := Cached.Now w |})
        /\ (forall addrs d,
              Cached.LookupSRV w (Cached.serviceName useHTTPS) "tcp" domain
              = (addrs, Some (DNSErr d)) ->
              IsTimeout d = true ->
              (Cached.baseURL w domain useHTTPS s).1
              = Return (Cached.scheme useHTTPS, Some (DNSErr d))
              /\ this (Cached.baseURL w domain useHTTPS s).2 = this s)
        /\ (Cached.LookupSRV w (Cached.serviceName useHTTPS) "tcp" domain
            = ([], None) ->
            (Cached.baseURL w domain useHTTPS s).1
            = Return (Cached.scheme useHTTPS,
                      Some (ErrorString "empty SRV response"))
            /\ this (Cached.baseURL w domain useHTTPS s).2 = this s))
  /\ (forall domain useHTTPS w1 s url,
        (Cached.baseURL w1 domain useHTTPS s).1 = Return (url, None) ->
        exists val,
          Cached.nameCache (this (Cached.baseURL w1 domain useHTTPS s).2)
            !! mkKey (Cached.serviceName useHTTPS) domain = Some val
          /\ forall w2,
               Sub (Cached.Now w2) (checkedAt val)
               <= Cached.nameCacheDuration (this (Cached.baseURL w1 domain useHTTPS s).2) ->
               Cached.baseURL w2 domain useHTTPS (Cached.baseURL w1 domain useHTTPS s).2
               = (Return (url, None), (Cached.baseURL w1 domain useHTTPS s).2))
  /\ Cached.nameCacheDuration Cached.New = 24 * 3600 * 1000000000
  /\ (forall now checked,
        Sub now checked <= Cached.nameCacheDuration Cached.New
        <-> now - checked <= 24 * 3600 * 1000000000).
Proof.
  split; [| split; [| split; [| split]]].
  - intros domain useHTTPS w s val Hval Hfresh.
    apply cached_hit. apply usable_spec. exists val. auto.
  - intros domain useHTTPS w s Hstale.
    apply usable_none in Hstale. split; [| split; [| split]].
    + apply cached_miss_queries. exact Hstale.
    + intros url Hret.
      destruct (cached_miss_overwrites domain useHTTPS w s Hstale url Hret)
        as (tgt & -> & Hs1).
      exists tgt. split; [reflexivity |]. rewrite Hs1. cbn.
      apply lookup_insert_eq.
    + intros addrs d Hans Ht.
      rewrite (cached_timeout domain useHTTPS w s Hstale addrs d Hans Ht).
      split; reflexivity.
    + intros Hans.
      rewrite (cached_no_record domain useHTTPS w s Hstale Hans).
      split; reflexivity.
  - intros domain useHTTPS w1 s url Hret.
    exact (cached_idempotent domain useHTTPS w1 s url Hret).
  - reflexivity.
  - intros now checked. apply Sub_le.
    split; [vm_compute; discriminate | reflexivity].
Qed.

Lemma C5_cache_window_witness :
  (Cached.baseURL (Examples.answering_at ([Examples.kbt_dot], None) 0)
     "kbt.io" false Examples.fresh_cached).1
  = Return ("http://avatars.kbt.io", None)
  /\ exists val,
       Cached.nameCache
         (this (Cached.baseURL (Examples.answering_at ([Examples.kbt_dot], None) 0)
                  "kbt.io" false Examples.fresh_cached).2)
         !! mkKey (Cached.serviceName false) "kbt.io" = Some val
       /\ forall w2,
            Sub (Cached.Now w2) (checkedAt val)
            <= Cached.nameCacheDuration
                 (this (Cached.baseURL
                          (Examples.answering_at ([Examples.kbt_dot], None) 0)
                          "kbt.io" false Examples.fresh_cached).2) ->
            Cached.baseURL w2 "kbt.io" false
              (Cached.baseURL (Examples.answering_at ([Examples.kbt_dot], None) 0)
                 "kbt.io" false Examples.fresh_cached).2
            = (Return ("http://avatars.kbt.io", None),
               (Cached.baseURL (Examples.answering_at ([Examples.kbt_dot], None) 0)
                  "kbt.io" false Examples.fresh_cached).2).
Proof.
  split; [reflexivity |].
  apply (proj1 (proj2 (proj2 C5_cache_window_of_part_000))). reflexivity.
Defined.

(** C5 fails where the next resolution fails: in [part_000] an entry older
    than the time-to-live is treated as a miss, the DNS query is performed,
    and when that lookup times out the call returns the error and the old
    entry is still there, not overwritten. *)
Lemma C5_counterexample :
  Cached.nameCache
    (this (Cached.baseURL (Examples.answering_at ([Examples.kbt_dot], None) 0)
             "kbt.io" false Examples.fresh_cached).2)
    !! mkKey "avatars" "kbt.io"
  = Some {| target := "avatars.kbt.io"; checkedAt := 0 |}
  /\ Cached.nameCacheDuration Cached.New
     < Sub (Cached.Now (Examples.answering_at ([], Some Examples.timeout)
                          (24 * Hour + 1))) 0
  /\ Cached.baseURL
       (Examples.answering_at ([], Some Examples.timeout) (24 * Hour + 1))
       "kbt.io" false
       (Cached.baseURL (Examples.answering_at ([Examples.kbt_dot], None) 0)
          "kbt.io" false Examples.fresh_cached).2
     = (Return ("http://", Some Examples.timeout),
        logged ("avatars", "tcp", "kbt.io")
          (Cached.baseURL (Examples.answering_at ([Examples.kbt_dot], None) 0)
             "kbt.io" false Examples.fresh_cached).2)
  /\ Cached.nameCache
       (this (Cached.baseURL
                (Examples.answering_at ([], Some Examples.timeout) (24 * Hour + 1))
                "kbt.io" false
                (Cached.baseURL (Examples.answering_at ([Examples.kbt_dot], None) 0)
                   "kbt.io" false Examples.fresh_cached).2).2)
       !! mkKey "avatars" "kbt.io"
     = Some {| target := "avatars.kbt.io"; checkedAt := 0 |}.
Proof. repeat split; reflexivity. Qed.

(** C6, as the code has it.  A lookup that times out makes [baseURL] return
    the error, in [part_000] and in [libravatar.go] alike, and the cache is
    left as it was.  A lookup that succeeds with no record makes [baseURL]
    of [part_000] return the error "empty SRV response", the cache left as
    it was, whereas [baseURL] of [libravatar.go] returns the scheme and the
    fallback host with no error. *)
Theorem C6_timeout_and_empty_answer :
  (forall domain useHTTPS w s addrs d,
     Cached.usable (this s) (mkKey (Cached.serviceName useHTTPS) domain)
       (Cached.Now w) = None ->
     Cached.LookupSRV w (Cached.serviceName useHTTPS) "tcp" domain
     = (addrs, Some (DNSErr d)) ->
     IsTimeout d = true ->
     (Cached.baseURL w domain useHTTPS s).1
     = Return (Cached.scheme useHTTPS, Some (DNSErr d))
     /\ this (Cached.baseURL w domain useHTTPS s).2 = this s)
  /\ (forall domain useHTTPS w s,
        Cached.usable (this s) (mkKey (Cached.serviceName useHTTPS) domain)
          (Cached.Now w) = None ->
        Cached.LookupSRV w (Cached.serviceName useHTTPS) "tcp" domain = ([], None) ->
        (Cached.baseURL w domain useHTTPS s).1
        = Return (Cached.scheme useHTTPS, Some (ErrorString "empty SRV response"))
        /\ this (Cached.baseURL w domain useHTTPS s).2 = this s)
  /\ (forall w id s host addrs d,
        Weighted.getDomain w (this s) id = Return host ->
        Weighted.LookupSRV w (Weighted.serviceName (this s)) "tcp" host
        = (addrs, Some (DNSErr d)) ->
        IsTimeout d = true ->
        (Weighted.baseURL w id s).1 = Return ("", Some (DNSErr d))
        /\ this (Weighted.baseURL w id s).2 = this s)
  /\ (forall w id s host,
        Weighted.getDomain w (this s) id = Return host ->
        Weighted.LookupSRV w (Weighted.serviceName (this s)) "tcp" host = ([], None) ->
        (Weighted.baseURL w id s).1
        = Return (Weighted.protocol (this s) +:+ Weighted.fallback (this s), None)
        /\ this (Weighted.baseURL w id s).2 = this s).
Proof.
  split; [| split; [| split]].
  - intros domain useHTTPS w s addrs d Hmiss Hans Ht.
    rewrite (cached_timeout domain useHTTPS w s Hmiss addrs d Hans Ht).
    split; reflexivity.
  - intros domain useHTTPS w s Hmiss Hans.
    rewrite (cached_no_record domain useHTTPS w s Hmiss Hans).
    split; reflexivity.
  - intros w id s host addrs d Hhost Hans Ht.
    rewrite (weighted_timeout w id s host Hhost addrs d Hans Ht).
    split; reflexivity.
  - intros w id s host Hhost Hans.
    rewrite (weighted_no_record w id s host Hhost Hans).
    split; reflexivity.
Qed.

Lemma C6_timeout_and_empty_answer_witness :
  ((Cached.baseURL (Examples.answering_at ([], Some Examples.timeout) 0)
      "kbt.io" false Examples.fresh_cached).1
   = Return ("http://", Some Examples.timeout)
   /\ this (Cached.baseURL (Examples.answering_at ([], Some Examples.timeout) 0)
              "kbt.io" false Examples.fresh_cached).2
      = this Examples.fresh_cached)
  /\ ((Cached.baseURL (Examples.answering_at ([], None) 0)
         "kbt.io" false Examples.fresh_cached).1
      = Return ("http://", Some (ErrorString "empty SRV response"))
      /\ this (Cached.baseURL (Examples.answering_at ([], None) 0)
                 "kbt.io" false Examples.fresh_cached).2
         = this Examples.fresh_cached)
  /\ ((Weighted.baseURL (Examples.answering ([], Some Examples.timeout))
         Examples.strk Examples.fresh).1
      = Return ("", Some Examples.timeout)
      /\ this (Weighted.baseURL (Examples.answering ([], Some Examples.timeout))
                 Examples.strk Examples.fresh).2
         = this Examples.fresh).
Proof.
  split; [| split].
  - apply (proj1 C6_timeout_and_empty_answer
             "kbt.io" false (Examples.answering_at ([], Some Examples.timeout) 0)
             Examples.fresh_cached [] _ eq_refl eq_refl eq_refl).
  - apply (proj1 (proj2 C6_timeout_and_empty_answer)
             "kbt.io" false (Examples.answering_at ([], None) 0)
             Examples.fresh_cached eq_refl eq_refl).
  - apply (proj1 (proj2 (proj2 C6_timeout_and_empty_answer))
             (Examples.answering ([], Some Examples.timeout)) Examples.strk
             Examples.fresh "kbt.io" [] _ eq_refl eq_refl eq_refl).
Defined.

(** C6 fails on [libravatar.go]: a lookup that succeeds with no record is
    answered with the fallback host and no error. *)
Lemma C6_counterexample :
  Weighted.LookupSRV (Examples.answering ([], None)) "avatars" "tcp" "kbt.io"
  = ([], None)
  /\ (Weighted.baseURL (Examples.answering ([], None)) Examples.strk
        Examples.fresh).1
     = Return ("http://cdn.libravatar.org", None).
Proof. split; reflexivity. Qed.

(** C7, at the inputs on which [libravatar.go] fails it.  In [part_000] a
    lookup failure that is not a timeout makes [baseURL] return the scheme
    and the fallback host with no error and store the fallback host under
    the key with the current time, so that a further resolution of the key
    within the time-to-live returns the same URL without a DNS query: the
    claim holds there.  In [libravatar.go], when the lookup fails that way
    and hands over no record, [baseURL] returns the scheme and the fallback
    host of the protocol class with no error as well, but the receiver,
    [nameCache] included, is left as it was, and a second resolution right
    after the first performs the same DNS query again. *)
Theorem C7_fallback_is_cached_in_part_000_only :
  (forall domain useHTTPS w s addrs d,
     Cached.usable (this s) (mkKey (Cached.serviceName useHTTPS) domain)
       (Cached.Now w) = None ->
     Cached.LookupSRV w (Cached.serviceName useHTTPS) "tcp" domain
     = (addrs, Some (DNSErr d)) ->
     IsTimeout d = false ->
     (Cached.baseURL w domain useHTTPS s).1
     = Return (Cached.scheme useHTTPS +:+ Cached.fallbackHost (this s), None)
     /\ Cached.nameCache (this (Cached.baseURL w domain useHTTPS s).2)
          !! mkKey (Cached.serviceName useHTTPS) domain
        = Some {| target := Cached.fallbackHost (this s);
                  checkedAt := Cached.Now w |}
     /\ forall w2,
          Sub (Cached.Now w2) (Cached.Now w) <= Cached.nameCacheDuration (this s) ->
          Cached.baseURL w2 domain useHTTPS (Cached.baseURL w domain useHTTPS s).2
          = (Return (Cached.scheme useHTTPS +:+ Cached.fallbackHost (this s), None),
             (Cached.baseURL w domain useHTTPS s).2))
  /\ (forall w id s host d,
        Weighted.getDomain w (this s) id = Return host ->
        Weighted.LookupSRV w (Weighted.serviceName (this s)) "tcp" host
        = ([], Some (DNSErr d)) ->
        IsTimeout d = false ->
        (Weighted.baseURL w id s).1
        = Return (Weighted.protocol (this s) +:+ Weighted.fallback (this s), None)
        /\ this (Weighted.baseURL w id s).2 = this s
        /\ (Weighted.baseURL w id (Weighted.baseURL w id s).2).1
           = Return (Weighted.protocol (this s) +:+ Weighted.fallback (this s), None)
        /\ lookups (Weighted.baseURL w id (Weighted.baseURL w id s).2).2
           = lookups s ++ [(Weighted.serviceName (this s), "tcp", host);
                           (Weighted.serviceName (this s), "tcp", host)]).
Proof.
  split.
  - intros domain useHTTPS w s addrs d Hmiss Hans Ht.
    rewrite (cached_not_found domain useHTTPS w s Hmiss addrs d Hans Ht).
    cbn [fst snd]. split; [reflexivity |]. split.
    + cbn. apply lookup_insert_eq.
    + intros w2 Hfresh. apply cached_hit.
      apply (usable_stored domain useHTTPS s
               {| target := Cached.fallbackHost (this s);
                  checkedAt := Cached.Now w |}). exact Hfresh.
  - intros w id s host d Hhost Hans Ht.
    rewrite (weighted_not_found w id s host Hhost d Hans Ht).
    cbn [fst snd].
    rewrite (weighted_not_found w id
               (logged (Weighted.serviceName (this s), "tcp", host) s) host
               Hhost d Hans Ht).
    cbn [fst snd this lookups logged]. rewrite <- app_assoc.
    repeat split; reflexivity.
Qed.

Lemma C7_fallback_is_cached_in_part_000_only_witness :
  ((Cached.baseURL (Examples.answering_at ([], Some Examples.no_such_host) 0)
      "kbt.io" false Examples.fresh_cached).1
   = Return ("http://cdn.libravatar.org", None)
   /\ Cached.baseURL (Examples.answering_at ([], Some Examples.timeout) (24 * Hour))
        "kbt.io" false
        (Cached.baseURL (Examples.answering_at ([], Some Examples.no_such_host) 0)
           "kbt.io" false Examples.fresh_cached).2
      = (Return ("http://cdn.libravatar.org", None),
         (Cached.baseURL (Examples.answering_at ([], Some Examples.no_such_host) 0)
            "kbt.io" false Examples.fresh_cached).2))
  /\ (Weighted.baseURL (Examples.answering ([], Some Examples.no_such_host))
        Examples.strk Examples.fresh).1
     = Return ("http://cdn.libravatar.org", None)
  /\ Weighted.nameCache
       (this (Weighted.baseURL (Examples.answering ([], Some Examples.no_such_host))
                Examples.strk Examples.fresh).2)
     = ∅
  /\ lookups
       (Weighted.baseURL (Examples.answering ([], Some Examples.no_such_host))
          Examples.strk
          (Weighted.baseURL (Examples.answering ([], Some Examples.no_such_host))
             Examples.strk Examples.fresh).2).2
     = [("avatars", "tcp", "kbt.io"); ("avatars", "tcp", "kbt.io")].
Proof.
  destruct (proj1 C7_fallback_is_cached_in_part_000_only
              "kbt.io" false
              (Examples.answering_at ([], Some Examples.no_such_host) 0)
              Examples.fresh_cached [] _ eq_refl eq_refl eq_refl)
    as (Hret & _ & Hagain).
  destruct (proj2 C7_fallback_is_cached_in_part_000_only
              (Examples.answering ([], Some Examples.no_such_host))
              Examples.strk Examples.fresh "kbt.io" _ eq_refl eq_refl eq_refl)
    as (Hfirst & Hthis & _ & Hlog).
  split; [split; [exact Hret |] |].
  - apply (Hagain (Examples.answering_at ([], Some Examples.timeout) (24 * Hour))).
    vm_compute. discriminate.
  - split; [exact Hfirst |]. split; [rewrite Hthis; reflexivity | exact Hlog].
Defined.

(** ** Claims on the form of the result and on the configuration *)

(** The cumulative weight of the specification is the sum of the weights. *)
Lemma candidates_weight_sum (l : list SRV) (W : Z) (cands : list (SRV * Z)) :
  fst (fold_left SpecSelector.add_candidate l (W, cands))
  = W + foldr Z.add 0 (Weight <$> l).
Proof.
  revert W cands. induction l as [| a l IH]; intros W cands; [simpl; lia |].
  rewrite fmap_cons. cbn [fold_left foldr SpecSelector.add_candidate].
  destruct (Z.eqb_spec (Weight a) 0) as [H0 | _]; rewrite IH; lia.
Qed.

(** What [baseURL] of [libravatar.go] does with the answer of a lookup that
    did not time out, with or without an error beside the records. *)
Lemma weighted_answer (w : Weighted.World) (id : Weighted.identity)
    (s : state Weighted.Libravatar) (host : string)
    (addrs : list SRV) (err : option error) :
  Weighted.getDomain w (this s) id = Return host ->
  Weighted.LookupSRV w (Weighted.serviceName (this s)) "tcp" host = (addrs, err) ->
  err = None \/ (exists d, err = Some (DNSErr d) /\ IsTimeout d = false) ->
  (Weighted.baseURL w id s).1
  = match addrs with
    | [] => Return (Weighted.protocol (this s) +:+ Weighted.fallback (this s), None)
    | [only] =>
        Return (Weighted.protocol (this s) +:+ TrimSuffix (Target only) ".", None)
    | _ =>
        match Weighted.selectRecord (Weighted.draw w) addrs with
        | Return rr =>
            Return (Weighted.protocol (this s) +:+ Target rr +:+ ":"
                      +:+ pretty (Z.to_N (Port rr)), None)
        | Panic msg => Panic msg
        end
    end.
Proof.
  intros Hhost Hans Herr. unfold Weighted.baseURL. run_monad.
  rewrite Hhost. cbn beta iota. rewrite Hans.
  destruct Herr as [-> | (d & -> & Ht)]; cbn -[Weighted.selectRecord];
    rewrite ?Ht; cbn -[Weighted.selectRecord];
    destruct addrs as [| a [| b l]]; try reflexivity;
    destruct (Weighted.selectRecord _ _); reflexivity.
Qed.

Lemma selectRecord_zero_tier (rnd : Z -> Z) (addrs : list SRV) :
  (2 <= length (SpecSelector.tier addrs))%nat ->
  Forall (fun rr => Weight rr = 0) (SpecSelector.tier addrs) ->
  Weighted.selectRecord rnd addrs = Panic "invalid argument to Intn".
Proof.
  intros Hlen Hzero. destruct addrs as [| first rest]; [simpl in Hlen; lia |].
  unfold Weighted.selectRecord. rewrite scan_all_tier.
  destruct (scan_walk_zero (SpecSelector.tier (first :: rest))
              (Weighted.start (SpecSelector.lowest_priority first rest))
              (tier_priority first rest) Hzero eq_refl)
    as [Htot Hrecs].
  rewrite Htot.
  destruct (Weighted.records _) as [| r1 [| r2 recs]];
    cbn [length Weighted.records Weighted.start] in Hrecs;
    [lia | lia | reflexivity].
Qed.

(** C8, with the inputs on which the code fails it.  When the lookup hands
    over exactly one record and did not time out, [baseURL] of
    [libravatar.go] returns the scheme followed by the target without its
    trailing dot, and no port.  When it hands over two or more well-formed
    records and the weights of the records of the lowest priority add up
    to more than 0 and less than 65536, [baseURL] returns the scheme
    followed by [target:port] of the record that the algorithm of section
    4.3 selects for the draw of the generator.  When the records of the
    lowest priority are two or more and all of weight 0, [baseURL] panics
    in [rand.Intn] and returns no URL. *)
Theorem C8_multi_record_url_fails_on_zero_weights :
  (forall w id s host only err,
     Weighted.getDomain w (this s) id = Return host ->
     Weighted.LookupSRV w (Weighted.serviceName (this s)) "tcp" host
     = ([only], err) ->
     err = None \/ (exists d, err = Some (DNSErr d) /\ IsTimeout d = false) ->
     (Weighted.baseURL w id s).1
     = Return (Weighted.protocol (this s) +:+ TrimSuffix (Target only) ".", None)
     /\ (forall h, Target only = h +:+ "." -> TrimSuffix (Target only) "." = h)
     /\ (HasSuffix (Target only) "." = false ->
         TrimSuffix (Target only) "." = Target only))
  /\ (forall w id s host a b l err,
        Weighted.getDomain w (this s) id = Return host ->
        Weighted.LookupSRV w (Weighted.serviceName (this s)) "tcp" host
        = (a :: b :: l, err) ->
        err = None \/ (exists d, err = Some (DNSErr d) /\ IsTimeout d = false) ->
        Forall wf_SRV (a :: b :: l) ->
        valid_draw (Weighted.draw w) ->
        0 < foldr Z.add 0 (Weight <$> SpecSelector.tier (a :: b :: l)) < 65536 ->
        exists rr,
          (Weighted.baseURL w id s).1
          = Return (Weighted.protocol (this s) +:+ Target rr +:+ ":"
                      +:+ pretty (Z.to_N (Port rr)), None)
          /\ SpecSelector.select
               (Weighted.draw w
                  (foldr Z.add 0 (Weight <$> SpecSelector.tier (a :: b :: l))))
               (a :: b :: l)
             = Some rr)
  /\ (forall w id s host a b l err,
        Weighted.getDomain w (this s) id = Return host ->
        Weighted.LookupSRV w (Weighted.serviceName (this s)) "tcp" host
        = (a :: b :: l, err) ->
        err = None \/ (exists d, err = Some (DNSErr d) /\ IsTimeout d = false) ->
        (2 <= length (SpecSelector.tier (a :: b :: l)))%nat ->
        Forall (fun rr => Weight rr = 0) (SpecSelector.tier (a :: b :: l)) ->
        (Weighted.baseURL w id s).1 = Panic "invalid argument to Intn").
Proof.
  split; [| split].
  - intros w id s host only err Hhost Hans Herr.
    rewrite (weighted_answer w id s host [only] err Hhost Hans Herr).
    split; [reflexivity |]. split.
    + intros h ->. apply TrimSuffix_trailing_dot.
    + apply TrimSuffix_no_suffix.
  - intros w id s host a b l err Hhost Hans Herr Hwf Hrnd Hsum.
    rewrite (weighted_answer w id s host (a :: b :: l) err Hhost Hans Herr).
    assert (HW : fst (SpecSelector.candidates (a :: b :: l))
                 = foldr Z.add 0 (Weight <$> SpecSelector.tier (a :: b :: l))).
    { unfold SpecSelector.candidates. rewrite candidates_weight_sum. lia. }
    pose proof (selectRecord_refines_spec (Weighted.draw w) a (b :: l) Hwf) as Href.
    rewrite HW in Href. specialize (Href (proj2 Hsum) Hrnd).
    destruct (Weighted.selectRecord (Weighted.draw w) (a :: b :: l)) as [rr | msg].
    + exists rr. split; [reflexivity | exact Href].
    + destruct Href as [H0 _]. lia.
  - intros w id s host a b l err Hhost Hans Herr Hlen Hzero.
    rewrite (weighted_answer w id s host (a :: b :: l) err Hhost Hans Herr).
    rewrite (selectRecord_zero_tier (Weighted.draw w) (a :: b :: l) Hlen Hzero).
    reflexivity.
Qed.

Lemma C8_multi_record_url_witness :
  (Weighted.baseURL (Examples.answering ([Examples.kbt_dot], None)) Examples.strk
     Examples.fresh).1
  = Return ("http://avatars.kbt.io", None)
  /\ (Weighted.baseURL
        (Examples.answering ([Examples.kbt_dot], Some Examples.malformed))
        Examples.strk Examples.fresh).1
     = Return ("http://avatars.kbt.io", None)
  /\ (Weighted.baseURL
        (Examples.answering_high ([Examples.ten; Examples.three], None))
        Examples.strk Examples.fresh).1
     = Return ("http://three.example.org.:80", None)
  /\ (Weighted.baseURL (Examples.answering ([Examples.zeroA; Examples.zeroB], None))
        Examples.strk Examples.fresh).1
     = Panic "invalid argument to Intn".
Proof.
  split; [| split; [| split]].
  - apply (proj1 (proj1 C8_multi_record_url_fails_on_zero_weights
             (Examples.answering ([Examples.kbt_dot], None)) Examples.strk
             Examples.fresh "kbt.io" Examples.kbt_dot None eq_refl eq_refl
             (or_introl eq_refl))).
  - apply (proj1 (proj1 C8_multi_record_url_fails_on_zero_weights
             (Examples.answering ([Examples.kbt_dot], Some Examples.malformed))
             Examples.strk Examples.fresh "kbt.io" Examples.kbt_dot
             (Some Examples.malformed) eq_refl eq_refl
             (or_intror (ex_intro _ _ (conj eq_refl eq_refl))))).
  - destruct (proj1 (proj2 C8_multi_record_url_fails_on_zero_weights)
                (Examples.answering_high ([Examples.ten; Examples.three], None))
                Examples.strk Examples.fresh "kbt.io" Examples.ten Examples.three []
                None eq_refl eq_refl (or_introl eq_refl))
      as (rr & Hurl & Hsel).
    + repeat constructor; unfold is_uint16; simpl; lia.
    + intros n Hn. change (0 <= Examples.highest_draw n < n).
      unfold Examples.highest_draw. lia.
    + vm_compute. split; reflexivity.
    + vm_compute in Hsel. injection Hsel as <-. exact Hurl.
  - apply (proj2 (proj2 C8_multi_record_url_fails_on_zero_weights)
             (Examples.answering ([Examples.zeroA; Examples.zeroB], None))
             Examples.strk Examples.fresh "kbt.io" Examples.zeroA Examples.zeroB []
             None eq_refl eq_refl (or_introl eq_refl)).
    + simpl. lia.
    + repeat constructor.
Defined.

(** The errors that [baseURL] returns: the timeout of the lookup and, in
    [part_000], the answer without records. *)
Lemma cached_baseURL_errors (w : Cached.World) (domain : string) (useHTTPS : bool)
    (s : state Cached.Libravatar) (url : string) (e : error) :
  (Cached.baseURL w domain useHTTPS s).1 = Return (url, Some e) ->
  (exists d, e = DNSErr d /\ IsTimeout d = true)
  \/ e = ErrorString "empty SRV response".
Proof.
  unfold Cached.baseURL. run_monad.
  destruct (Cached.usable _ _ _); [discriminate |].
  destruct (Cached.LookupSRV w _ _ _) as [addrs err].
  destruct err as [[d | msg | msg] |]; cbn; try discriminate.
  - destruct (IsTimeout d) eqn:Ht; cbn; [| discriminate].
    intros [= _ <-]. left. eauto.
  - destruct addrs as [| first rest]; cbn; [intros [= _ <-]; auto |].
    destruct (strip_last (Target first)); discriminate.
Qed.

Lemma weighted_baseURL_errors (w : Weighted.World) (id : Weighted.identity)
    (s : state Weighted.Libravatar) (url : string) (e : error) :
  (Weighted.baseURL w id s).1 = Return (url, Some e) ->
  exists d, e = DNSErr d /\ IsTimeout d = true.
Proof.
  unfold Weighted.baseURL. run_monad.
  destruct (Weighted.getDomain w (this s) id) as [host | msg]; cbn beta iota;
    [| discriminate].
  destruct (Weighted.LookupSRV w _ _ _) as [addrs err].
  destruct err as [[d | msg | msg] |]; cbn -[Weighted.selectRecord];
    try discriminate.
  - destruct (IsTimeout d) eqn:Ht; cbn -[Weighted.selectRecord].
    + intros [= _ <-]. eauto.
    + destruct addrs as [| a [| b l]]; try discriminate.
      destruct (Weighted.selectRecord _ _); discriminate.
  - destruct addrs as [| a [| b l]]; try discriminate.
    destruct (Weighted.selectRecord _ _); discriminate.
Qed.

(** C9, as the code has it.  [New] takes no argument: the time-to-live is
    24 hours and the fallback host is [cdn.libravatar.org], so that no
    invalid value can be passed at construction.  [SetFallbackHost] stores
    whatever host it is given, the empty one included, and leaves the
    time-to-live and the cache as they are; it has no error result.  The
    host is used as it is by the first resolution that needs it: on a
    lookup failure that is not a timeout [baseURL] returns the scheme
    followed by that host, with no error, in [part_000] (on a miss, for
    both schemes) and in [libravatar.go] (no record handed over) with HTTPS
    off; with HTTPS on, [libravatar.go] returns the secure fallback host,
    which [SetFallbackHost] does not set.  No call of [baseURL] returns an error
    about the configuration: the only errors are the timeout of the lookup
    and, in [part_000], the answer without records. *)
Theorem C9_configuration_is_not_validated :
  (Weighted.nameCacheDuration Weighted.New = 24 * 3600 * 1000000000
   /\ Weighted.fallbackHost Weighted.New = "cdn.libravatar.org"
   /\ Cached.nameCacheDuration Cached.New = 24 * 3600 * 1000000000
   /\ Cached.fallbackHost Cached.New = "cdn.libravatar.org")
  /\ (forall v host,
        Weighted.fallbackHost (Weighted.SetFallbackHost v host) = host
        /\ Weighted.nameCacheDuration (Weighted.SetFallbackHost v host)
           = Weighted.nameCacheDuration v
        /\ Weighted.nameCache (Weighted.SetFallbackHost v host)
           = Weighted.nameCache v)
  /\ (forall v host,
        Cached.fallbackHost (Cached.SetFallbackHost v host) = host
        /\ Cached.nameCacheDuration (Cached.SetFallbackHost v host)
           = Cached.nameCacheDuration v
        /\ Cached.nameCache (Cached.SetFallbackHost v host) = Cached.nameCache v)
  /\ (forall v host l w domain useHTTPS addrs d,
        Cached.usable (Cached.SetFallbackHost v host)
          (mkKey (Cached.serviceName useHTTPS) domain) (Cached.Now w) = None ->
        Cached.LookupSRV w (Cached.serviceName useHTTPS) "tcp" domain
        = (addrs, Some (DNSErr d)) ->
        IsTimeout d = false ->
        (Cached.baseURL w domain useHTTPS
           {| this := Cached.SetFallbackHost v host; lookups := l |}).1
        = Return (Cached.scheme useHTTPS +:+ host, None))
  /\ (forall v host l w id h d,
        Weighted.getDomain w (Weighted.SetFallbackHost v host) id = Return h ->
        Weighted.LookupSRV w (Weighted.serviceName v) "tcp" h
        = ([], Some (DNSErr d)) ->
        IsTimeout d = false ->
        (Weighted.baseURL w id
           {| this := Weighted.SetFallbackHost v host; lookups := l |}).1
        = Return (if Weighted.useHTTPS v
                  then "https://" +:+ Weighted.secureFallbackHost v
                  else "http://" +:+ host, None))
  /\ (forall w domain useHTTPS s url e,
        (Cached.baseURL w domain useHTTPS s).1 = Return (url, Some e) ->
        (exists d, e = DNSErr d /\ IsTimeout d = true)
        \/ e = ErrorString "empty SRV response")
  /\ (forall w id s url e,
        (Weighted.baseURL w id s).1 = Return (url, Some e) ->
        exists d, e = DNSErr d /\ IsTimeout d = true).
Proof.
  split; [repeat split; reflexivity |].
  split; [intros v host; repeat split; reflexivity |].
  split; [intros v host; repeat split; reflexivity |].
  split; [| split; [| split]].
  - intros v host l w domain useHTTPS addrs d Hmiss Hans Ht.
    rewrite (cached_not_found domain useHTTPS w
               {| this := Cached.SetFallbackHost v host; lookups := l |}
               Hmiss addrs d Hans Ht).
    reflexivity.
  - intros v host l w id h d Hhost Hans Ht.
    rewrite (weighted_not_found w id
               {| this := Weighted.SetFallbackHost v host; lookups := l |}
               h Hhost d Hans Ht).
    unfold Weighted.protocol, Weighted.fallback. cbn.
    destruct (Weighted.useHTTPS v); reflexivity.
  - intros w domain useHTTPS s url e. apply cached_baseURL_errors.
  - intros w id s url e. apply weighted_baseURL_errors.
Qed.

Lemma C9_configuration_is_not_validated_witness :
  (Cached.baseURL (Examples.answering_at ([], Some Examples.no_such_host) 0)
     "kbt.io" true
     {| this := Cached.SetFallbackHost Cached.New ""; lookups := [] |}).1
  = Return ("https://", None)
  /\ (Weighted.baseURL (Examples.answering ([], Some Examples.no_such_host))
        Examples.strk
        {| this := Weighted.SetFallbackHost Weighted.New ""; lookups := [] |}).1
     = Return ("http://", None)
  /\ (Weighted.baseURL (Examples.answering ([], Some Examples.no_such_host))
        Examples.strk
        {| this := Weighted.SetFallbackHost
                     (Weighted.SetUseHTTPS Weighted.New true) "";
           lookups := [] |}).1
     = Return ("https://seccdn.libravatar.org", None).
Proof.
  split; [| split].
  - apply (proj1 (proj2 (proj2 (proj2 C9_configuration_is_not_validated)))
             Cached.New "" [] (Examples.answering_at ([], Some Examples.no_such_host) 0)
             "kbt.io" true [] _ eq_refl eq_refl eq_refl).
  - apply (proj1 (proj2 (proj2 (proj2 (proj2 C9_configuration_is_not_validated))))
             Weighted.New "" [] (Examples.answering ([], Some Examples.no_such_host))
             Examples.strk "kbt.io" _ eq_refl eq_refl eq_refl).
  - apply (proj1 (proj2 (proj2 (proj2 (proj2 C9_configuration_is_not_validated))))
             (Weighted.SetUseHTTPS Weighted.New true) "" []
             (Examples.answering ([], Some Examples.no_such_host))
             Examples.strk "kbt.io" _ eq_refl eq_refl eq_refl).
Defined.

(** C9 fails on the code: the empty fallback host is accepted, and the
    first resolution that needs it returns the bare scheme, still with no
    error. *)
Lemma C9_counterexample :
  Weighted.fallbackHost (Weighted.SetFallbackHost Weighted.New "") = ""
  /\ (Weighted.baseURL (Examples.answering ([], Some Examples.no_such_host))
        Examples.strk
        {| this := Weighted.SetFallbackHost Weighted.New ""; lookups := [] |}).1
     = Return ("http://", None)
  /\ Cached.fallbackHost (Cached.SetFallbackHost Cached.New "") = ""
  /\ (Cached.baseURL (Examples.answering_at ([], Some Examples.no_such_host) 0)
        "kbt.io" false
        {| this := Cached.SetFallbackHost Cached.New ""; lookups := [] |}).1
     = Return ("http://", None).
Proof. repeat split; reflexivity. Qed.

(** C10: in each of the three variants, when the lookup returns a non-nil
    error whose dynamic type is not [*net.DNSError], [baseURL] panics on the
    type assertion; it does not return. *)
Theorem C10_foreign_error_panics :
  (forall w id s host addrs e,
     Weighted.getDomain w (this s) id = Return host ->
     Weighted.LookupSRV w (Weighted.serviceName (this s)) "tcp" host
     = (addrs, Some e) ->
     (forall d, e <> DNSErr d) ->
     (Weighted.baseURL w id s).1
     = Panic "interface conversion: error is not *net.DNSError")
  /\ (forall domain useHTTPS w s addrs e,
        Cached.usable (this s) (mkKey (Cached.serviceName useHTTPS) domain)
          (Cached.Now w) = None ->
        Cached.LookupSRV w (Cached.serviceName useHTTPS) "tcp" domain
        = (addrs, Some e) ->
        (forall d, e <> DNSErr d) ->
        (Cached.baseURL w domain useHTTPS s).1
        = Panic "interface conversion: error is not *net.DNSError")
  /\ (forall w domain s addrs e,
        Plain.LookupSRV w
          (if Plain.useHTTPS (this s) then "avatars-sec" else "avatars")
          "tcp" domain = (addrs, Some e) ->
        (forall d, e <> DNSErr d) ->
        (Plain.baseURL w domain s).1
        = Panic "interface conversion: error is not *net.DNSError").
Proof.
  split; [| split].
  - intros w id s host addrs e Hhost Hans He.
    rewrite (weighted_foreign_error w id s host Hhost addrs e Hans He).
    reflexivity.
  - intros domain useHTTPS w s addrs e Hmiss Hans He.
    rewrite (cached_foreign_error domain useHTTPS w s Hmiss addrs e Hans He).
    reflexivity.
  - intros w domain s addrs e Hans He.
    apply (plain_foreign_error w domain s addrs e Hans He).
Qed.

Lemma C10_foreign_error_panics_witness :
  (Weighted.baseURL (Examples.answering ([], Some (OtherErr "context canceled")))
     Examples.strk Examples.fresh).1
  = Panic "interface conversion: error is not *net.DNSError"
  /\ (Cached.baseURL
        (Examples.answering_at ([], Some (OtherErr "context canceled")) 0)
        "kbt.io" false Examples.fresh_cached).1
     = Panic "interface conversion: error is not *net.DNSError"
  /\ (Plain.baseURL
        (Examples.plainly_answering ([], Some (OtherErr "context canceled")))
        "kbt.io" Examples.fresh_plain).1
     = Panic "interface conversion: error is not *net.DNSError".
Proof.
  split; [| split].
  - apply (proj1 C10_foreign_error_panics
             (Examples.answering ([], Some (OtherErr "context canceled")))
             Examples.strk Examples.fresh "kbt.io" [] _ eq_refl eq_refl).
    intros d. discriminate.
  - apply (proj1 (proj2 C10_foreign_error_panics)
             "kbt.io" false
             (Examples.answering_at ([], Some (OtherErr "context canceled")) 0)
             Examples.fresh_cached [] _ eq_refl eq_refl).
    intros d. discriminate.
  - apply (proj2 (proj2 C10_foreign_error_panics)
             (Examples.plainly_answering ([], Some (OtherErr "context canceled")))
             "kbt.io" Examples.fresh_plain [] _ eq_refl).
    intros d. discriminate.
Defined.

(** * Further properties of the code *)

(** ** The selector of [libravatar.go], beyond the top tier *)

Lemma fold_min_attained (l : list Z) (q : Z) :
  fold_left Z.min l q = q \/ In (fold_left Z.min l q) l.
Proof.
  revert q. induction l as [| a l IH]; intros q; simpl; [left; reflexivity |].
  destruct (IH (Z.min q a)) as [H | H]; [| right; right; exact H].
  rewrite H. destruct (Z.min_spec q a) as [[_ ->] | [_ ->]]; auto.
Qed.

Lemma tier_nonempty (first : SRV) (rest : list SRV) :
  SpecSelector.tier (first :: rest) <> [].
Proof.
  assert (Hex : exists x, In x (first :: rest)
                          /\ Priority x = SpecSelector.lowest_priority first rest).
  { unfold SpecSelector.lowest_priority.
    destruct (fold_min_attained (map Priority rest) (Priority first)) as [H | H].
    - exists first. split; [left; reflexivity | symmetry; exact H].
    - apply in_map_iff in H as (x & Hx & Hin). exists x. split; [right |]; auto. }
  destruct Hex as (x & Hin & Hx). intros Hnil.
  assert (Hx' : In x (SpecSelector.tier (first :: rest))).
  { unfold SpecSelector.tier. apply filter_In. split; [exact Hin |].
    apply Z.eqb_eq. exact Hx. }
  rewrite Hnil in Hx'. destruct Hx'.
Qed.

Lemma selectRecord_on_tier (rnd : Z -> Z) (addrs : list SRV) :
  Weighted.selectRecord rnd addrs
  = Weighted.selectRecord rnd (SpecSelector.tier addrs).
Proof.
  destruct addrs as [| first rest]; [reflexivity |].
  pose proof (tier_nonempty first rest) as Hne.
  pose proof (tier_priority first rest) as Hprio.
  unfold Weighted.selectRecord at 1. rewrite scan_all_tier.
  destruct (SpecSelector.tier (first :: rest)) as [| f r] eqn:E; [congruence |].
  inversion Hprio as [| ? ? Hf _]; subst.
  unfold Weighted.selectRecord, Weighted.scan_all. rewrite Hf. reflexivity.
Qed.

(** X1: the records outside the tier of the lowest priority have no influence:
    the selection among all the records is the selection among the records
    of that tier. *)
Theorem selectRecord_only_top_tier (rnd : Z -> Z) (addrs : list SRV) :
  Weighted.selectRecord rnd addrs
  = Weighted.selectRecord rnd (SpecSelector.tier addrs).
Proof. apply selectRecord_on_tier. Qed.

(** X2: a record that is alone in the tier of the lowest priority is selected
    whatever its weight and whatever the generator would draw. *)
Theorem lone_top_record_is_selected (rnd : Z -> Z) (addrs : list SRV) (rr : SRV) :
  SpecSelector.tier addrs = [rr] -> 0 <= Weight rr ->
  Weighted.selectRecord rnd addrs = Return rr.
Proof.
  intros Htier Hw. rewrite selectRecord_on_tier, Htier.
  unfold Weighted.selectRecord, Weighted.scan_all. cbn [fold_left].
  rewrite (scan_step_in_tier (Weighted.start (Priority rr)) rr eq_refl).
  cbn [Weighted.total_weight Weighted.records Weighted.top_priority Weighted.start].
  cbn zeta.
  destruct (Z.ltb_spec 0 (Weight rr)); [reflexivity |].
  destruct (Z.eqb_spec (Weight rr) 0); [reflexivity | lia].
Qed.

Lemma lone_top_record_is_selected_witness :
  SpecSelector.tier [Examples.prio2; Examples.prio1; Examples.prio2]
  = [Examples.prio1]
  /\ 0 <= Weight Examples.prio1
  /\ Weighted.selectRecord Examples.highest_draw
       [Examples.prio2; Examples.prio1; Examples.prio2]
     = Return Examples.prio1.
Proof.
  assert (Htier : SpecSelector.tier [Examples.prio2; Examples.prio1; Examples.prio2]
                  = [Examples.prio1]) by reflexivity.
  assert (Hw : 0 <= Weight Examples.prio1) by (simpl; lia).
  split; [exact Htier |]. split; [exact Hw |].
  exact (lone_top_record_is_selected Examples.highest_draw _ _ Htier Hw).
Defined.

Section TotalIsCarried.

Import Weighted.

(** The running total stays a 16-bit number, it is 0 while there is no
    candidate, and some candidate carries it as its tag afterwards. *)
Local Abbreviation carried st :=
  (is_uint16 (total_weight st)
   /\ ((records st = [] /\ total_weight st = 0)
       \/ exists r, In r (records st) /\ weight r = total_weight st)).

Lemma start_carried (p : Z) : carried (start p).
Proof. split; [unfold is_uint16; simpl; lia | left; auto]. Qed.

Lemma scan_step_carried (st : scan) (rr : SRV) :
  wf_SRV rr -> carried st -> carried (scan_step st rr).
Proof.
  intros (_ & _ & Hw) Hst. unfold scan_step.
  destruct (top_priority st <? Priority rr); [exact Hst |].
  set (st1 := if Priority rr <? top_priority st then start (Priority rr) else st).
  cbn zeta. cbn [total_weight records].
  split; [apply uint16_range |]. right.
  destruct (Z.ltb_spec 0 (Weight rr)).
  - exists {| srv := rr; weight := uint16 (total_weight st1 + Weight rr) |}.
    split; [apply in_or_app; right; left; reflexivity | reflexivity].
  - destruct (Z.eqb_spec (Weight rr) 0); [| unfold is_uint16 in Hw; lia].
    exists {| srv := rr; weight := uint16 (total_weight st1 + Weight rr) |}.
    split; [left; reflexivity | reflexivity].
Qed.

Lemma scan_carried (l : list SRV) (st : scan) :
  Forall wf_SRV l -> carried st -> carried (fold_left scan_step l st).
Proof.
  revert st. induction l as [| a l IH]; intros st Hl Hst; simpl; [exact Hst |].
  inversion Hl as [| ? ? Ha Hl']; subst.
  apply IH; [exact Hl' | apply scan_step_carried; assumption].
Qed.

Lemma first_ge_carried (recs : list record) (n total : Z) :
  (exists r, In r recs /\ weight r = total) -> n <= total ->
  exists s, first_ge recs n = Some s.
Proof.
  induction recs as [| r0 recs IH]; intros (r & Hin & Hr) Hn; [destruct Hin |].
  simpl. destruct (Z.leb_spec n (weight r0)); [eauto |].
  destruct Hin as [-> | Hin]; [lia |]. apply IH; eauto.
Qed.

End TotalIsCarried.

(** X3: on well-formed records and with a generator that keeps its contract,
    the selection either returns a record of the top tier or stops in
    [rand.Intn] on a total weight of 0: [top_record] is never nil when it is
    dereferenced. *)
Theorem selectRecord_returns_or_stops_in_Intn
    (rnd : Z -> Z) (first : SRV) (rest : list SRV) :
  Forall wf_SRV (first :: rest) -> valid_draw rnd ->
  (exists rr, Weighted.selectRecord rnd (first :: rest) = Return rr
              /\ In rr (SpecSelector.tier (first :: rest)))
  \/ (Weighted.selectRecord rnd (first :: rest) = Panic "invalid argument to Intn"
      /\ Weighted.total_weight
           (Weighted.scan_all (first :: rest) (Priority first)) = 0).
Proof.
  intros Hwf Hrnd.
  assert (Hret : forall rr, Weighted.selectRecord rnd (first :: rest) = Return rr ->
                 exists rr', Weighted.selectRecord rnd (first :: rest) = Return rr'
                             /\ In rr' (SpecSelector.tier (first :: rest))).
  { intros rr H. exists rr. split; [exact H |].
    eapply selectRecord_from_tier. exact H. }
  destruct (scan_carried (first :: rest) (Weighted.start (Priority first)) Hwf
              (start_carried _)) as [Hrange Hcar].
  fold (Weighted.scan_all (first :: rest) (Priority first)) in Hrange, Hcar.
  revert Hret. unfold Weighted.selectRecord.
  set (st := Weighted.scan_all (first :: rest) (Priority first)) in *.
  destruct (Weighted.records st) as [| r1 [| r2 recs]] eqn:E; intros Hret.
  - destruct Hcar as [[_ H0] | (r & [] & _)]. right. rewrite H0. auto.
  - left. eapply Hret. reflexivity.
  - unfold Intn in *. destruct (Z.leb_spec (Weighted.total_weight st) 0) as [Hle | Hgt].
    + right. split; [reflexivity |]. unfold is_uint16 in Hrange. lia.
    + left. destruct Hcar as [[Hnil _] | Hcar]; [discriminate |].
      destruct (Hrnd _ Hgt) as [Hn0 Hn1].
      assert (Hsmall : uint16 (rnd (Weighted.total_weight st))
                       = rnd (Weighted.total_weight st))
        by (apply uint16_small; unfold is_uint16 in *; lia).
      rewrite Hsmall in *.
      destruct (first_ge_carried (r1 :: r2 :: recs)
                  (rnd (Weighted.total_weight st)) (Weighted.total_weight st) Hcar)
        as [s Hs]; [lia |].
      rewrite Hs in *. eapply Hret. reflexivity.
Qed.

Lemma selectRecord_returns_or_stops_in_Intn_witness :
  Forall wf_SRV [Examples.heavyA; Examples.heavyB]
  /\ valid_draw Examples.highest_draw
  /\ ((exists rr,
         Weighted.selectRecord Examples.highest_draw [Examples.heavyA; Examples.heavyB]
         = Return rr
         /\ In rr (SpecSelector.tier [Examples.heavyA; Examples.heavyB]))
      \/ (Weighted.selectRecord Examples.highest_draw
            [Examples.heavyA; Examples.heavyB] = Panic "invalid argument to Intn"
          /\ Weighted.total_weight
               (Weighted.scan_all [Examples.heavyA; Examples.heavyB]
                  (Priority Examples.heavyA)) = 0)).
Proof.
  assert (Hwf : Forall wf_SRV [Examples.heavyA; Examples.heavyB])
    by (repeat constructor; unfold is_uint16; simpl; lia).
  assert (Hdraw : valid_draw Examples.highest_draw)
    by (intros n Hn; unfold Examples.highest_draw; lia).
  split; [exact Hwf |]. split; [exact Hdraw |].
  exact (selectRecord_returns_or_stops_in_Intn Examples.highest_draw
           Examples.heavyA [Examples.heavyB] Hwf Hdraw).
Defined.

(** X4: two records of one priority and of positive weights [wa] and [wb]: the
    first one is selected by the [wa + 1] draws [0 .. wa], the second one by
    the other [wb - 1] draws. *)
Theorem two_weighted_records_split (rnd : Z -> Z) (a b : SRV) :
  Priority b = Priority a ->
  0 < Weight a -> 0 < Weight b -> Weight a + Weight b < 65536 ->
  valid_draw rnd ->
  Weighted.selectRecord rnd [a; b]
  = Return (if rnd (Weight a + Weight b) <=? Weight a then a else b).
Proof.
  intros Hp Ha Hb Hfit Hrnd.
  unfold Weighted.selectRecord, Weighted.scan_all. cbn [fold_left].
  rewrite (scan_step_in_tier (Weighted.start (Priority a)) a eq_refl).
  cbn [Weighted.total_weight Weighted.records Weighted.top_priority Weighted.start].
  cbn zeta.
  rewrite scan_step_in_tier by exact Hp.
  cbn [Weighted.total_weight Weighted.records Weighted.top_priority]. cbn zeta.
  destruct (Z.ltb_spec 0 (Weight a)); [| lia].
  destruct (Z.ltb_spec 0 (Weight b)); [| lia].
  rewrite (uint16_small (0 + Weight a)) by (unfold is_uint16; lia).
  rewrite (uint16_small (0 + Weight a + Weight b)) by (unfold is_uint16; lia).
  cbn [app Weighted.total_weight]. unfold Intn.
  replace (0 + Weight a + Weight b) with (Weight a + Weight b) by lia.
  replace (0 + Weight a) with (Weight a) by lia.
  destruct (Z.leb_spec (Weight a + Weight b) 0); [lia |].
  destruct (Hrnd (Weight a + Weight b)) as [Hn0 Hn1]; [lia |].
  rewrite uint16_small by (unfold is_uint16; lia).
  cbn [Weighted.first_ge Weighted.weight Weighted.srv].
  destruct (Z.leb_spec (rnd (Weight a + Weight b)) (Weight a)); [reflexivity |].
  destruct (Z.leb_spec (rnd (Weight a + Weight b)) (Weight a + Weight b));
    [reflexivity | lia].
Qed.

Lemma two_weighted_records_split_witness :
  Priority Examples.three = Priority Examples.ten
  /\ 0 < Weight Examples.ten /\ 0 < Weight Examples.three
  /\ Weight Examples.ten + Weight Examples.three < 65536
  /\ valid_draw Examples.highest_draw
  /\ Weighted.selectRecord Examples.highest_draw [Examples.ten; Examples.three]
     = Return (if Examples.highest_draw
                    (Weight Examples.ten + Weight Examples.three)
                  <=? Weight Examples.ten
               then Examples.ten else Examples.three).
Proof.
  assert (Hp : Priority Examples.three = Priority Examples.ten) by reflexivity.
  assert (Ha : 0 < Weight Examples.ten) by reflexivity.
  assert (Hb : 0 < Weight Examples.three) by reflexivity.
  assert (Hfit : Weight Examples.ten + Weight Examples.three < 65536) by reflexivity.
  assert (Hdraw : valid_draw Examples.highest_draw)
    by (intros n Hn; unfold Examples.highest_draw; lia).
  repeat (split; [assumption |]).
  exact (two_weighted_records_split Examples.highest_draw Examples.ten
           Examples.three Hp Ha Hb Hfit Hdraw).
Defined.

Lemma tier_same_priority (p : Z) (first : SRV) (rest : list SRV) :
  Forall (fun rr => Priority rr = p) (first :: rest) ->
  SpecSelector.tier (first :: rest) = first :: rest.
Proof.
  intros Hall.
  assert (Hlow : SpecSelector.lowest_priority first rest = p).
  { unfold SpecSelector.lowest_priority.
    inversion Hall as [| ? ? Hf Hrest]; subst. clear Hall.
    induction rest as [| a rest IH]; [reflexivity |].
    inversion Hrest as [| ? ? Ha Hrest']; subst. simpl.
    rewrite Ha, Z.min_id. apply IH. exact Hrest'. }
  unfold SpecSelector.tier. rewrite Hlow.
  generalize dependent (first :: rest). intros l Hall.
  induction Hall as [| x l Hx Hl IH]; [reflexivity |].
  simpl. rewrite Hx, Z.eqb_refl, IH. reflexivity.
Qed.

Lemma candidates_length (l : list SRV) (W : Z) (cands : list (SRV * Z)) :
  length (snd (fold_left SpecSelector.add_candidate l (W, cands)))
  = (length cands + length l)%nat.
Proof.
  revert W cands. induction l as [| a l IH]; intros W cands; simpl; [lia |].
  destruct (Weight a =? 0); rewrite IH; [simpl | rewrite length_app; simpl]; lia.
Qed.

Lemma candidates_from (l : list SRV) (W : Z) (cands : list (SRV * Z)) c :
  In c (snd (fold_left SpecSelector.add_candidate l (W, cands))) ->
  In c cands \/ In (fst c) l.
Proof.
  revert W cands. induction l as [| a l IH]; intros W cands; simpl; [auto |].
  destruct (Weight a =? 0); intros H; apply IH in H as [H | H]; auto.
  - destruct H as [<- | H]; auto.
  - apply in_app_or in H as [H | [<- | []]]; auto.
Qed.

Lemma candidates_tags_nonneg (l : list SRV) (W : Z) (cands : list (SRV * Z)) :
  Forall (fun rr => 0 <= Weight rr) l -> 0 <= W ->
  Forall (fun c => 0 <= snd c) cands ->
  Forall (fun c => 0 <= snd c)
    (snd (fold_left SpecSelector.add_candidate l (W, cands))).
Proof.
  revert W cands. induction l as [| a l IH]; intros W cands Hl HW Hc; simpl;
    [exact Hc |].
  inversion Hl as [| ? ? Ha Hl']; subst.
  destruct (Weight a =? 0); apply IH; auto; try lia.
  apply Forall_app. split; [exact Hc |]. constructor; [simpl; lia | constructor].
Qed.

Lemma find_app_left {A} (P : A -> bool) (l1 l2 : list A) :
  (exists c, In c l1 /\ P c = true) ->
  exists c, List.find P (l1 ++ l2) = Some c /\ In c l1.
Proof.
  induction l1 as [| x l1 IH]; intros (c & Hin & Hc); [destruct Hin |].
  simpl. destruct (P x) eqn:E; [exists x; auto |].
  destruct Hin as [-> | Hin]; [congruence |].
  destruct IH as (c' & Hf & Hin'); eauto.
Qed.

(** X5: when the tier of the lowest priority ends in a record of weight 1
    that has records before it, and the weights fit 16 bits, that last
    record is selected by no draw: the selection is always one of the
    records before it. *)
Theorem last_record_of_weight_one_is_never_drawn
    (rnd : Z -> Z) (addrs l : list SRV) (b : SRV) :
  SpecSelector.tier addrs = l ++ [b] -> l <> [] ->
  Forall wf_SRV (l ++ [b]) -> Weight b = 1 ->
  foldr Z.add 0 (Weight <$> l ++ [b]) < 65536 ->
  valid_draw rnd ->
  exists rr, Weighted.selectRecord rnd addrs = Return rr /\ In rr l.
Proof.
  intros Htier Hl Hwf Hb Hfit Hrnd.
  rewrite selectRecord_on_tier, Htier.
  assert (Hsame : SpecSelector.tier (l ++ [b]) = l ++ [b]).
  { destruct addrs as [| first rest]; [destruct l; discriminate |].
    pose proof (tier_priority first rest) as Hp. rewrite Htier in Hp.
    destruct l as [| a l']; [congruence |].
    eapply tier_same_priority. exact Hp. }
  assert (Hw : Forall (fun rr => 0 <= Weight rr) l).
  { destruct (proj1 (Forall_app _ _ _) Hwf) as [Hwfl _].
    eapply Forall_impl; [exact Hwfl |]. intros rr (_ & _ & H).
    unfold is_uint16 in H. lia. }
  assert (Hcands : SpecSelector.candidates (l ++ [b])
                   = (let res := fold_left SpecSelector.add_candidate l (0, []) in
                      (fst res + 1, snd res ++ [(b, fst res + 1)]))).
  { unfold SpecSelector.candidates. rewrite Hsame, fold_left_app.
    destruct (fold_left SpecSelector.add_candidate l (0, [])) as [W0 c0].
    simpl. rewrite Hb. reflexivity. }
  cbn zeta in Hcands.
  pose proof (candidates_weight_mono l 0 [] Hw) as HW0.
  pose proof (candidates_length l 0 []) as Hlen.
  pose proof (candidates_carry_weight l 0 [] (or_introl eq_refl)) as Hcarry.
  pose proof (candidates_tags_nonneg l 0 [] Hw (Z.le_refl 0) (List.Forall_nil _)) as Htags.
  assert (Hfrom : forall c,
            In c (snd (fold_left SpecSelector.add_candidate l (0, []))) ->
            In (fst c) l).
  { intros c Hc. apply candidates_from in Hc as [[] | Hc]. exact Hc. }
  assert (Hfit' : fst (SpecSelector.candidates (l ++ [b])) < 65536).
  { unfold SpecSelector.candidates. rewrite Hsame, candidates_weight_sum. lia. }
  cbn zeta in Hcarry.
  destruct (fold_left SpecSelector.add_candidate l (0, [])) as [W0 c0].
  cbn [fst snd] in *.
  destruct l as [| a l']; [congruence |].
  change ((a :: l') ++ [b]) with (a :: (l' ++ [b])) in *.
  pose proof (selectRecord_refines_spec rnd a (l' ++ [b]) Hwf Hfit' Hrnd) as Href.
  destruct (Weighted.selectRecord rnd (a :: l' ++ [b])) as [rr | msg].
  - exists rr. split; [reflexivity |].
    unfold SpecSelector.select in Href. rewrite Hcands in Href.
    destruct (Hrnd (W0 + 1)) as [Hr0 Hr1]; [lia |].
    cbn [fst] in Href.
    assert (Hfind : exists c,
              List.find (fun c => rnd (W0 + 1) <=? snd c) (c0 ++ [(b, W0 + 1)])
              = Some c /\ In c c0).
    { apply find_app_left.
      destruct Hcarry as [H0 | (c & Hin & Hc)].
      - destruct c0 as [| c1 c0']; [simpl in Hlen; lia |].
        inversion Htags as [| ? ? H1 _]; subst.
        exists c1. split; [left; reflexivity |]. apply Z.leb_le. lia.
      - exists c. split; [exact Hin |]. apply Z.leb_le. lia. }
    destruct Hfind as (c & Hfind & Hin).
    destruct c0 as [| c1 c0']; [destruct Hin |].
    change ((c1 :: c0') ++ [(b, W0 + 1)]) with (c1 :: (c0' ++ [(b, W0 + 1)])) in *.
    destruct (c0' ++ [(b, W0 + 1)]) as [| c2 tl] eqn:E;
      [destruct c0'; discriminate |].
    destruct (Z.leb_spec 0 (rnd (W0 + 1))); [| lia].
    destruct (Z.ltb_spec (rnd (W0 + 1)) (W0 + 1)); [| lia].
    cbn [andb] in Href. destruct c1 as [r1 t1].
    rewrite Hfind in Href. injection Href as <-. apply Hfrom. exact Hin.
  - destruct Href as [H0 _]. rewrite Hcands in H0. cbn [fst] in H0. lia.
Qed.

Lemma last_record_of_weight_one_witness :
  SpecSelector.tier [Examples.prio2; Examples.ten; Examples.three; Examples.light]
  = [Examples.ten; Examples.three] ++ [Examples.light]
  /\ [Examples.ten; Examples.three] <> []
  /\ Forall wf_SRV ([Examples.ten; Examples.three] ++ [Examples.light])
  /\ Weight Examples.light = 1
  /\ foldr Z.add 0 (Weight <$> [Examples.ten; Examples.three] ++ [Examples.light])
     < 65536
  /\ valid_draw Examples.highest_draw
  /\ exists rr,
       Weighted.selectRecord Examples.highest_draw
         [Examples.prio2; Examples.ten; Examples.three; Examples.light]
       = Return rr
       /\ In rr [Examples.ten; Examples.three].
Proof.
  assert (Htier : SpecSelector.tier
                    [Examples.prio2; Examples.ten; Examples.three; Examples.light]
                  = [Examples.ten; Examples.three] ++ [Examples.light])
    by reflexivity.
  assert (Hl : [Examples.ten; Examples.three] <> []) by discriminate.
  assert (Hwf : Forall wf_SRV ([Examples.ten; Examples.three] ++ [Examples.light]))
    by (repeat constructor; unfold is_uint16; simpl; lia).
  assert (Hb : Weight Examples.light = 1) by reflexivity.
  assert (Hfit : foldr Z.add 0
                   (Weight <$> [Examples.ten; Examples.three] ++ [Examples.light])
                 < 65536) by reflexivity.
  assert (Hdraw : valid_draw Examples.highest_draw)
    by (intros n Hn; unfold Examples.highest_draw; lia).
  repeat (split; [assumption |]).
  exact (last_record_of_weight_one_is_never_drawn Examples.highest_draw
           _ _ _ Htier Hl Hwf Hb Hfit Hdraw).
Defined.

(** ** The callers of [baseURL] in [libravatar.go] *)

Lemma prefix_append (p s x : string) :
  String.prefix p s = true -> String.prefix p (s +:+ x) = true.
Proof.
  revert s. induction p as [| a p IH]; intros s H;
    [destruct (s +:+ x); reflexivity |].
  destruct s as [| b s]; [discriminate |]. simpl in *.
  destruct (Ascii.ascii_dec a b); [apply IH; exact H | discriminate].
Qed.

Lemma prefix_refl (p : string) : String.prefix p p = true.
Proof.
  induction p as [| a p IH]; [reflexivity |]. simpl.
  destruct (Ascii.ascii_dec a a); [exact IH | congruence].
Qed.

Lemma selectRecord_panics (rnd : Z -> Z) (addrs : list SRV) (msg : string) :
  Weighted.selectRecord rnd addrs = Panic msg ->
  msg = "index out of range" \/ msg = "invalid argument to Intn"
  \/ msg = "nil pointer dereference".
Proof.
  unfold Weighted.selectRecord, Intn. destruct addrs as [| first rest].
  - intros [= <-]. auto.
  - cbn zeta. destruct (Weighted.records _) as [| r1 [| r2 recs]];
      try discriminate;
      (destruct (_ <=? 0); [intros [= <-]; auto |]);
      destruct (Weighted.first_ge _ _); try discriminate; intros [= <-]; auto.
Qed.

Section WeightedCallers.

Import Weighted.

Variables (lib : Library) (w : World).

(** What a call of [baseURL] can end in, once [getDomain] has returned. *)
Lemma weighted_baseURL_ends (id : identity) (s : state Libravatar) (host : string) :
  getDomain w (this s) id = Return host ->
  (exists e, (baseURL w id s).1 = Return ("", Some e))
  \/ (exists rest, (baseURL w id s).1 = Return (protocol (this s) +:+ rest, None))
  \/ (baseURL w id s).1 = Panic "interface conversion: error is not *net.DNSError"
  \/ (exists msg, (baseURL w id s).1 = Panic msg
                  /\ (msg = "index out of range" \/ msg = "invalid argument to Intn"
                      \/ msg = "nil pointer dereference")).
Proof.
  intros Hhost. unfold baseURL. run_monad. rewrite Hhost. cbn beta iota.
  destruct (LookupSRV w _ _ _) as [addrs err].
  assert (Hsel : forall P : outcome SRV -> Prop,
            (forall rr, P (Return rr)) ->
            (forall msg, msg = "index out of range"
                         \/ msg = "invalid argument to Intn"
                         \/ msg = "nil pointer dereference" -> P (Panic msg)) ->
            P (selectRecord (draw w) addrs)).
  { intros P Hr Hp. destruct (selectRecord (draw w) addrs) as [rr | msg] eqn:E;
      [apply Hr | apply Hp; eapply selectRecord_panics; exact E]. }
  destruct err as [[d | msg | msg] |]; cbn;
    [destruct (IsTimeout d); cbn; [left; eauto |] | auto | auto |];
    (destruct addrs as [| a [| b l]]; [right; left; eauto | right; left; eauto |]);
    apply Hsel; cbn; [eauto | intros; right; right; right; eauto
                     | eauto | intros; right; right; right; eauto].
Qed.

Lemma getDomain_email (v : Libravatar) (address : string) (o : option string) :
  exists host, getDomain w v {| email := Some address; openid := o |} = Return host.
Proof.
  unfold getDomain. cbn.
  destruct (url_Parse_Host w _); [eauto |]. destruct (_ && _); eauto.
Qed.

Lemma getDomain_openid (v : Libravatar) (host : string) :
  getDomain w v {| email := None; openid := Some host |} = Return host.
Proof. reflexivity. Qed.

Lemma weighted_process_ends (r : request) (s : state Libravatar) :
  (exists host, getDomain w (this s) (to_identity r) = Return host) ->
  (exists hash, genHash lib r = Return hash) ->
  (exists e, (process lib w r s).1 = Return ("", Some e))
  \/ (exists url, (process lib w r s).1 = Return (url, None)
                  /\ String.prefix (protocol (this s)) url = true)
  \/ (exists msg, (process lib w r s).1 = Panic msg
                  /\ (msg = "interface conversion: error is not *net.DNSError"
                      \/ msg = "index out of range"
                      \/ msg = "invalid argument to Intn"
                      \/ msg = "nil pointer dereference")).
Proof.
  intros [host Hhost] [hash Hhash].
  pose proof (weighted_baseURL_ends _ s host Hhost) as Hends.
  pose proof (weighted_always_queries w _ s host Hhost) as Hst.
  unfold process. run_monad.
  destruct (baseURL w (to_identity r) s) as [[[base err] | msg] s'].
  - cbn [fst snd] in *. subst s'. rewrite Hhash. cbn.
    destruct Hends as [[e [= -> ->]] | [[rest [= -> ->]] | [[=] | (m & [=] & _)]]].
    + left. eauto.
    + right. left.
      destruct (length (query_values _)); eexists; (split; [reflexivity |]);
        repeat apply prefix_append; apply prefix_refl.
  - right. right. exists msg. split; [reflexivity |].
    cbn [fst] in Hends.
    destruct Hends as [[e [=]] | [[rest [=]] | [[= ->] | (m & [= ->] & Hm)]]]; tauto.
Qed.

Local Abbreviation ends_well m s :=
  ((exists e, (m s).1 = Return ("", Some e))
   \/ (exists url, (m s).1 = Return (url, None)
                   /\ String.prefix (protocol (this s)) url = true)
   \/ (exists msg, (m s).1 = Panic msg
                   /\ (msg = "interface conversion: error is not *net.DNSError"
                       \/ msg = "index out of range"
                       \/ msg = "invalid argument to Intn"
                       \/ msg = "nil pointer dereference"))).

Lemma weighted_after_process (r : request) (s : state Libravatar) :
  ends_well (process lib w r) s ->
  ends_well (let* res := process lib w r in
             match res.2 with
             | Some err => ret ("", Some err)
             | None => ret (res.1, None)
             end) s.
Proof.
  run_monad. destruct (process lib w r s) as [[[url err] | msg] s']; cbn [fst snd].
  - intros [[e [= -> ->]] | [(u & [= -> ->] & Hu) | (m & [=] & _)]]; cbn; eauto.
  - intros [[e [=]] | [(u & [=] & _) | (m & [= ->] & Hm)]]. right. right. eauto.
Qed.

Lemma weighted_FromEmail_ends (input : string) (s : state Libravatar) :
  ends_well (FromEmail lib w input) s.
Proof.
  unfold FromEmail. destruct (ParseAddress lib input) as [addr | err].
  - apply weighted_after_process. apply weighted_process_ends.
    + apply getDomain_email.
    + cbn. eauto.
  - left. eauto.
Qed.

Lemma weighted_FromURL_ends (input : string) (s : state Libravatar) :
  ends_well (FromURL lib w input) s.
Proof.
  unfold FromURL. destruct (url_Parse lib input) as [ourl | err].
  - apply weighted_after_process. apply weighted_process_ends.
    + cbn. eauto.
    + cbn. eauto.
  - left. eauto.
Qed.

(** What [baseURL] and [process] read of the receiver. *)
Local Abbreviation agree id s1 s2 :=
  (protocol (this s1) = protocol (this s2)
   /\ serviceName (this s1) = serviceName (this s2)
   /\ fallback (this s1) = fallback (this s2)
   /\ getDomain w (this s1) id = getDomain w (this s2) id
   /\ query_values (this s1) = query_values (this s2)
   /\ lookups s1 = lookups s2).

Lemma weighted_baseURL_agree (id : identity) (s1 s2 : state Libravatar) :
  agree id s1 s2 ->
  (baseURL w id s1).1 = (baseURL w id s2).1
  /\ this (baseURL w id s1).2 = this s1
  /\ this (baseURL w id s2).2 = this s2
  /\ lookups (baseURL w id s1).2 = lookups (baseURL w id s2).2.
Proof.
  intros (Hp & Hs & Hf & Hd & _ & Hl). unfold baseURL. run_monad.
  rewrite Hp, Hs, Hf, Hd.
  destruct (getDomain w (this s2) id) as [host | msg]; cbn beta iota; [| auto].
  destruct (LookupSRV w _ _ _) as [addrs err].
  destruct err as [[d | msg | msg] |]; cbn -[selectRecord]; rewrite ?Hl; auto;
    try (destruct (IsTimeout d); cbn -[selectRecord]; rewrite ?Hl; auto);
    destruct addrs as [| a [| b l]]; cbn -[selectRecord]; rewrite ?Hl; auto;
    destruct (selectRecord (draw w) _); cbn; rewrite ?Hl; auto.
Qed.

Lemma weighted_process_agree (r : request) (s1 s2 : state Libravatar) :
  agree (to_identity r) s1 s2 ->
  (process lib w r s1).1 = (process lib w r s2).1
  /\ lookups (process lib w r s1).2 = lookups (process lib w r s2).2.
Proof.
  intros Hag.
  destruct (weighted_baseURL_agree _ s1 s2 Hag) as (Hres & Ht1 & Ht2 & Hl).
  destruct Hag as (_ & _ & _ & _ & Hq & _).
  unfold process. run_monad.
  destruct (baseURL w (to_identity r) s1) as [o1 s1'].
  destruct (baseURL w (to_identity r) s2) as [o2 s2'].
  cbn [fst snd] in *. subst o2.
  destruct o1 as [[base [err |]] | msg]; cbn; auto.
  destruct (genHash lib r); cbn; auto.
  rewrite Ht1, Ht2, Hq.
  destruct (length (query_values (this s2))); cbn; auto.
Qed.

(** X6: with HTTPS on and a secure fallback host set, [SetFallbackHost] has no
    effect on [FromEmail] and [FromURL]: same result and same DNS queries
    with and without it. *)
Theorem https_ignores_SetFallbackHost
    (v : Libravatar) (h input : string) (l : list query) :
  useHTTPS v = true -> secureFallbackHost v <> "" ->
  (FromEmail lib w input {| this := SetFallbackHost v h; lookups := l |}).1
  = (FromEmail lib w input {| this := v; lookups := l |}).1
  /\ lookups (FromEmail lib w input {| this := SetFallbackHost v h; lookups := l |}).2
     = lookups (FromEmail lib w input {| this := v; lookups := l |}).2
  /\ (FromURL lib w input {| this := SetFallbackHost v h; lookups := l |}).1
     = (FromURL lib w input {| this := v; lookups := l |}).1
  /\ lookups (FromURL lib w input {| this := SetFallbackHost v h; lookups := l |}).2
     = lookups (FromURL lib w input {| this := v; lookups := l |}).2.
Proof.
  intros Hhttps Hsec.
  set (s1 := {| this := SetFallbackHost v h; lookups := l |}).
  set (s2 := {| this := v; lookups := l |}).
  assert (Hag : forall r, agree (to_identity r) s1 s2).
  { intros r. unfold protocol, serviceName, fallback, getDomain, query_values.
    subst s1 s2. cbn. rewrite Hhttps.
    destruct (String.eqb_spec (secureFallbackHost v) ""); [contradiction |].
    cbn. repeat split; reflexivity. }
  assert (Hcall : forall r,
    let m := (let* res := process lib w r in
              match res.2 with
              | Some err => ret ("", Some err)
              | None => ret (res.1, None)
              end) in
    (m s1).1 = (m s2).1 /\ lookups (m s1).2 = lookups (m s2).2).
  { intros r. destruct (weighted_process_agree r s1 s2 (Hag r)) as [Hres Hl].
    cbn zeta. run_monad.
    destruct (process lib w r s1) as [o1 s1'].
    destruct (process lib w r s2) as [o2 s2'].
    cbn [fst snd] in *. subst o2.
    destruct o1 as [[url [err |]] | msg]; cbn; auto. }
  unfold FromEmail, FromURL.
  destruct (ParseAddress lib input) as [addr | e1];
    destruct (url_Parse lib input) as [ourl | e2];
    repeat split; try reflexivity; try apply Hcall.
Qed.

(** X7: when [url.Parse] fails on the domain of a parsed address, [FromEmail]
    sends its one SRV query for the fallback host itself (the secure one
    with HTTPS on and a secure fallback host set), and leaves the receiver
    as it was. *)
Theorem unparsable_domain_queries_fallback_host
    (input addr : string) (s : state Libravatar) :
  ParseAddress lib input = inl addr ->
  url_Parse_Host w ("//" +:+ addr) = None ->
  (FromEmail lib w input s).2
  = logged (serviceName (this s), "tcp",
            if useHTTPS (this s) && negb (String.eqb (secureFallbackHost (this s)) "")
            then secureFallbackHost (this s) else fallbackHost (this s)) s.
Proof.
  intros Haddr Hparse. unfold FromEmail. rewrite Haddr. run_monad.
  set (r := {| email_address := Some addr; openid_url := None |}).
  assert (Hhost : getDomain w (this s) (to_identity r)
                  = Return (if useHTTPS (this s)
                               && negb (String.eqb (secureFallbackHost (this s)) "")
                            then secureFallbackHost (this s)
                            else fallbackHost (this s))).
  { unfold getDomain. cbn. rewrite Hparse. destruct (_ && _); reflexivity. }
  pose proof (weighted_always_queries w _ s _ Hhost) as Hst.
  unfold process. run_monad.
  destruct (baseURL w (to_identity r) s) as [[[base [err |]] | msg] s'];
    cbn [fst snd] in *; subst s'; cbn; try reflexivity.
  destruct (length (query_values _)); reflexivity.
Qed.

(** X8: [FromEmail] and [FromURL] of [libravatar.go] end in one of three
    ways: an error with the empty URL; a URL without error, which begins
    with the protocol that [useHTTPS] selects; or a panic, which is the
    failed type assertion on the error of the lookup or one of the three of
    the selection among several records. The panic of [getDomain] and
    [genHash], "Neither Email or OpenID set", is not among them. *)
Theorem weighted_calls_end_in (input : string) (s : state Libravatar) :
  ends_well (FromEmail lib w input) s /\ ends_well (FromURL lib w input) s.
Proof.
  split; [apply weighted_FromEmail_ends | apply weighted_FromURL_ends].
Qed.

(** X9: with HTTPS off, the URL that [FromURL] of [libravatar.go] returns
    begins with "http://", whatever the scheme of the OpenID URL it is
    given. *)
Theorem weighted_FromURL_keeps_plain_protocol
    (input url : string) (s : state Libravatar) :
  useHTTPS (this s) = false ->
  (FromURL lib w input s).1 = Return (url, None) ->
  String.prefix "http://" url = true.
Proof.
  intros Hplain Hres.
  destruct (weighted_FromURL_ends input s)
    as [[e He] | [(u & Hu & Hpre) | (msg & Hmsg & _)]]; try congruence.
  rewrite Hres in Hu. injection Hu as <-.
  unfold protocol in Hpre. rewrite Hplain in Hpre. exact Hpre.
Qed.

End WeightedCallers.

Lemma https_ignores_SetFallbackHost_witness :
  Weighted.useHTTPS (Weighted.SetUseHTTPS Weighted.New true) = true
  /\ Weighted.secureFallbackHost (Weighted.SetUseHTTPS Weighted.New true) <> ""
  /\ (Weighted.FromEmail Examples.lib (Examples.unparsing ([], Some Examples.no_such_host))
        "strk@kbt.io"
        {| this := Weighted.SetFallbackHost
                     (Weighted.SetUseHTTPS Weighted.New true) "example.org";
           lookups := [] |}).1
     = (Weighted.FromEmail Examples.lib
          (Examples.unparsing ([], Some Examples.no_such_host)) "strk@kbt.io"
          {| this := Weighted.SetUseHTTPS Weighted.New true; lookups := [] |}).1.
Proof.
  assert (H1 : Weighted.useHTTPS (Weighted.SetUseHTTPS Weighted.New true) = true)
    by reflexivity.
  assert (H2 : Weighted.secureFallbackHost (Weighted.SetUseHTTPS Weighted.New true)
               <> "") by discriminate.
  split; [exact H1 |]. split; [exact H2 |].
  exact (proj1 (https_ignores_SetFallbackHost Examples.lib
                  (Examples.unparsing ([], Some Examples.no_such_host))
                  (Weighted.SetUseHTTPS Weighted.New true) "example.org"
                  "strk@kbt.io" [] H1 H2)).
Defined.

Lemma unparsable_domain_queries_fallback_host_witness :
  ParseAddress Examples.lib "strk@kbt.io" = inl "strk@kbt.io"
  /\ Weighted.url_Parse_Host (Examples.unparsing ([], Some Examples.no_such_host))
       ("//" +:+ "strk@kbt.io") = None
  /\ lookups (Weighted.FromEmail Examples.lib
                (Examples.unparsing ([], Some Examples.no_such_host))
                "strk@kbt.io" Examples.fresh).2
     = [("avatars", "tcp", "cdn.libravatar.org")].
Proof.
  assert (H1 : ParseAddress Examples.lib "strk@kbt.io" = inl "strk@kbt.io")
    by reflexivity.
  assert (H2 : Weighted.url_Parse_Host
                 (Examples.unparsing ([], Some Examples.no_such_host))
                 ("//" +:+ "strk@kbt.io") = None) by reflexivity.
  split; [exact H1 |]. split; [exact H2 |].
  rewrite (unparsable_domain_queries_fallback_host Examples.lib
             (Examples.unparsing ([], Some Examples.no_such_host))
             "strk@kbt.io" "strk@kbt.io" Examples.fresh H1 H2).
  reflexivity.
Defined.

Lemma weighted_FromURL_keeps_plain_protocol_witness :
  Weighted.useHTTPS (this Examples.fresh) = false
  /\ (Weighted.FromURL Examples.lib
        (Examples.answering_openid ([], Some Examples.no_such_host))
        "https://strk.kbt.io/openid/" Examples.fresh).1
     = Return ("http://cdn.libravatar.org/avatar/sha256:https://strk.kbt.io/openid/",
               None)
  /\ String.prefix "http://"
       "http://cdn.libravatar.org/avatar/sha256:https://strk.kbt.io/openid/" = true.
Proof.
  assert (H1 : Weighted.useHTTPS (this Examples.fresh) = false) by reflexivity.
  assert (H2 : (Weighted.FromURL Examples.lib
                  (Examples.answering_openid ([], Some Examples.no_such_host))
                  "https://strk.kbt.io/openid/" Examples.fresh).1
               = Return ("http://cdn.libravatar.org/avatar/sha256:https://strk.kbt.io/openid/",
                         None)) by reflexivity.
  split; [exact H1 |]. split; [exact H2 |].
  exact (weighted_FromURL_keeps_plain_protocol Examples.lib
           (Examples.answering_openid ([], Some Examples.no_such_host))
           "https://strk.kbt.io/openid/" _ Examples.fresh H1 H2).
Defined.

(** ** The name cache of [part_000] *)

Lemma strip_last_snoc (t : string) (c : Ascii.ascii) :
  strip_last (t +:+ String c "") = Return t.
Proof.
  unfold strip_last.
  assert (Hlen : String.length (t +:+ String c "") = S (String.length t))
    by (induction t as [| a t IH]; simpl; [reflexivity | now rewrite IH]).
  rewrite Hlen. clear Hlen. f_equal.
  induction t as [| a t IH]; simpl; [reflexivity | now rewrite IH].
Qed.

Lemma Sub_nonpos (t u : Z) : t <= u -> Sub t u <= 0.
Proof.
  intros H. unfold Sub, maxDuration, minDuration.
  destruct (Z.ltb_spec (2 ^ 63 - 1) (t - u)); [lia |].
  destruct (Z.ltb_spec (t - u) (- 2 ^ 63)); lia.
Qed.

Section CachedFrame.

Import Cached.

Variables (w : World) (domain : string) (useHTTPS : bool)
          (s : state Libravatar).

Local Abbreviation key := (mkKey (serviceName useHTTPS) domain).
Local Abbreviation q := (serviceName useHTTPS, "tcp", domain).

Lemma cached_baseURL_state :
  (baseURL w domain useHTTPS s).2 = s
  \/ (baseURL w domain useHTTPS s).2 = logged q s
  \/ exists val, (baseURL w domain useHTTPS s).2 = stored key val (logged q s).
Proof.
  unfold baseURL. run_monad.
  destruct (usable (this s) key (Now w)); [auto |].
  destruct (LookupSRV w _ _ _) as [addrs e].
  destruct e as [[d | msg | msg] |]; cbn; auto.
  - destruct (IsTimeout d); cbn; eauto.
  - destruct addrs as [| first rest]; cbn; auto.
    destruct (strip_last (Target first)); cbn; eauto.
Qed.

(** X10: a call of [baseURL] changes no cache entry but the one of its own key,
    removes none, leaves the other fields of the receiver as they are, and
    sends at most one query, the one for its service and domain. *)
Theorem cached_baseURL_frame :
  (forall k, k <> key ->
     nameCache (this (baseURL w domain useHTTPS s).2) !! k = nameCache (this s) !! k)
  /\ (is_Some (nameCache (this s) !! key) ->
      is_Some (nameCache (this (baseURL w domain useHTTPS s).2) !! key))
  /\ fallbackHost (this (baseURL w domain useHTTPS s).2) = fallbackHost (this s)
  /\ nameCacheDuration (this (baseURL w domain useHTTPS s).2)
     = nameCacheDuration (this s)
  /\ Cached.useHTTPS (this (baseURL w domain useHTTPS s).2) = Cached.useHTTPS (this s)
  /\ (lookups (baseURL w domain useHTTPS s).2 = lookups s
      \/ lookups (baseURL w domain useHTTPS s).2 = lookups s ++ [q]).
Proof.
  destruct cached_baseURL_state as [-> | [-> | [val ->]]]; cbn;
    repeat split; auto.
  - intros k Hk. apply lookup_insert_ne. congruence.
  - intros _. rewrite lookup_insert_eq. eauto.
Qed.

(** X11: an entry stamped later than the current time, as after the clock was
    set back, is used as long as the time-to-live is not negative. *)
Theorem cached_future_entry_is_used (val : cacheValue) :
  nameCache (this s) !! key = Some val ->
  Now w <= checkedAt val -> 0 <= nameCacheDuration (this s) ->
  baseURL w domain useHTTPS s
  = (Return (scheme useHTTPS +:+ target val, None), s).
Proof.
  intros Hval Hnow Httl. apply cached_hit. apply usable_spec.
  exists val. repeat split; [exact Hval |].
  pose proof (Sub_nonpos _ _ Hnow). lia.
Qed.

(** X12: on a miss, the target of the first record loses its last byte,
    whichever byte it is, and is cached and returned without it. *)
Theorem cached_target_loses_last_byte
    (first : SRV) (rest : list SRV) (t : string) (c : Ascii.ascii) :
  usable (this s) key (Now w) = None ->
  LookupSRV w (serviceName useHTTPS) "tcp" domain = (first :: rest, None) ->
  Target first = t +:+ String c "" ->
  baseURL w domain useHTTPS s
  = (Return (scheme useHTTPS +:+ t, None),
     stored key {| target := t; checkedAt := Now w |} (logged q s)).
Proof.
  intros Hmiss Hans Ht. eapply cached_first_record; [exact Hmiss | exact Hans |].
  rewrite Ht. apply strip_last_snoc.
Qed.

(** X13: on a miss, a first record with the empty target makes [baseURL] panic
    on the slice, after the query and before anything is cached. *)
Theorem cached_empty_target_panics (first : SRV) (rest : list SRV) :
  usable (this s) key (Now w) = None ->
  LookupSRV w (serviceName useHTTPS) "tcp" domain = (first :: rest, None) ->
  Target first = "" ->
  baseURL w domain useHTTPS s
  = (Panic "slice bounds out of range", logged q s).
Proof.
  intros Hmiss Hans Ht. unfold baseURL. run_monad. rewrite Hmiss, Hans. cbn.
  rewrite Ht. reflexivity.
Qed.

(** X14: a fallback host that was cached on a lookup without answer is what a
    later call within the time-to-live returns, without a query, also
    after [SetFallbackHost] has set another host. *)
Theorem cached_fallback_outlives_SetFallbackHost
    (w2 : World) (addrs : list SRV) (d : DNSError) (h : string) :
  usable (this s) key (Now w) = None ->
  LookupSRV w (serviceName useHTTPS) "tcp" domain = (addrs, Some (DNSErr d)) ->
  IsTimeout d = false ->
  Sub (Now w2) (Now w) <= nameCacheDuration (this s) ->
  baseURL w2 domain useHTTPS
    {| this := SetFallbackHost (this (baseURL w domain useHTTPS s).2) h;
       lookups := lookups (baseURL w domain useHTTPS s).2 |}
  = (Return (scheme useHTTPS +:+ fallbackHost (this s), None),
     {| this := SetFallbackHost (this (baseURL w domain useHTTPS s).2) h;
        lookups := lookups (baseURL w domain useHTTPS s).2 |}).
Proof.
  intros Hmiss Hans Ht Hfresh.
  rewrite (cached_not_found domain useHTTPS w s Hmiss addrs d Hans Ht).
  apply cached_hit. unfold usable. cbn. rewrite lookup_insert_eq. cbn.
  destruct (Z.leb_spec (Sub (Now w2) (Now w)) (nameCacheDuration (this s)));
    [reflexivity | lia].
Qed.

End CachedFrame.

(** ** The callers of [baseURL] in [part_000] and in [part_001] *)

Lemma prefix_empty (s : string) : String.prefix "" s = true.
Proof. destruct s; reflexivity. Qed.

Lemma index_from_absent (c : Ascii.ascii) (s : string) :
  ~ In c (String.list_ascii_of_string s) -> index_from (String c "") s = None.
Proof.
  induction s as [| b s IH]; intros Hnot; [reflexivity |].
  cbn [index_from String.prefix].
  destruct (Ascii.ascii_dec c b) as [-> | _]; [destruct Hnot; left; reflexivity |].
  rewrite IH; [reflexivity |]. intros H. apply Hnot. right. exact H.
Qed.

Lemma index_from_first (c : Ascii.ascii) (local rest : string) :
  ~ In c (String.list_ascii_of_string local) ->
  index_from (String c "") (local +:+ String c rest) = Some (String.length local).
Proof.
  induction local as [| b local IH]; intros Hnot.
  - change ("" +:+ String c rest) with (String c rest).
    cbn [index_from String.prefix].
    destruct (Ascii.ascii_dec c c); [| congruence]. rewrite prefix_empty. reflexivity.
  - change (String b local +:+ String c rest)
      with (String b (local +:+ String c rest)).
    cbn [index_from String.prefix String.length].
    destruct (Ascii.ascii_dec c b) as [-> | _]; [destruct Hnot; left; reflexivity |].
    rewrite IH; [reflexivity |]. intros H. apply Hnot. right. exact H.
Qed.

Lemma length_append (a b : string) :
  String.length (a +:+ b) = (String.length a + String.length b)%nat.
Proof. induction a as [| c a IH]; simpl; [reflexivity | now rewrite IH]. Qed.

Lemma drop_bytes_after (local rest : string) (c : Ascii.ascii) :
  drop_bytes (S (String.length local)) (local +:+ String c rest) = rest.
Proof. induction local as [| b local IH]; [reflexivity | exact IH]. Qed.

Lemma slice_from_after (local rest : string) (c : Ascii.ascii) :
  slice_from (Z.of_nat (String.length local) + 1) (local +:+ String c rest)
  = Return rest.
Proof.
  unfold slice_from. rewrite length_append. cbn [String.length].
  destruct (Z.ltb_spec (Z.of_nat (String.length local) + 1) 0); [lia |].
  destruct (Z.ltb_spec (Z.of_nat (String.length local + S (String.length rest)))
              (Z.of_nat (String.length local) + 1)); [lia |].
  cbn [orb]. f_equal.
  replace (Z.to_nat (Z.of_nat (String.length local) + 1))
    with (S (String.length local)) by lia.
  apply drop_bytes_after.
Qed.

Lemma Index_at_absent (email : string) :
  ~ In at_sign (String.list_ascii_of_string email) -> Index email "@" = -1.
Proof.
  intros H. unfold Index. change "@"%string with (String at_sign "").
  rewrite index_from_absent by exact H. reflexivity.
Qed.

Lemma Index_at_first (local rest : string) :
  ~ In at_sign (String.list_ascii_of_string local) ->
  Index (local +:+ String at_sign rest) "@" = Z.of_nat (String.length local).
Proof.
  intros H. unfold Index. change "@"%string with (String at_sign "").
  rewrite index_from_first by exact H. reflexivity.
Qed.

(** X15: [FromEmail] of [part_000] and of [part_001] rejects an address without
    ["@"], one that begins with ["@"] and one whose first ["@"] is its last
    byte, with the error "invalid email", without a query and without a
    change of the receiver. *)
Theorem FromEmail_rejects (lib : Library) (email : string)
    (wc : Cached.World) (sc : state Cached.Libravatar)
    (wp : Plain.World) (sp : state Plain.Libravatar) :
  (~ In at_sign (String.list_ascii_of_string email))
  \/ (exists rest, email = String at_sign rest)
  \/ (exists local, ~ In at_sign (String.list_ascii_of_string local)
                    /\ email = local +:+ String at_sign "") ->
  Cached.FromEmail lib wc email sc
  = (Return ("", Some (ErrorString "invalid email")), sc)
  /\ Plain.FromEmail lib wp email sp
     = (Return ("", Some (ErrorString "invalid email")), sp).
Proof.
  unfold Cached.FromEmail, Plain.FromEmail.
  intros [Hno | [[rest ->] | (local & Hno & ->)]].
  - rewrite Index_at_absent by exact Hno. auto.
  - change (String at_sign rest) with ("" +:+ String at_sign rest).
    rewrite (Index_at_first "" rest) by (intros []). auto.
  - rewrite Index_at_first by exact Hno.
    destruct (Z.ltb_spec (Z.of_nat (String.length local)) 1); [auto |].
    run_monad. rewrite slice_from_after. auto.
Qed.

(** X16: [FromEmail] of [part_000] resolves what follows the first ["@"], with
    the [useHTTPS] of the receiver; the hash is the one of the whole
    address, an error of the resolution comes with the empty URL. *)
Theorem cached_FromEmail_resolves_after_first_at
    (lib : Library) (w : Cached.World) (s : state Cached.Libravatar)
    (local dom : string) :
  local <> "" -> ~ In at_sign (String.list_ascii_of_string local) -> dom <> "" ->
  Cached.FromEmail lib w (local +:+ String at_sign dom) s
  = (match (Cached.baseURL w dom (Cached.useHTTPS (this s)) s).1 with
     | Return (base, None) =>
         Return (Cached.add_params (this (Cached.baseURL w dom (Cached.useHTTPS (this s)) s).2) dom
                   (base +:+ "/avatar/"
                    +:+ Cached.getMD5 lib (local +:+ String at_sign dom)), None)
     | Return (_, Some err) => Return ("", Some err)
     | Panic msg => Panic msg
     end, (Cached.baseURL w dom (Cached.useHTTPS (this s)) s).2).
Proof.
  intros Hlocal Hno Hdom. unfold Cached.FromEmail.
  rewrite Index_at_first by exact Hno.
  destruct (Z.ltb_spec (Z.of_nat (String.length local)) 1) as [Hlt | _];
    [destruct local; [congruence | simpl in Hlt; lia] |].
  run_monad. rewrite slice_from_after.
  destruct dom as [| c dom]; [congruence |]. cbn [String.length Nat.eqb].
  unfold Cached.finish. run_monad.
  destruct (Cached.baseURL w _ _ s) as [[[base [err |]] | msg] s']; reflexivity.
Qed.

(** X17: [FromEmail] of [part_001] resolves what follows the first ["@"];
    the hash is the one of the whole address, an error of the resolution
    comes with the empty URL. *)
Theorem plain_FromEmail_resolves_after_first_at
    (lib : Library) (w : Plain.World) (s : state Plain.Libravatar)
    (local dom : string) :
  local <> "" -> ~ In at_sign (String.list_ascii_of_string local) -> dom <> "" ->
  Plain.FromEmail lib w (local +:+ String at_sign dom) s
  = (match (Plain.baseURL w dom s).1 with
     | Return (base, None) =>
         Return (Plain.add_params (this (Plain.baseURL w dom s).2) dom
                   (base +:+ "/avatar/"
                    +:+ Plain.getMD5 lib (local +:+ String at_sign dom)), None)
     | Return (_, Some err) => Return ("", Some err)
     | Panic msg => Panic msg
     end, (Plain.baseURL w dom s).2).
Proof.
  intros Hlocal Hno Hdom. unfold Plain.FromEmail.
  rewrite Index_at_first by exact Hno.
  destruct (Z.ltb_spec (Z.of_nat (String.length local)) 1) as [Hlt | _];
    [destruct local; [congruence | simpl in Hlt; lia] |].
  run_monad. rewrite slice_from_after.
  destruct dom as [| c dom]; [congruence |]. cbn [String.length Nat.eqb].
  destruct (Plain.baseURL w _ s) as [[[base [err |]] | msg] s']; reflexivity.
Qed.

Lemma Split_absent (sep : Ascii.ascii) (a : string) :
  ~ In sep (String.list_ascii_of_string a) -> Split a sep = [a].
Proof.
  induction a as [| c a IH]; intros Hnot; [reflexivity |].
  cbn [Split]. destruct (Ascii.eqb_spec c sep) as [-> | _];
    [destruct Hnot; left; reflexivity |].
  rewrite IH; [reflexivity |]. intros H. apply Hnot. right. exact H.
Qed.

Lemma Split_first (sep : Ascii.ascii) (a b : string) :
  ~ In sep (String.list_ascii_of_string a) ->
  Split (a +:+ String sep b) sep = a :: Split b sep.
Proof.
  induction a as [| c a IH]; intros Hnot.
  - change ("" +:+ String sep b) with (String sep b). cbn [Split].
    rewrite Ascii.eqb_refl. reflexivity.
  - change (String c a +:+ String sep b) with (String c (a +:+ String sep b)).
    cbn [Split]. destruct (Ascii.eqb_spec c sep) as [-> | _];
      [destruct Hnot; left; reflexivity |].
    rewrite IH; [reflexivity |]. intros H. apply Hnot. right. exact H.
Qed.

Lemma Split_length (sep : Ascii.ascii) (s : string) :
  length (Split s sep)
  = S (count_occ Ascii.ascii_dec (String.list_ascii_of_string s) sep).
Proof.
  induction s as [| c s IH]; [reflexivity |].
  cbn [Split String.list_ascii_of_string count_occ].
  destruct (Ascii.eqb_spec c sep) as [-> | Hne].
  - destruct (Ascii.ascii_dec sep sep); [| congruence]. simpl. rewrite IH. reflexivity.
  - destruct (Ascii.ascii_dec c sep); [congruence |].
    destruct (Split s sep); simpl in *; lia.
Qed.

Lemma Split_head (sep : Ascii.ascii) (host tail : string) :
  ~ In sep (String.list_ascii_of_string host) ->
  tail = "" \/ (exists t, tail = String sep t) ->
  exists pieces, Split (host +:+ tail) sep = host :: pieces.
Proof.
  intros Hnot [-> | [t ->]].
  - exists []. replace (host +:+ "") with host; [apply Split_absent; exact Hnot |].
    clear Hnot. induction host as [| c h IH]; [reflexivity |].
    change (String c h +:+ "") with (String c (h +:+ "")). congruence.
  - eexists. apply Split_first. exact Hnot.
Qed.

Section CachedFromURL.

Import Cached.

Variables (lib : Library) (w : World) (s : state Libravatar).

(** The [useHTTPS] that [FromURL] passes on for a first piece [a]. *)
Local Abbreviation https_of a :=
  (if String.eqb a "https:" then true else useHTTPS (this s)).

(** X18: [FromURL] of [part_000] rejects an input with fewer than two ["/"]
    with the error "invalid url", without a query. *)
Theorem cached_FromURL_wants_two_slashes (input : string) :
  (count_occ Ascii.ascii_dec (String.list_ascii_of_string input) slash < 2)%nat ->
  FromURL lib w input s = (Return ("", Some (ErrorString "invalid url")), s).
Proof.
  intros Hcount. unfold FromURL. cbn zeta. rewrite Split_length.
  destruct (Nat.ltb_spec (S (count_occ Ascii.ascii_dec
                               (String.list_ascii_of_string input) slash)) 3);
    [reflexivity | lia].
Qed.

Lemma cached_FromURL_pieces (a b host tail : string) :
  ~ In slash (String.list_ascii_of_string a) ->
  ~ In slash (String.list_ascii_of_string b) ->
  ~ In slash (String.list_ascii_of_string host) ->
  tail = "" \/ (exists t, tail = String slash t) ->
  exists pieces,
    Split (a +:+ String slash (b +:+ String slash (host +:+ tail))) slash
    = a :: b :: host :: pieces.
Proof.
  intros Ha Hb Hhost Htail.
  destruct (Split_head slash host tail Hhost Htail) as [pieces Hp].
  exists pieces. rewrite Split_first by exact Ha.
  rewrite Split_first by exact Hb. rewrite Hp. reflexivity.
Qed.

(** X19: when nothing stands between the second ["/"] and the third one, or the
    end, [FromURL] of [part_000] rejects the input with the error "invalid
    email", without a query. *)
Theorem cached_FromURL_empty_third_piece (a b tail : string) :
  ~ In slash (String.list_ascii_of_string a) ->
  ~ In slash (String.list_ascii_of_string b) ->
  tail = "" \/ (exists t, tail = String slash t) ->
  FromURL lib w (a +:+ String slash (b +:+ String slash tail)) s
  = (Return ("", Some (ErrorString "invalid email")), s).
Proof.
  intros Ha Hb Htail.
  destruct (cached_FromURL_pieces a b "" tail Ha Hb (fun H => H) Htail)
    as [pieces Hp].
  change ("" +:+ tail) with tail in Hp.
  unfold FromURL. cbn zeta. rewrite Hp. reflexivity.
Qed.

(** X20: [FromURL] of [part_000] resolves what stands between the second ["/"]
    and the third one, or the end, whatever stands between the first two;
    it does so with HTTPS when the input begins with "https:/", also when
    [useHTTPS] is off. The hash is the one of the whole input. *)
Theorem cached_FromURL_resolves_third_piece (a b host tail : string) :
  ~ In slash (String.list_ascii_of_string a) ->
  ~ In slash (String.list_ascii_of_string b) ->
  ~ In slash (String.list_ascii_of_string host) -> host <> "" ->
  tail = "" \/ (exists t, tail = String slash t) ->
  FromURL lib w (a +:+ String slash (b +:+ String slash (host +:+ tail))) s
  = (match (baseURL w host (https_of a) s).1 with
     | Return (base, None) =>
         Return (add_params (this (baseURL w host (https_of a) s).2) host
                   (base +:+ "/avatar/"
                    +:+ getSHA256 lib
                          (a +:+ String slash (b +:+ String slash (host +:+ tail)))),
                 None)
     | Return (_, Some err) => Return ("", Some err)
     | Panic msg => Panic msg
     end, (baseURL w host (https_of a) s).2).
Proof.
  intros Ha Hb Hhost Hne Htail.
  destruct (cached_FromURL_pieces a b host tail Ha Hb Hhost Htail)
    as [pieces Hp].
  unfold FromURL. cbn zeta. rewrite Hp.
  cbn [length Nat.ltb Nat.leb nth].
  destruct host as [| c host]; [congruence |]. cbn [String.length Nat.eqb].
  run_monad. unfold finish. run_monad.
  destruct (baseURL w _ _ s) as [[[base [err |]] | msg] s']; reflexivity.
Qed.

End CachedFromURL.

Lemma index_from_cut (c : Ascii.ascii) (s : string) (n : nat) :
  index_from (String c "") s = Some n ->
  exists local rest,
    s = local +:+ String c rest
    /\ ~ In c (String.list_ascii_of_string local)
    /\ String.length local = n.
Proof.
  revert n. induction s as [| b s IH]; intros n; [discriminate |].
  cbn [index_from String.prefix].
  destruct (Ascii.ascii_dec c b) as [<- | Hne].
  - rewrite prefix_empty. intros [= <-]. exists "", s.
    split; [reflexivity |]. split; [intros [] | reflexivity].
  - destruct (index_from (String c "") s) as [m |]; [| discriminate].
    intros [= <-]. destruct (IH m eq_refl) as (local & rest & -> & Hno & <-).
    exists (String b local), rest. split; [reflexivity |].
    split; [| reflexivity]. intros [Heq | Hin]; [congruence | exact (Hno Hin)].
Qed.

Lemma Split_nonempty (sep : Ascii.ascii) (s : string) : Split s sep <> [].
Proof.
  destruct s as [| c s]; [discriminate |]. cbn [Split].
  destruct (Ascii.eqb c sep); [discriminate |].
  destruct (Split s sep); discriminate.
Qed.

Lemma append_empty (s : string) : s +:+ "" = s.
Proof.
  induction s as [| c s IH]; [reflexivity |].
  change (String c s +:+ "") with (String c (s +:+ "")). congruence.
Qed.

(** The first piece holds no separator; it is the whole string, or the
    part before the first separator, and the other pieces are those of
    the rest. *)
Lemma Split_cut (sep : Ascii.ascii) (s p : string) (rest : list string) :
  Split s sep = p :: rest ->
  ~ In sep (String.list_ascii_of_string p)
  /\ ((s = p /\ rest = [])
      \/ exists s', s = p +:+ String sep s' /\ Split s' sep = rest).
Proof.
  revert p rest. induction s as [| c s IH]; intros p rest.
  - intros [= <- <-]. split; [intros [] | left; auto].
  - cbn [Split]. destruct (Ascii.eqb_spec c sep) as [-> | Hne].
    + intros [= <- <-]. split; [intros [] |]. right. exists s. auto.
    + destruct (Split s sep) as [| piece pieces] eqn:E;
        [destruct (Split_nonempty sep s E) |].
      intros [= <- <-]. destruct (IH piece pieces eq_refl) as [Hno Hcut].
      split; [intros [Heq | Hin]; [congruence | exact (Hno Hin)] |].
      destruct Hcut as [[-> ->] | (s' & -> & Hs')]; [left; auto |].
      right. exists s'. auto.
Qed.


(** ** Repeated calls in [part_000] *)

Section CachedRepeat.

Import Cached.

Variables (lib : Library) (w1 : World) (s : state Libravatar).

Lemma cached_baseURL_useHTTPS (domain : string) (https : bool) :
  useHTTPS (this (baseURL w1 domain https s).2) = useHTTPS (this s).
Proof.
  destruct (cached_baseURL_state w1 domain https s) as [-> | [-> | [val ->]]];
    reflexivity.
Qed.

Lemma cached_finish_repeats (domain hash url : string) (https : bool) :
  (finish w1 domain https hash s).1 = Return (url, None) ->
  (finish w1 domain https hash s).2 = (baseURL w1 domain https s).2
  /\ exists val,
       nameCache (this (finish w1 domain https hash s).2)
         !! {| service := serviceName https; Go.domain := domain |} = Some val
       /\ forall w2,
            Sub (Now w2) (checkedAt val)
            <= nameCacheDuration (this (finish w1 domain https hash s).2) ->
            finish w2 domain https hash (finish w1 domain https hash s).2
            = (Return (url, None), (finish w1 domain https hash s).2).
Proof.
  pose proof (cached_idempotent domain https w1 s) as Hidem.
  unfold finish. run_monad.
  destruct (baseURL w1 domain https s) as [[[base [err |]] | msg] s1];
    cbn [fst snd] in *; try discriminate.
  intros [= <-]. split; [reflexivity |].
  destruct (Hidem base eq_refl) as (val & Hval & Hagain).
  exists val. split; [exact Hval |]. intros w2 Hfresh.
  rewrite (Hagain w2 Hfresh). reflexivity.
Qed.

Lemma cached_FromEmail_repeats (email url : string) :
  (FromEmail lib w1 email s).1 = Return (url, None) ->
  exists domain val,
    (Index email "@" <? 1) = false
    /\ slice_from (Index email "@" + 1) email = Return domain
    /\ nameCache (this (FromEmail lib w1 email s).2)
         !! {| service := serviceName (useHTTPS (this s)); Go.domain := domain |}
       = Some val
    /\ forall w2,
         Sub (Now w2) (checkedAt val)
         <= nameCacheDuration (this (FromEmail lib w1 email s).2) ->
         FromEmail lib w2 email (FromEmail lib w1 email s).2
         = (Return (url, None), (FromEmail lib w1 email s).2).
Proof.
  unfold FromEmail. cbn zeta.
  destruct (Index email "@" <? 1); [discriminate |]. run_monad.
  destruct (slice_from (Index email "@" + 1) email) as [domain | msg];
    [| discriminate].
  destruct (String.length domain =? 0)%nat; [discriminate |].
  intros Hres.
  destruct (cached_finish_repeats domain (getMD5 lib email) url
              (useHTTPS (this s)) Hres) as (Hst & val & Hval & Hagain).
  exists domain, val. split; [reflexivity |]. split; [reflexivity |].
  split; [exact Hval |]. intros w2 Hfresh.
  assert (Hsame : useHTTPS (this (finish w1 domain (useHTTPS (this s))
                                    (getMD5 lib email) s).2)
                  = useHTTPS (this s))
    by (rewrite Hst; apply cached_baseURL_useHTTPS).
  cbn beta. rewrite Hsame. apply Hagain. exact Hfresh.
Qed.

Lemma cached_FromURL_repeats (input url : string) :
  (FromURL lib w1 input s).1 = Return (url, None) ->
  exists val,
    (length (Split input slash) <? 3)%nat = false
    /\ nameCache (this (FromURL lib w1 input s).2)
         !! {| service :=
                 serviceName
                   (if String.eqb (nth 0 (Split input slash) "") "https:"
                    then true else useHTTPS (this s));
               Go.domain := nth 2 (Split input slash) "" |}
       = Some val
    /\ forall w2,
         Sub (Now w2) (checkedAt val)
         <= nameCacheDuration (this (FromURL lib w1 input s).2) ->
         FromURL lib w2 input (FromURL lib w1 input s).2
         = (Return (url, None), (FromURL lib w1 input s).2).
Proof.
  unfold FromURL. cbn zeta.
  destruct (length (Split input slash) <? 3)%nat; [discriminate |].
  destruct (String.length (nth 2 (Split input slash) "") =? 0)%nat;
    [discriminate |].
  run_monad. intros Hres.
  set (https := if String.eqb (nth 0 (Split input slash) "") "https:"
                then true else useHTTPS (this s)) in *.
  destruct (cached_finish_repeats _ (getSHA256 lib input) url https Hres)
    as (Hst & val & Hval & Hagain).
  exists val. split; [reflexivity |].
  split; [exact Hval |]. intros w2 Hfresh.
  assert (Hsame : useHTTPS (this (finish w1 (nth 2 (Split input slash) "") https
                                    (getSHA256 lib input) s).2)
                  = useHTTPS (this s))
    by (rewrite Hst; apply cached_baseURL_useHTTPS).
  cbn beta. rewrite Hsame. apply Hagain. exact Hfresh.
Qed.

(** X21: a [FromEmail] of [part_000] that returned a URL was given an
    address with an ["@"]; the cache then holds, under the service of the
    receiver's [useHTTPS] and the text after the first ["@"], an entry such
    that, as long as it is no older than the time-to-live, the same call
    returns the same URL again, without a DNS query and without a change of
    the receiver. *)
Theorem cached_FromEmail_repeats_without_query (email url : string) :
  (FromEmail lib w1 email s).1 = Return (url, None) ->
  exists local dom val,
    email = local +:+ String at_sign dom
    /\ ~ In at_sign (String.list_ascii_of_string local)
    /\ nameCache (this (FromEmail lib w1 email s).2)
         !! {| service := serviceName (useHTTPS (this s)); Go.domain := dom |}
       = Some val
    /\ forall w2,
         Sub (Now w2) (checkedAt val)
         <= nameCacheDuration (this (FromEmail lib w1 email s).2) ->
         FromEmail lib w2 email (FromEmail lib w1 email s).2
         = (Return (url, None), (FromEmail lib w1 email s).2).
Proof.
  intros Hres.
  destruct (cached_FromEmail_repeats email url Hres)
    as (domain & val & Hidx & Hslice & Hval & Hagain).
  assert (Hcut : exists local dom,
            email = local +:+ String at_sign dom
            /\ ~ In at_sign (String.list_ascii_of_string local)
            /\ Index email "@" = Z.of_nat (String.length local)).
  { unfold Index in *. change "@"%string with (String at_sign "") in *.
    destruct (index_from (String at_sign "") email) as [n |] eqn:E;
      [| discriminate].
    destruct (index_from_cut at_sign email n E) as (local & dom & -> & Hno & <-).
    eauto. }
  destruct Hcut as (local & dom & Hemail & Hno & Hlen).
  exists local, dom, val. split; [exact Hemail |]. split; [exact Hno |].
  assert (Hdom : domain = dom).
  { rewrite Hlen, Hemail, slice_from_after in Hslice. congruence. }
  subst domain. split; [exact Hval | exact Hagain].
Qed.

(** X22: a [FromURL] of [part_000] that returned a URL was given an input
    with two ["/"] at least; the cache then holds, under the text between
    the second ["/"] and the third one (or the end) and the service of
    HTTPS when the text before the first ["/"] is "https:", of the
    receiver's [useHTTPS] otherwise, an entry such that, as long as it is
    no older than the time-to-live, the same call returns the same URL
    again, without a DNS query and without a change of the receiver. *)
Theorem cached_FromURL_repeats_without_query (input url : string) :
  (FromURL lib w1 input s).1 = Return (url, None) ->
  exists a b host tail val,
    input = a +:+ String slash (b +:+ String slash (host +:+ tail))
    /\ ~ In slash (String.list_ascii_of_string a)
    /\ ~ In slash (String.list_ascii_of_string b)
    /\ ~ In slash (String.list_ascii_of_string host)
    /\ (tail = "" \/ exists t, tail = String slash t)
    /\ nameCache (this (FromURL lib w1 input s).2)
         !! {| service :=
                 serviceName (if String.eqb a "https:" then true
                              else useHTTPS (this s));
               Go.domain := host |}
       = Some val
    /\ forall w2,
         Sub (Now w2) (checkedAt val)
         <= nameCacheDuration (this (FromURL lib w1 input s).2) ->
         FromURL lib w2 input (FromURL lib w1 input s).2
         = (Return (url, None), (FromURL lib w1 input s).2).
Proof.
  intros Hres.
  destruct (cached_FromURL_repeats input url Hres) as (val & Hlen & Hval & Hagain).
  destruct (Split input slash) as [| a [| b [| host pieces]]] eqn:E;
    try discriminate.
  cbn [nth] in Hval.
  destruct (Split_cut slash input a (b :: host :: pieces) E)
    as [Ha [[_ [=]] | (s1 & Hinput & E1)]].
  destruct (Split_cut slash s1 b (host :: pieces) E1)
    as [Hb [[_ [=]] | (s2 & Hs1 & E2)]].
  destruct (Split_cut slash s2 host pieces E2) as [Hhost Hcut].
  assert (Htail : exists tail,
            s2 = host +:+ tail /\ (tail = "" \/ exists t, tail = String slash t)).
  { destruct Hcut as [[-> _] | (s3 & -> & _)].
    - exists "". split; [symmetry; apply append_empty | auto].
    - exists (String slash s3). split; [reflexivity | eauto]. }
  destruct Htail as (tail & Hs2 & Htail).
  exists a, b, host, tail, val.
  split; [rewrite Hinput, Hs1, Hs2; reflexivity |].
  repeat (split; [assumption |]). exact Hagain.
Qed.

End CachedRepeat.

(** ** The further properties at concrete inputs *)

Ltac not_among :=
  vm_compute;
  let H := fresh in
  intros H; repeat (destruct H as [H | H]; [discriminate H |]); exact H.

Lemma cached_future_entry_is_used_witness :
  Cached.nameCache (this Examples.kbt_entry)
    !! {| service := Cached.serviceName false; domain := "kbt.io" |}
  = Some {| target := "avatars.kbt.io"; checkedAt := 100 |}
  /\ Cached.Now (Examples.answering_at ([], Some Examples.timeout) 50)
     <= checkedAt {| target := "avatars.kbt.io"; checkedAt := 100 |}
  /\ 0 <= Cached.nameCacheDuration (this Examples.kbt_entry)
  /\ Cached.baseURL (Examples.answering_at ([], Some Examples.timeout) 50)
       "kbt.io" false Examples.kbt_entry
     = (Return ("http://avatars.kbt.io", None), Examples.kbt_entry).
Proof.
  assert (H1 : Cached.nameCache (this Examples.kbt_entry)
                 !! {| service := Cached.serviceName false; domain := "kbt.io" |}
               = Some {| target := "avatars.kbt.io"; checkedAt := 100 |})
    by apply lookup_insert_eq.
  assert (H2 : Cached.Now (Examples.answering_at ([], Some Examples.timeout) 50)
               <= checkedAt {| target := "avatars.kbt.io"; checkedAt := 100 |})
    by (vm_compute; discriminate).
  assert (H3 : 0 <= Cached.nameCacheDuration (this Examples.kbt_entry))
    by (vm_compute; discriminate).
  split; [exact H1 |]. split; [exact H2 |]. split; [exact H3 |].
  exact (cached_future_entry_is_used
           (Examples.answering_at ([], Some Examples.timeout) 50)
           "kbt.io" false Examples.kbt_entry _ H1 H2 H3).
Defined.

Lemma cached_target_loses_last_byte_witness :
  Cached.usable (this Examples.fresh_cached)
    {| service := Cached.serviceName false; domain := "kbt.io" |}
    (Cached.Now (Examples.answering_at ([Examples.kbt], None) 0)) = None
  /\ Cached.LookupSRV (Examples.answering_at ([Examples.kbt], None) 0)
       (Cached.serviceName false) "tcp" "kbt.io" = ([Examples.kbt], None)
  /\ Target Examples.kbt = "avatars.kbt.i" +:+ String (byte_of 111) ""
  /\ (Cached.baseURL (Examples.answering_at ([Examples.kbt], None) 0)
        "kbt.io" false Examples.fresh_cached).1
     = Return ("http://avatars.kbt.i", None).
Proof.
  assert (H1 : Cached.usable (this Examples.fresh_cached)
                 {| service := Cached.serviceName false; domain := "kbt.io" |}
                 (Cached.Now (Examples.answering_at ([Examples.kbt], None) 0))
               = None) by reflexivity.
  assert (H2 : Cached.LookupSRV (Examples.answering_at ([Examples.kbt], None) 0)
                 (Cached.serviceName false) "tcp" "kbt.io" = ([Examples.kbt], None))
    by reflexivity.
  assert (H3 : Target Examples.kbt = "avatars.kbt.i" +:+ String (byte_of 111) "")
    by reflexivity.
  split; [exact H1 |]. split; [exact H2 |]. split; [exact H3 |].
  rewrite (cached_target_loses_last_byte
             (Examples.answering_at ([Examples.kbt], None) 0) "kbt.io" false
             Examples.fresh_cached Examples.kbt [] "avatars.kbt.i" (byte_of 111)
             H1 H2 H3).
  reflexivity.
Defined.

Lemma cached_empty_target_panics_witness :
  Cached.usable (this Examples.fresh_cached)
    {| service := Cached.serviceName false; domain := "kbt.io" |}
    (Cached.Now (Examples.answering_at ([Examples.blank], None) 0)) = None
  /\ Cached.LookupSRV (Examples.answering_at ([Examples.blank], None) 0)
       (Cached.serviceName false) "tcp" "kbt.io" = ([Examples.blank], None)
  /\ Target Examples.blank = ""
  /\ Cached.baseURL (Examples.answering_at ([Examples.blank], None) 0)
       "kbt.io" false Examples.fresh_cached
     = (Panic "slice bounds out of range",
        logged (Cached.serviceName false, "tcp", "kbt.io") Examples.fresh_cached).
Proof.
  assert (H1 : Cached.usable (this Examples.fresh_cached)
                 {| service := Cached.serviceName false; domain := "kbt.io" |}
                 (Cached.Now (Examples.answering_at ([Examples.blank], None) 0))
               = None) by reflexivity.
  assert (H2 : Cached.LookupSRV (Examples.answering_at ([Examples.blank], None) 0)
                 (Cached.serviceName false) "tcp" "kbt.io"
               = ([Examples.blank], None)) by reflexivity.
  assert (H3 : Target Examples.blank = "") by reflexivity.
  split; [exact H1 |]. split; [exact H2 |]. split; [exact H3 |].
  exact (cached_empty_target_panics
           (Examples.answering_at ([Examples.blank], None) 0) "kbt.io" false
           Examples.fresh_cached Examples.blank [] H1 H2 H3).
Defined.

Lemma cached_fallback_outlives_SetFallbackHost_witness :
  Cached.usable (this Examples.fresh_cached)
    {| service := Cached.serviceName false; domain := "kbt.io" |}
    (Cached.Now (Examples.answering_at ([], Some Examples.no_such_host) 0)) = None
  /\ Cached.LookupSRV (Examples.answering_at ([], Some Examples.no_such_host) 0)
       (Cached.serviceName false) "tcp" "kbt.io"
     = ([], Some (DNSErr {| Err := "no such host"; Name := "kbt.io";
                            IsTimeout := false |}))
  /\ IsTimeout {| Err := "no such host"; Name := "kbt.io"; IsTimeout := false |}
     = false
  /\ Sub (Cached.Now (Examples.answering_at ([Examples.kbt_dot], None) 10))
       (Cached.Now (Examples.answering_at ([], Some Examples.no_such_host) 0))
     <= Cached.nameCacheDuration (this Examples.fresh_cached)
  /\ (Cached.baseURL (Examples.answering_at ([Examples.kbt_dot], None) 10)
        "kbt.io" false
        {| this :=
             Cached.SetFallbackHost
               (this (Cached.baseURL
                        (Examples.answering_at ([], Some Examples.no_such_host) 0)
                        "kbt.io" false Examples.fresh_cached).2) "example.org";
           lookups :=
             lookups (Cached.baseURL
                        (Examples.answering_at ([], Some Examples.no_such_host) 0)
                        "kbt.io" false Examples.fresh_cached).2 |}).1
     = Return ("http://cdn.libravatar.org", None).
Proof.
  assert (H1 : Cached.usable (this Examples.fresh_cached)
                 {| service := Cached.serviceName false; domain := "kbt.io" |}
                 (Cached.Now (Examples.answering_at
                                ([], Some Examples.no_such_host) 0)) = None)
    by reflexivity.
  assert (H2 : Cached.LookupSRV
                 (Examples.answering_at ([], Some Examples.no_such_host) 0)
                 (Cached.serviceName false) "tcp" "kbt.io"
               = ([], Some (DNSErr {| Err := "no such host"; Name := "kbt.io";
                                      IsTimeout := false |}))) by reflexivity.
  assert (H3 : IsTimeout {| Err := "no such host"; Name := "kbt.io";
                            IsTimeout := false |} = false) by reflexivity.
  assert (H4 : Sub (Cached.Now (Examples.answering_at ([Examples.kbt_dot], None) 10))
                 (Cached.Now (Examples.answering_at
                                ([], Some Examples.no_such_host) 0))
               <= Cached.nameCacheDuration (this Examples.fresh_cached))
    by (vm_compute; discriminate).
  split; [exact H1 |]. split; [exact H2 |]. split; [exact H3 |]. split; [exact H4 |].
  rewrite (cached_fallback_outlives_SetFallbackHost
             (Examples.answering_at ([], Some Examples.no_such_host) 0)
             "kbt.io" false Examples.fresh_cached
             (Examples.answering_at ([Examples.kbt_dot], None) 10)
             [] _ "example.org" H1 H2 H3 H4).
  reflexivity.
Defined.

Lemma FromEmail_rejects_witness :
  ((~ In at_sign (String.list_ascii_of_string "invalid@"))
   \/ (exists rest, "invalid@" = String at_sign rest)
   \/ (exists local, ~ In at_sign (String.list_ascii_of_string local)
                     /\ "invalid@" = local +:+ String at_sign ""))
  /\ Cached.FromEmail Examples.lib
       (Examples.answering_at ([Examples.kbt_dot], None) 0) "invalid@"
       Examples.fresh_cached
     = (Return ("", Some (ErrorString "invalid email")), Examples.fresh_cached)
  /\ Plain.FromEmail Examples.lib
       (Examples.plainly_answering ([Examples.kbt_dot], None)) "invalid@"
       Examples.fresh_plain
     = (Return ("", Some (ErrorString "invalid email")), Examples.fresh_plain).
Proof.
  assert (H : (~ In at_sign (String.list_ascii_of_string "invalid@"))
              \/ (exists rest, "invalid@" = String at_sign rest)
              \/ (exists local, ~ In at_sign (String.list_ascii_of_string local)
                                /\ "invalid@" = local +:+ String at_sign "")).
  { right. right. exists "invalid". split; [not_among | reflexivity]. }
  split; [exact H |].
  exact (FromEmail_rejects Examples.lib "invalid@"
           (Examples.answering_at ([Examples.kbt_dot], None) 0) Examples.fresh_cached
           (Examples.plainly_answering ([Examples.kbt_dot], None)) Examples.fresh_plain
           H).
Defined.

Lemma cached_FromEmail_resolves_after_first_at_witness :
  "strk" <> ""
  /\ ~ In at_sign (String.list_ascii_of_string "strk")
  /\ "kbt.io" <> ""
  /\ (Cached.FromEmail Examples.lib
        (Examples.answering_at ([Examples.kbt_dot], None) 0) "strk@kbt.io"
        Examples.fresh_cached).1
     = Return ("http://avatars.kbt.io/avatar/md5:strk@kbt.io", None).
Proof.
  assert (H1 : "strk" <> "") by discriminate.
  assert (H2 : ~ In at_sign (String.list_ascii_of_string "strk")) by not_among.
  assert (H3 : "kbt.io" <> "") by discriminate.
  split; [exact H1 |]. split; [exact H2 |]. split; [exact H3 |].
  change "strk@kbt.io" with ("strk" +:+ String at_sign "kbt.io").
  rewrite (cached_FromEmail_resolves_after_first_at Examples.lib
             (Examples.answering_at ([Examples.kbt_dot], None) 0)
             Examples.fresh_cached "strk" "kbt.io" H1 H2 H3).
  reflexivity.
Defined.

Lemma plain_FromEmail_resolves_after_first_at_witness :
  "strk" <> ""
  /\ ~ In at_sign (String.list_ascii_of_string "strk")
  /\ "kbt.io" <> ""
  /\ (Plain.FromEmail Examples.lib
        (Examples.plainly_answering ([Examples.kbt_dot], None)) "strk@kbt.io"
        Examples.fresh_plain).1
     = Return ("http://avatars.kbt.io/avatar/md5:strk@kbt.io", None).
Proof.
  assert (H1 : "strk" <> "") by discriminate.
  assert (H2 : ~ In at_sign (String.list_ascii_of_string "strk")) by not_among.
  assert (H3 : "kbt.io" <> "") by discriminate.
  split; [exact H1 |]. split; [exact H2 |]. split; [exact H3 |].
  change "strk@kbt.io" with ("strk" +:+ String at_sign "kbt.io").
  rewrite (plain_FromEmail_resolves_after_first_at Examples.lib
             (Examples.plainly_answering ([Examples.kbt_dot], None))
             Examples.fresh_plain "strk" "kbt.io" H1 H2 H3).
  reflexivity.
Defined.

Lemma cached_FromURL_wants_two_slashes_witness :
  (count_occ Ascii.ascii_dec (String.list_ascii_of_string "kbt.io/openid") slash
   < 2)%nat
  /\ Cached.FromURL Examples.lib
       (Examples.answering_at ([Examples.kbt_dot], None) 0) "kbt.io/openid"
       Examples.fresh_cached
     = (Return ("", Some (ErrorString "invalid url")), Examples.fresh_cached).
Proof.
  assert (H : (count_occ Ascii.ascii_dec
                 (String.list_ascii_of_string "kbt.io/openid") slash < 2)%nat)
    by (vm_compute; lia).
  split; [exact H |].
  exact (cached_FromURL_wants_two_slashes Examples.lib
           (Examples.answering_at ([Examples.kbt_dot], None) 0)
           Examples.fresh_cached "kbt.io/openid" H).
Defined.

Lemma cached_FromURL_empty_third_piece_witness :
  ~ In slash (String.list_ascii_of_string "http:")
  /\ ~ In slash (String.list_ascii_of_string "")
  /\ (String slash "openid" = ""
      \/ exists t, String slash "openid" = String slash t)
  /\ Cached.FromURL Examples.lib
       (Examples.answering_at ([Examples.kbt_dot], None) 0)
       ("http:" +:+ String slash ("" +:+ String slash (String slash "openid")))
       Examples.fresh_cached
     = (Return ("", Some (ErrorString "invalid email")), Examples.fresh_cached).
Proof.
  assert (H1 : ~ In slash (String.list_ascii_of_string "http:")) by not_among.
  assert (H2 : ~ In slash (String.list_ascii_of_string "")) by not_among.
  assert (H3 : String slash "openid" = ""
               \/ exists t, String slash "openid" = String slash t)
    by (right; exists "openid"; reflexivity).
  split; [exact H1 |]. split; [exact H2 |]. split; [exact H3 |].
  exact (cached_FromURL_empty_third_piece Examples.lib
           (Examples.answering_at ([Examples.kbt_dot], None) 0)
           Examples.fresh_cached "http:" "" (String slash "openid") H1 H2 H3).
Defined.

Lemma cached_FromURL_resolves_third_piece_witness :
  ~ In slash (String.list_ascii_of_string "https:")
  /\ ~ In slash (String.list_ascii_of_string "")
  /\ ~ In slash (String.list_ascii_of_string "strk.kbt.io")
  /\ "strk.kbt.io" <> ""
  /\ (String slash "openid/" = ""
      \/ exists t, String slash "openid/" = String slash t)
  /\ Cached.useHTTPS (this Examples.fresh_cached) = false
  /\ Cached.FromURL Examples.lib
       (Examples.answering_at ([], Some Examples.no_such_host) 0)
       "https://strk.kbt.io/openid/" Examples.fresh_cached
     = (Return ("https://cdn.libravatar.org/avatar/sha256:https://strk.kbt.io/openid/",
                None),
        Cached.stored {| service := "avatars-sec"; domain := "strk.kbt.io" |}
          {| target := "cdn.libravatar.org"; checkedAt := 0 |}
          (logged ("avatars-sec", "tcp", "strk.kbt.io") Examples.fresh_cached)).
Proof.
  assert (H1 : ~ In slash (String.list_ascii_of_string "https:")) by not_among.
  assert (H2 : ~ In slash (String.list_ascii_of_string "")) by not_among.
  assert (H3 : ~ In slash (String.list_ascii_of_string "strk.kbt.io")) by not_among.
  assert (H4 : "strk.kbt.io" <> "") by discriminate.
  assert (H5 : String slash "openid/" = ""
               \/ exists t, String slash "openid/" = String slash t)
    by (right; exists "openid/"; reflexivity).
  split; [exact H1 |]. split; [exact H2 |]. split; [exact H3 |].
  split; [exact H4 |]. split; [exact H5 |]. split; [reflexivity |].
  change "https://strk.kbt.io/openid/"
    with ("https:" +:+ String slash
            ("" +:+ String slash ("strk.kbt.io" +:+ String slash "openid/"))) at 1.
  rewrite (cached_FromURL_resolves_third_piece Examples.lib
             (Examples.answering_at ([], Some Examples.no_such_host) 0)
             Examples.fresh_cached "https:" "" "strk.kbt.io"
             (String slash "openid/") H1 H2 H3 H4 H5).
  reflexivity.
Defined.

Lemma cached_FromEmail_repeats_without_query_witness :
  (Cached.FromEmail Examples.lib
     (Examples.answering_at ([Examples.kbt_dot], None) 0) "strk@kbt.io"
     Examples.fresh_cached).1
  = Return ("http://avatars.kbt.io/avatar/md5:strk@kbt.io", None)
  /\ exists local dom val,
       "strk@kbt.io" = local +:+ String at_sign dom
       /\ ~ In at_sign (String.list_ascii_of_string local)
       /\ Cached.nameCache
            (this (Cached.FromEmail Examples.lib
                     (Examples.answering_at ([Examples.kbt_dot], None) 0)
                     "strk@kbt.io" Examples.fresh_cached).2)
            !! {| service := Cached.serviceName
                               (Cached.useHTTPS (this Examples.fresh_cached));
                  domain := dom |}
          = Some val
       /\ forall w2,
            Sub (Cached.Now w2) (checkedAt val)
            <= Cached.nameCacheDuration
                 (this (Cached.FromEmail Examples.lib
                          (Examples.answering_at ([Examples.kbt_dot], None) 0)
                          "strk@kbt.io" Examples.fresh_cached).2) ->
            Cached.FromEmail Examples.lib w2 "strk@kbt.io"
              (Cached.FromEmail Examples.lib
                 (Examples.answering_at ([Examples.kbt_dot], None) 0)
                 "strk@kbt.io" Examples.fresh_cached).2
            = (Return ("http://avatars.kbt.io/avatar/md5:strk@kbt.io", None),
               (Cached.FromEmail Examples.lib
                  (Examples.answering_at ([Examples.kbt_dot], None) 0)
                  "strk@kbt.io" Examples.fresh_cached).2).
Proof.
  assert (H : (Cached.FromEmail Examples.lib
                 (Examples.answering_at ([Examples.kbt_dot], None) 0)
                 "strk@kbt.io" Examples.fresh_cached).1
              = Return ("http://avatars.kbt.io/avatar/md5:strk@kbt.io", None))
    by reflexivity.
  split; [exact H |].
  exact (cached_FromEmail_repeats_without_query Examples.lib
           (Examples.answering_at ([Examples.kbt_dot], None) 0)
           Examples.fresh_cached "strk@kbt.io" _ H).
Defined.

Lemma cached_FromURL_repeats_without_query_witness :
  (Cached.FromURL Examples.lib
     (Examples.answering_at ([Examples.kbt_dot], None) 0)
     "https://strk.kbt.io/openid/" Examples.fresh_cached).1
  = Return ("https://avatars.kbt.io/avatar/sha256:https://strk.kbt.io/openid/",
            None)
  /\ exists a b host tail val,
       "https://strk.kbt.io/openid/"
       = a +:+ String slash (b +:+ String slash (host +:+ tail))
       /\ ~ In slash (String.list_ascii_of_string a)
       /\ ~ In slash (String.list_ascii_of_string b)
       /\ ~ In slash (String.list_ascii_of_string host)
       /\ (tail = "" \/ exists t, tail = String slash t)
       /\ Cached.nameCache
            (this (Cached.FromURL Examples.lib
                     (Examples.answering_at ([Examples.kbt_dot], None) 0)
                     "https://strk.kbt.io/openid/" Examples.fresh_cached).2)
            !! {| service :=
                    Cached.serviceName
                      (if String.eqb a "https:" then true
                       else Cached.useHTTPS (this Examples.fresh_cached));
                  domain := host |}
          = Some val
       /\ forall w2,
            Sub (Cached.Now w2) (checkedAt val)
            <= Cached.nameCacheDuration
                 (this (Cached.FromURL Examples.lib
                          (Examples.answering_at ([Examples.kbt_dot], None) 0)
                          "https://strk.kbt.io/openid/" Examples.fresh_cached).2) ->
            Cached.FromURL Examples.lib w2 "https://strk.kbt.io/openid/"
              (Cached.FromURL Examples.lib
                 (Examples.answering_at ([Examples.kbt_dot], None) 0)
                 "https://strk.kbt.io/openid/" Examples.fresh_cached).2
            = (Return ("https://avatars.kbt.io/avatar/sha256:https://strk.kbt.io/openid/",
                       None),
               (Cached.FromURL Examples.lib
                  (Examples.answering_at ([Examples.kbt_dot], None) 0)
                  "https://strk.kbt.io/openid/" Examples.fresh_cached).2).
Proof.
  assert (H : (Cached.FromURL Examples.lib
                 (Examples.answering_at ([Examples.kbt_dot], None) 0)
                 "https://strk.kbt.io/openid/" Examples.fresh_cached).1
              = Return ("https://avatars.kbt.io/avatar/sha256:https://strk.kbt.io/openid/",
                        None)) by reflexivity.
  split; [exact H |].
  exact (cached_FromURL_repeats_without_query Examples.lib
           (Examples.answering_at ([Examples.kbt_dot], None) 0)
           Examples.fresh_cached "https://strk.kbt.io/openid/" _ H).
Defined.
